(** * SimpleFib: a shallow embedding of the record store, the Fibonacci
      engine and the predictor, with the properties of their specification.

    The Python sources are [simplefib/uid.py], [simplefib/fib.py],
    [simplefib/db.py], [simplefib/predict.py] and [simplefib/cli.py].
    Python integers are [Z]; strings are [string]; a [dict] is an
    insertion-ordered association list; an object that is mutated in place
    is a state threaded through a small state-and-exception monad, in which
    the state survives a raised exception (as the object does in Python). *)

From Stdlib Require Import ZArith List String Ascii Bool Lia.
From Stdlib Require SpecFloat.
Import ListNotations.
Local Open Scope string_scope.
Local Open Scope list_scope.
Local Open Scope Z_scope.

(** ** Python run-time: exceptions, the state-and-exception monad *)

Module Py.

(** The exception classes the modelled code can raise.  [ValueError] and
    [AssertionError] carry the message given in the source. *)
Inductive exn : Type :=
| ValueError (msg : string)
| AssertionError (msg : string)
| KeyError (key : string)
| IndexError
| TypeError
| OverflowError.

Definition result (A : Type) : Type := (exn + A)%type.

(** A computation over a mutable object of type [S]: it returns a value or
    raises, and in both cases leaves the object in some state. *)
Definition M (S A : Type) : Type := S -> result A * S.

Definition ret {S A} (a : A) : M S A := fun s => (inr a, s).

Definition raise {S A} (e : exn) : M S A := fun s => (inl e, s).

Definition bind {S A B} (c : M S A) (k : A -> M S B) : M S B :=
  fun s =>
    match c s with
    | (inr a, s') => k a s'
    | (inl e, s') => (inl e, s')
    end.

Definition gets {S A} (f : S -> A) : M S A := fun s => (inr (f s), s).

Definition modify {S} (f : S -> S) : M S unit := fun s => (inr tt, f s).

Definition lift {S A} (r : result A) : M S A := fun s => (r, s).

(** Sequencing of computations that touch no object. *)
Definition rbind {A B} (r : result A) (k : A -> result B) : result B :=
  match r with
  | inr a => k a
  | inl e => inl e
  end.

(** The outcome of a computation is an exception. *)
Definition fails {S A} (out : result A * S) : Prop :=
  exists e, fst out = inl e.

(** [assert cond, msg] with assertions enabled (the interpreter's default). *)
Definition assert {S} (cond : bool) (msg : string) : M S unit :=
  if cond then ret tt else raise (AssertionError msg).

(** [for x in xs: body x]. *)
Fixpoint for_ {S A} (xs : list A) (body : A -> M S unit) : M S unit :=
  match xs with
  | [] => ret tt
  | x :: xs' => bind (body x) (fun _ => for_ xs' body)
  end.

(** [range(a, b)]. *)
Definition range (a b : Z) : list Z :=
  map (fun k => a + Z.of_nat k) (seq 0 (Z.to_nat (b - a))).

Definition len {A} (l : list A) : Z := Z.of_nat (List.length l).

(** [l[i]] on a list: a negative index counts from the end, an index out of
    range raises [IndexError]. *)
Definition getitem {A} (l : list A) (i : Z) : result A :=
  let j := if i <? 0 then len l + i else i in
  if j <? 0 then inl IndexError
  else match nth_error l (Z.to_nat j) with
       | Some x => inr x
       | None => inl IndexError
       end.

End Py.

Declare Scope py_scope.
Delimit Scope py_scope with py.
Notation "x <- c ;; k" := (Py.bind c (fun x => k))
  (at level 61, c at next level, right associativity) : py_scope.
Notation "c ;;; k" := (Py.bind c (fun _ => k))
  (at level 61, right associativity) : py_scope.
Notation "x <-? r ;; k" := (Py.rbind r (fun x => k))
  (at level 61, r at next level, right associativity) : py_scope.
Local Open Scope py_scope.

(** ** [simplefib/fib.py] *)

Module FibNumbers.

(** The object: its private list [__fibNumbers]. *)
Record t : Type := mk { fibNumbers : list Z }.

(** [FibNumbers.__init__], and so the module-level instance [fibNumbers]. *)
Definition init : t := {| fibNumbers := [1; 1] |}.

Definition append (x : Z) : Py.M t unit :=
  Py.modify (fun self => {| fibNumbers := fibNumbers self ++ [x] |}).

Definition at_ (i : Z) : Py.M t Z :=
  fun self => (Py.getitem (fibNumbers self) i, self).

Definition getNthFibNumber (n : Z) : Py.M t Z :=
  if n =? 0 then
    Py.raise (Py.ValueError "For our cases, there is no zeroth fib number")
  else if n <? 0 then
    Py.raise (Py.ValueError "Can't have a negative fib number.")
  else
    l <- Py.gets (fun self => Py.len (fibNumbers self)) ;;
    if n <=? l then at_ (n - 1)
    else
      Py.for_ (Py.range l n)
        (fun i => a <- at_ (i - 1) ;; b <- at_ (i - 2) ;; append (a + b)) ;;;
      at_ (n - 1).

(** [fibGenerator]: the values the generator yields when run to its end
    (or the exception that ends it). *)
Fixpoint fibGenerator (numSeq : list Z) : Py.M t (list Z) :=
  match numSeq with
  | [] => Py.ret []
  | i :: rest =>
      x <- getNthFibNumber i ;;
      xs <- fibGenerator rest ;;
      Py.ret (x :: xs)
  end.

(** The states the engine can be in: the fresh one, and every state that a
    call of [getNthFibNumber] leaves behind. *)
Inductive reachable : t -> Prop :=
| reachable_init : reachable init
| reachable_call : forall self n,
    reachable self -> reachable (snd (getNthFibNumber n self)).

(** [fibGenerator] consumed to its end: the values it yields, in order, and
    the exception that ends it, if one does (the generator is lazy, so the
    values before a failing index have been yielded when it raises). *)
Fixpoint fibGenerator_run (numSeq : list Z) (self : t)
  : (list Z * option Py.exn) * t :=
  match numSeq with
  | [] => (([], None), self)
  | i :: rest =>
      match getNthFibNumber i self with
      | (inl e, self') => (([], Some e), self')
      | (inr x, self') =>
          let '((xs, end_), self'') := fibGenerator_run rest self' in
          ((x :: xs, end_), self'')
      end
  end.

(** [isXAFibNumber]: the loop [while True] from index [i], run for at most
    [fuel] iterations; [None] when the fuel is used up before the loop
    returns. *)
Fixpoint isXAFibNumber_loop (fuel : nat) (i x : Z) : Py.M t (option bool) :=
  match fuel with
  | O => Py.ret None
  | S fuel' =>
      a <- getNthFibNumber i ;;
      if a =? x then Py.ret (Some true)
      else
        b <- getNthFibNumber i ;;
        if x <? b then Py.ret (Some false)
        else isXAFibNumber_loop fuel' (i + 1) x
  end.

Definition isXAFibNumber (fuel : nat) (x : Z) : Py.M t (option bool) :=
  isXAFibNumber_loop fuel 1 x.

End FibNumbers.

(** The mathematical sequence 1, 1, 2, 3, 5, ... indexed from 0, used to
    describe the contents of the memo. *)
Fixpoint fib_pair (k : nat) : Z * Z :=
  match k with
  | O => (1, 1)
  | S k' => let '(a, b) := fib_pair k' in (b, a + b)
  end.

Definition fib_at (k : nat) : Z := fst (fib_pair k).

Definition memo_ok (self : FibNumbers.t) : Prop :=
  (2 <= List.length (FibNumbers.fibNumbers self))%nat /\
  FibNumbers.fibNumbers self =
    map fib_at (seq 0 (List.length (FibNumbers.fibNumbers self))).

(** ** Python [dict]: insertion-ordered, keys compared with [__eq__] *)

Module PyDict.

Section Dict.

Context {K V : Type} (eqb : K -> K -> bool).

Definition t : Type := list (K * V).

Definition empty : t := [].

(** [d.get(k)] as an option; [d[k]] raises [KeyError] on [None]. *)
Fixpoint lookup (d : t) (k : K) : option V :=
  match d with
  | [] => None
  | (k', v) :: d' => if eqb k' k then Some v else lookup d' k
  end.

(** [k in d]. *)
Definition contains (d : t) (k : K) : bool :=
  match lookup d k with Some _ => true | None => false end.

(** [d[k] = v]: an existing key keeps its place (and its key object), a new
    key goes to the end. *)
Fixpoint set (d : t) (k : K) (v : V) : t :=
  match d with
  | [] => [(k, v)]
  | (k', v') :: d' =>
      if eqb k' k then (k', v) :: d' else (k', v') :: set d' k v
  end.

(** [del d[k]] for a key that is present. *)
Fixpoint del (d : t) (k : K) : t :=
  match d with
  | [] => []
  | (k', v') :: d' => if eqb k' k then d' else (k', v') :: del d' k
  end.

Definition keys (d : t) : list K := map fst d.

(** The invariant of the representation: no key occurs twice. *)
Fixpoint unique_keys (d : t) : bool :=
  match d with
  | [] => true
  | (k, _) :: d' => negb (contains d' k) && unique_keys d'
  end.

Definition values (d : t) : list V := map snd d.

End Dict.

End PyDict.

(** ** Python [float]: IEEE 754 binary64, round to nearest, ties to even *)

Module Float.

(** A finite float is the dyadic number [m * 2^e].  The sign of a zero is
    not kept: nothing the modelled code computes depends on it. *)
Inductive t : Type :=
| Finite (m e : Z)
| Inf (negative : bool)
| NaN.

(** [m / 2^k] rounded to the nearest integer, ties to even ([0 <= k]). *)
Definition rne_shift (m k : Z) : Z :=
  let d := 2 ^ k in
  let q := m / d in
  let r := m mod d in
  if 2 * r <? d then q
  else if d <? 2 * r then q + 1
  else if Z.even q then q else q + 1.

(** The exponent of the unit in the last place of [m * 2^ex], for [0 < m]:
    53 significant bits, and no exponent below that of the subnormals. *)
Definition ulp_exp (m ex : Z) : Z := Z.max (Z.log2 m + ex - 52) (-1074).

(** The binary64 value nearest to the positive real [m * 2^ex]. *)
Definition round_pos (m ex : Z) : t :=
  let e := ulp_exp m ex in
  let n := if e <=? ex then m * 2 ^ (ex - e) else rne_shift m (e - ex) in
  if (971 <? e) || ((e =? 971) && (2 ^ 53 <=? n)) then Inf false
  else Finite n e.

Definition opp (x : t) : t :=
  match x with
  | Finite m e => Finite (- m) e
  | Inf s => Inf (negb s)
  | NaN => NaN
  end.

(** The binary64 value nearest to the real [m * 2^ex]. *)
Definition round (m ex : Z) : t :=
  if m =? 0 then Finite 0 0
  else if m <? 0 then opp (round_pos (- m) ex)
  else round_pos m ex.

(** The conversion of an [int] operand to [float] in mixed arithmetic. *)
Definition of_int (z : Z) : Py.result t :=
  match round z 0 with
  | Finite m e => inr (Finite m e)
  | _ => inl Py.OverflowError
  end.

Definition mul (x y : t) : t :=
  match x, y with
  | NaN, _ | _, NaN => NaN
  | Finite m1 e1, Finite m2 e2 => round (m1 * m2) (e1 + e2)
  | Finite m _, Inf s | Inf s, Finite m _ =>
      if m =? 0 then NaN else Inf (xorb s (m <? 0))
  | Inf s1, Inf s2 => Inf (xorb s1 s2)
  end.

Definition add (x y : t) : t :=
  match x, y with
  | NaN, _ | _, NaN => NaN
  | Finite m1 e1, Finite m2 e2 =>
      let e := Z.min e1 e2 in
      round (m1 * 2 ^ (e1 - e) + m2 * 2 ^ (e2 - e)) e
  | Finite _ _, Inf s | Inf s, Finite _ _ => Inf s
  | Inf s1, Inf s2 => if Bool.eqb s1 s2 then Inf s1 else NaN
  end.

(** The builtin [round(x)] of a float with no [ndigits]: the nearest
    [int], ties to even. *)
Definition round_to_int (x : t) : Py.result Z :=
  match x with
  | NaN => inl (Py.ValueError "cannot convert float NaN to integer")
  | Inf _ => inl Py.OverflowError
  | Finite m e => inr (if 0 <=? e then m * 2 ^ e else rne_shift m (- e))
  end.

(** [0 <= x] as Python evaluates it ([False] on NaN). *)
Definition nonneg (x : t) : bool :=
  match x with
  | Finite m _ => 0 <=? m
  | Inf s => negb s
  | NaN => false
  end.

(** The same number (several pairs [m], [e] denote one finite number), or
    NaN on both sides. *)
Definition same (x y : t) : bool :=
  match x, y with
  | Finite m1 e1, Finite m2 e2 =>
      m1 * 2 ^ (e1 - Z.min e1 e2) =? m2 * 2 ^ (e2 - Z.min e1 e2)
  | Inf s1, Inf s2 => Bool.eqb s1 s2
  | NaN, NaN => true
  | _, _ => false
  end.

(** The floats of the standard library's specification of IEEE 754
    arithmetic ([SpecFloat], at precision 53 and [emax] 1024), against which
    the operations above are tested further down. *)
Definition of_spec (f : SpecFloat.spec_float) : t :=
  match f with
  | SpecFloat.S754_zero _ => Finite 0 0
  | SpecFloat.S754_infinity s => Inf s
  | SpecFloat.S754_nan => NaN
  | SpecFloat.S754_finite s m e => Finite (if s then Z.neg m else Z.pos m) e
  end.

Definition spec_of_dyadic (me : Z * Z) : SpecFloat.spec_float :=
  SpecFloat.binary_normalize 53 1024 (fst me) (snd me) false.

Definition of_dyadic (me : Z * Z) : t := round (fst me) (snd me).

(** Dyadic numbers that exercise ties, subnormals and overflow. *)
Definition test_values : list (Z * Z) :=
  [(0, 0); (1, 0); (5, -1); (-1, 0); (3602879701896397, -55);
   (-3602879701896397, -54); (1, -1074); (3, -1075); (1, -1075);
   (-1, -1076); (2 ^ 53 + 1, 0); (2 ^ 53 + 3, 0); (2 ^ 54 - 1, 970);
   (2 ^ 53 - 1, 971); (12586269025, 0); (7, 500); (-9, -600);
   (123456789, -1090); (2 ^ 52, -1074); (2 ^ 52 + 1, -1075)].

End Float.

(** ** Python [datetime]: the parts of the standard library the code uses

    A [datetime] holds its calendar fields; [tzinfo] is [None] (naive) or a
    fixed-offset [timezone], given by its offset in microseconds
    ([timezone.utc] is offset 0): these are the values that
    [datetime.now(tz=timezone.utc)] and [datetime.fromisoformat] produce.
    The functions follow the reference implementation of the standard
    library ([Lib/datetime.py]; [fromisoformat] as in Python 3.7 to 3.10,
    later versions accept more strings). *)

Module datetime.

Record t : Type := mk {
  year : Z; month : Z; day : Z;
  hour : Z; minute : Z; second : Z; microsecond : Z;
  tzinfo : option Z
}.

Definition utc : option Z := Some 0.

Definition _MAXORDINAL : Z := 3652059.

Definition _is_leap (y : Z) : bool :=
  (y mod 4 =? 0) && (negb (y mod 100 =? 0) || (y mod 400 =? 0)).

Definition _DAYS_IN_MONTH : list Z :=
  [-1; 31; 28; 31; 30; 31; 30; 31; 31; 30; 31; 30; 31].

Definition _DAYS_BEFORE_MONTH : list Z :=
  [-1; 0; 31; 59; 90; 120; 151; 181; 212; 243; 273; 304; 334].

Definition _days_in_month (y m : Z) : Z :=
  if (m =? 2) && _is_leap y then 29 else nth (Z.to_nat m) _DAYS_IN_MONTH 0.

Definition _days_before_year (y : Z) : Z :=
  let y' := y - 1 in y' * 365 + y' / 4 - y' / 100 + y' / 400.

Definition _days_before_month (y m : Z) : Z :=
  nth (Z.to_nat m) _DAYS_BEFORE_MONTH 0 +
  (if (2 <? m) && _is_leap y then 1 else 0).

Definition _ymd2ord (y m d : Z) : Z :=
  _days_before_year y + _days_before_month y m + d.

Definition _ord2ymd (n : Z) : Z * Z * Z :=
  let n := n - 1 in
  let n400 := n / 146097 in
  let n := n mod 146097 in
  let y := n400 * 400 + 1 in
  let n100 := n / 36524 in
  let n := n mod 36524 in
  let n4 := n / 1461 in
  let n := n mod 1461 in
  let n1 := n / 365 in
  let n := n mod 365 in
  let y := y + n100 * 100 + n4 * 4 + n1 in
  if (n1 =? 4) || (n100 =? 4) then (y - 1, 12, 31)
  else
    let leapyear := (n1 =? 3) && (negb (n4 =? 24) || (n100 =? 3)) in
    let m := Z.shiftr (n + 50) 5 in
    let preceding :=
      nth (Z.to_nat m) _DAYS_BEFORE_MONTH 0 +
      (if (2 <? m) && leapyear then 1 else 0) in
    if n <? preceding then
      let m := m - 1 in
      let preceding :=
        preceding - (nth (Z.to_nat m) _DAYS_IN_MONTH 0 +
                     (if (m =? 2) && leapyear then 1 else 0)) in
      (y, m, n - preceding + 1)
    else (y, m, n - preceding + 1).

(** The checks of the constructors ([_check_date_fields],
    [_check_time_fields], and the offset range of [timezone]): every
    [datetime] object satisfies them. *)
Definition valid (d : t) : bool :=
  (1 <=? year d) && (year d <=? 9999) &&
  (1 <=? month d) && (month d <=? 12) &&
  (1 <=? day d) && (day d <=? _days_in_month (year d) (month d)) &&
  (0 <=? hour d) && (hour d <=? 23) &&
  (0 <=? minute d) && (minute d <=? 59) &&
  (0 <=? second d) && (second d <=? 59) &&
  (0 <=? microsecond d) && (microsecond d <=? 999999) &&
  match tzinfo d with
  | None => true
  | Some off => (-86400000000 <? off) && (off <? 86400000000)
  end.

(** [timedelta(days=n)]: the number of days it holds. *)
Definition timedelta_days (n : Z) : Py.result Z :=
  if 999999999 <? Z.abs n then inl Py.OverflowError else inr n.

(** [d + timedelta(days=n)]. *)
Definition add_days (d : t) (n : Z) : Py.result t :=
  let o := _ymd2ord (year d) (month d) (day d) + n in
  if (0 <? o) && (o <=? _MAXORDINAL) then
    let '(y, m, dd) := _ord2ymd o in
    inr {| year := y; month := m; day := dd;
           hour := hour d; minute := minute d; second := second d;
           microsecond := microsecond d; tzinfo := tzinfo d |}
  else inl Py.OverflowError.

(** *** Text: ["%0wd"], [int(s)], slices *)

Definition digit (k : Z) : ascii := ascii_of_nat (48 + Z.to_nat k).

(** ["%0wd" % n] for [0 <= n < 10^w], which is where the field ranges of a
    [datetime] keep it. *)
Fixpoint fmt (w : nat) (n : Z) : string :=
  match w with
  | O => EmptyString
  | S w' => String (digit (n / 10 ^ Z.of_nat w' mod 10)) (fmt w' n)
  end.

Definition digit_val (c : ascii) : option Z :=
  let n := nat_of_ascii c in
  if (48 <=? n)%nat && (n <=? 57)%nat then Some (Z.of_nat (n - 48)) else None.

Fixpoint parse_digits (s : string) (acc : Z) : option Z :=
  match s with
  | EmptyString => Some acc
  | String c s' =>
      match digit_val c with
      | Some v => parse_digits s' (10 * acc + v)
      | None => None
      end
  end.

(** [int(s)] on a string of decimal digits; anything else is rejected
    (the standard library's C parser of ISO strings accepts digits only). *)
Definition int (s : string) : Py.result Z :=
  match s with
  | EmptyString => inl (Py.ValueError "invalid literal for int()")
  | _ => match parse_digits s 0 with
         | Some z => inr z
         | None => inl (Py.ValueError "invalid literal for int()")
         end
  end.

(** [s[a:b]] and [s[a:]] for indices that are not negative. *)
Definition slice (s : string) (a b : nat) : string := substring a (b - a) s.

Definition slice_from (s : string) (a : nat) : string :=
  substring a (String.length s - a) s.

(** [s.find(c) + 1]: 0 when [c] does not occur. *)
Fixpoint find1 (c : ascii) (s : string) : nat :=
  match s with
  | EmptyString => O
  | String c' s' =>
      if Ascii.eqb c' c then 1%nat
      else match find1 c s' with O => O | S i => S (S i) end
  end.

(** A character that is the decimal digit of value [k]; such a character
    is neither of the signs that [fromisoformat] searches for. *)
Definition is_digit (c : ascii) (k : Z) : Prop :=
  digit_val c = Some k /\ Ascii.eqb c "-" = false /\ Ascii.eqb c "+" = false.

(** *** [isoformat] *)

Definition _format_time (hh mm ss us : Z) : string :=
  (fmt 2 hh ++ ":" ++ fmt 2 mm ++ ":" ++ fmt 2 ss ++
   (if (us =? 0)%Z then "" else "." ++ fmt 6 us))%string.

Definition _format_offset (off : option Z) : string :=
  match off with
  | None => ""
  | Some off =>
      let sign := if off <? 0 then "-" else "+" in
      let a := Z.abs off in
      let hh := a / 3600000000 in
      let r := a mod 3600000000 in
      let mm := r / 60000000 in
      let ss := r mod 60000000 in
      (sign ++ fmt 2 hh ++ ":" ++ fmt 2 mm ++
       (if (ss =? 0)%Z then ""
        else ":" ++ fmt 2 (ss / 1000000)%Z ++
             (if (ss mod 1000000 =? 0)%Z then ""
              else "." ++ fmt 6 (ss mod 1000000)%Z)))%string
  end.

Definition isoformat (d : t) : string :=
  (fmt 4 (year d) ++ "-" ++ fmt 2 (month d) ++ "-" ++ fmt 2 (day d) ++ "T" ++
   _format_time (hour d) (minute d) (second d) (microsecond d) ++
   _format_offset (tzinfo d))%string.

(** *** [fromisoformat] *)

Definition invalid {A} : Py.result A :=
  inl (Py.ValueError "Invalid isoformat string").

Definition _parse_isoformat_date (dtstr : string) : Py.result (Z * Z * Z) :=
  y <-? int (slice dtstr 0 4) ;;
  if negb (String.eqb (slice dtstr 4 5) "-") then invalid else
  m <-? int (slice dtstr 5 7) ;;
  if negb (String.eqb (slice dtstr 7 8) "-") then invalid else
  d <-? int (slice dtstr 8 10) ;;
  inr (y, m, d).

(** The loop [for comp in range(0, 3)] of [_parse_hh_mm_ss_ff], with [k]
    components still to read: the components read, and the position
    reached. *)
Fixpoint parse_comps (k : nat) (tstr : string) (pos : nat)
  : Py.result (list Z * nat) :=
  match k with
  | O => inr ([], pos)
  | S k' =>
      if (String.length tstr - pos <? 2)%nat then invalid else
      v <-? int (slice tstr pos (pos + 2)) ;;
      let pos := (pos + 2)%nat in
      let next_char := slice tstr pos (pos + 1) in
      if String.eqb next_char "" || Nat.eqb k' 0 then inr ([v], pos)
      else if negb (String.eqb next_char ":") then invalid
      else
        r <-? parse_comps k' tstr (pos + 1) ;;
        inr (v :: fst r, snd r)
  end.

(** [_parse_hh_mm_ss_ff]: hours, minutes, seconds, microseconds. *)
Definition _parse_hh_mm_ss_ff (tstr : string) : Py.result (Z * Z * Z * Z) :=
  r <-? parse_comps 3 tstr 0 ;;
  let comps := fst r in
  let pos := snd r in
  let hh := nth 0 comps 0 in
  let mm := nth 1 comps 0 in
  let ss := nth 2 comps 0 in
  if (pos <? String.length tstr)%nat then
    if negb (String.eqb (slice tstr pos (pos + 1)) ".") then invalid else
    let pos := (pos + 1)%nat in
    let len_remainder := (String.length tstr - pos)%nat in
    if negb (Nat.eqb len_remainder 3 || Nat.eqb len_remainder 6) then invalid
    else
      us <-? int (slice_from tstr pos) ;;
      inr (hh, mm, ss, if Nat.eqb len_remainder 3 then us * 1000 else us)
  else inr (hh, mm, ss, 0).

Definition _parse_isoformat_time (tstr : string)
  : Py.result (Z * Z * Z * Z * option Z) :=
  if (String.length tstr <? 2)%nat then invalid else
  let tz_pos := match find1 "-" tstr with
                | O => find1 "+" tstr
                | p => p
                end in
  let timestr := if (0 <? tz_pos)%nat then slice tstr 0 (tz_pos - 1)
                 else tstr in
  tc <-? _parse_hh_mm_ss_ff timestr ;;
  if (0 <? tz_pos)%nat then
    let tzstr := slice_from tstr tz_pos in
    let l := String.length tzstr in
    if negb (Nat.eqb l 5 || Nat.eqb l 8 || Nat.eqb l 15) then invalid else
    zc <-? _parse_hh_mm_ss_ff tzstr ;;
    let '(zh, zm, zs, zu) := zc in
    if (zh =? 0) && (zm =? 0) && (zs =? 0) && (zu =? 0)
    then inr (tc, utc)
    else
      let tzsign :=
        if String.eqb (slice tstr (tz_pos - 1) tz_pos) "-" then -1 else 1 in
      let td := zh * 3600000000 + zm * 60000000 + zs * 1000000 + zu in
      inr (tc, Some (tzsign * td))
  else inr (tc, None).

Definition fromisoformat (date_string : string) : Py.result t :=
  let dstr := slice date_string 0 10 in
  let tstr := slice_from date_string 11 in
  dc <-? _parse_isoformat_date dstr ;;
  tc <-? (if String.eqb tstr "" then inr (0, 0, 0, 0, None)
          else _parse_isoformat_time tstr) ;;
  let '(y, m, d) := dc in
  let '(hh, mm, ss, us, tz) := tc in
  let r := {| year := y; month := m; day := d;
              hour := hh; minute := mm; second := ss; microsecond := us;
              tzinfo := tz |} in
  if valid r then inr r else inl (Py.ValueError "field out of range").

End datetime.

(** ** [simplefib/uid.py] *)

Module UID.

(** The object: its private string [__uid]. *)
Record t : Type := mk { uid : string }.

(** [generateUID]: the random token and the clock reading are inputs. *)
Definition generateUID (utcnow : datetime.t) (token_hex : string) : string :=
  (token_hex ++ datetime.isoformat utcnow)%string.

(** [UID(uid)] for a given string. *)
Definition init (uid : string) : t := {| uid := ("" ++ uid)%string |}.

Definition toString (self : t) : string := uid self.

Definition fromString (uidString : string) : t := init uidString.

(** [__eq__]; [__hash__] hashes the same string, so a [dict] keyed by
    [UID] compares keys with this. *)
Definition eqb (self other : t) : bool := String.eqb (uid self) (uid other).

End UID.

(** ** JSON dicts: what [toJSON] builds and [fromJSON] reads *)

Module JSON.

Inductive value : Type :=
| Str (s : string)
| Bool (b : bool)
| Float (x : Float.t)
| Int (z : Z).

Definition dict : Type := PyDict.t (K := string) (V := value).

(** [dictIn[key]]. *)
Definition getitem (d : dict) (key : string) : Py.result value :=
  match PyDict.lookup String.eqb d key with
  | Some v => inr v
  | None => inl (Py.KeyError key)
  end.

(** The records are typed here, so reading a field of the wrong type is
    rejected (Python would store whatever the dict holds). *)
Definition as_str (v : value) : Py.result string :=
  match v with Str s => inr s | _ => inl Py.TypeError end.

Definition as_bool (v : value) : Py.result bool :=
  match v with Bool b => inr b | _ => inl Py.TypeError end.

Definition as_float (v : value) : Py.result Float.t :=
  match v with Float x => inr x | _ => inl Py.TypeError end.

Definition as_int (v : value) : Py.result Z :=
  match v with Int z => inr z | _ => inl Py.TypeError end.

(** [v == s] for a string literal [s]. *)
Definition eqb_str (v : value) (s : string) : bool :=
  match v with Str s' => String.eqb s' s | _ => false end.

End JSON.

(** ** [simplefib/db.py]: the records *)

Module Subject.

Record t : Type := mk {
  uid : UID.t; name : string; active : bool; weight : Float.t; bias : Z
}.

(** [Subject(uid, name, active, weight=1.0, bias=0)]. *)
Definition init (uid : UID.t) (name : string) (active : bool)
    (weight : option Float.t) (bias : option Z) : t :=
  {| uid := uid; name := name; active := active;
     weight := match weight with Some w => w | None => Float.round 1 0 end;
     bias := match bias with Some b => b | None => 0 end |}.

Definition toJSON (self : t) : JSON.dict :=
  [ ("uid", JSON.Str (UID.toString (uid self)));
    ("name", JSON.Str (name self));
    ("active", JSON.Bool (active self));
    ("weight", JSON.Float (weight self));
    ("bias", JSON.Int (bias self));
    ("type", JSON.Str "subject") ].

Definition fromJSON (dictIn : JSON.dict) : Py.result t :=
  u <-? Py.rbind (JSON.getitem dictIn "uid") JSON.as_str ;;
  n <-? Py.rbind (JSON.getitem dictIn "name") JSON.as_str ;;
  a <-? Py.rbind (JSON.getitem dictIn "active") JSON.as_bool ;;
  w <-? Py.rbind (JSON.getitem dictIn "weight") JSON.as_float ;;
  b <-? Py.rbind (JSON.getitem dictIn "bias") JSON.as_int ;;
  inr (init (UID.fromString u) n a (Some w) (Some b)).

End Subject.

(** The module [simplefib.db] once imported.  A default value of a
    parameter is evaluated when the [def] statement runs, so the default of
    [dTime] in [Topic.__init__] is the reading of
    [datetime.now(tz=timezone.utc)] taken at import. *)
Record db_module : Type := { Topic_init_dTime_default : datetime.t }.

Definition import_db (now_at_import : datetime.t) : db_module :=
  {| Topic_init_dTime_default := now_at_import |}.

Definition NEW_TOPIC_DEFAULT_FIB : Z := 2.

Module Topic.

Record t : Type := mk {
  uid : UID.t; name : string; subjectUID : UID.t; active : bool;
  lastStudy : datetime.t; fibNumber : Z
}.

(** [Topic(uid, name, subjectUID, active, fibNumber=..., dTime=...)]. *)
Definition init (db : db_module) (uid : UID.t) (name : string)
    (subjectUID : UID.t) (active : bool)
    (fibNumber : option Z) (dTime : option datetime.t) : t :=
  {| uid := uid; name := name; subjectUID := subjectUID; active := active;
     lastStudy := match dTime with
                  | Some d => d
                  | None => Topic_init_dTime_default db
                  end;
     fibNumber := match fibNumber with
                  | Some n => n
                  | None => NEW_TOPIC_DEFAULT_FIB
                  end |}.

(** The object after [self.fibNumber += k]. *)
Definition add_fibNumber (self : t) (k : Z) : t :=
  {| uid := uid self; name := name self; subjectUID := subjectUID self;
     active := active self; lastStudy := lastStudy self;
     fibNumber := fibNumber self + k |}.

Definition toJSON (self : t) : JSON.dict :=
  [ ("uid", JSON.Str (UID.toString (uid self)));
    ("name", JSON.Str (name self));
    ("subjectUID", JSON.Str (UID.toString (subjectUID self)));
    ("active", JSON.Bool (active self));
    ("lastStudy", JSON.Str (datetime.isoformat (lastStudy self)));
    ("fibNumber", JSON.Int (fibNumber self));
    ("type", JSON.Str "topic") ].

Definition fromJSON (db : db_module) (dictIn : JSON.dict) : Py.result t :=
  u <-? Py.rbind (JSON.getitem dictIn "uid") JSON.as_str ;;
  n <-? Py.rbind (JSON.getitem dictIn "name") JSON.as_str ;;
  s <-? Py.rbind (JSON.getitem dictIn "subjectUID") JSON.as_str ;;
  a <-? Py.rbind (JSON.getitem dictIn "active") JSON.as_bool ;;
  l <-? Py.rbind (JSON.getitem dictIn "lastStudy") JSON.as_str ;;
  d <-? datetime.fromisoformat l ;;
  f <-? Py.rbind (JSON.getitem dictIn "fibNumber") JSON.as_int ;;
  inr (init db (UID.fromString u) n (UID.fromString s) a (Some f) (Some d)).

End Topic.

(** The closed set of record classes, and [type(record)]. *)
Module Record.

Inductive t : Type :=
| OfSubject (s : Subject.t)
| OfTopic (t : Topic.t).

Inductive class : Type := Subject | Topic.

Definition type (r : t) : class :=
  match r with OfSubject _ => Subject | OfTopic _ => Topic end.

Definition class_eqb (a b : class) : bool :=
  match a, b with
  | Subject, Subject | Topic, Topic => true
  | _, _ => false
  end.

Definition uid (r : t) : UID.t :=
  match r with OfSubject s => Subject.uid s | OfTopic t => Topic.uid t end.

Definition toJSON (r : t) : JSON.dict :=
  match r with
  | OfSubject s => Subject.toJSON s
  | OfTopic t => Topic.toJSON t
  end.

(** The record with its [active] flag set to a given value. *)
Definition set_active (a : bool) (r : t) : t :=
  match r with
  | OfSubject s =>
      OfSubject {| Subject.uid := Subject.uid s; Subject.name := Subject.name s;
                   Subject.active := a; Subject.weight := Subject.weight s;
                   Subject.bias := Subject.bias s |}
  | OfTopic t =>
      OfTopic {| Topic.uid := Topic.uid t; Topic.name := Topic.name t;
                 Topic.subjectUID := Topic.subjectUID t; Topic.active := a;
                 Topic.lastStudy := Topic.lastStudy t;
                 Topic.fibNumber := Topic.fibNumber t |}
  end.

(** Two records that differ at most in their [active] flags. *)
Definition same_but_active (r1 r2 : t) : Prop :=
  set_active true r1 = set_active true r2.

End Record.

(** ** [simplefib/db.py]: the database *)

Module Database.

(** The object: its [recordDict]. *)
Record t : Type := mk {
  recordDict : PyDict.t (K := UID.t) (V := Record.t)
}.

(** [Database(records)]. *)
Definition init (records : list Record.t) : t :=
  {| recordDict :=
       fold_left (fun d record => PyDict.set UID.eqb d (Record.uid record) record)
                 records PyDict.empty |}.

(** [uid in self.recordDict]. *)
Definition has_key (self : t) (uid : UID.t) : bool :=
  PyDict.contains UID.eqb (recordDict self) uid.

Definition contains (uid : UID.t) : Py.M t bool :=
  Py.gets (fun self => has_key self uid).

Definition store (uid : UID.t) (record : Record.t) : Py.M t unit :=
  Py.modify (fun self =>
    {| recordDict := PyDict.set UID.eqb (recordDict self) uid record |}).

Definition insert (record : Record.t) : Py.M t unit :=
  present <- contains (Record.uid record) ;;
  Py.assert (negb present) "Record already exists in database" ;;;
  store (Record.uid record) record.

Definition delete (uid : UID.t) : Py.M t unit :=
  present <- contains uid ;;
  Py.assert present "Record does not exist in database" ;;;
  Py.modify (fun self =>
    {| recordDict := PyDict.del UID.eqb (recordDict self) uid |}).

Definition get (uid : UID.t) : Py.M t Record.t :=
  present <- contains uid ;;
  Py.assert present "Record does not exist in database" ;;;
  fun self =>
    match PyDict.lookup UID.eqb (recordDict self) uid with
    | Some record => (inr record, self)
    | None => (inl (Py.KeyError (UID.toString uid)), self)
    end.

Definition update (record : Record.t) : Py.M t unit :=
  present <- contains (Record.uid record) ;;
  Py.assert present "Record does not exist in database" ;;;
  store (Record.uid record) record.

(** The invariant of the database: a dict (no key twice) in which every
    record is stored under its own [uid]. *)
Definition wf (self : t) : bool :=
  PyDict.unique_keys UID.eqb (recordDict self) &&
  forallb (fun kr => UID.eqb (fst kr) (Record.uid (snd kr))) (recordDict self).

(** Two databases with the same keys in the same order, whose records
    differ at most in their [active] flags. *)
Definition same_but_active (db1 db2 : t) : Prop :=
  map (fun kr => (fst kr, Record.set_active true (snd kr))) (recordDict db1) =
  map (fun kr => (fst kr, Record.set_active true (snd kr))) (recordDict db2).

(** The records of the database, in the order of iteration. *)
Definition records (self : t) : list Record.t :=
  PyDict.values (recordDict self).

(** A topic whose [subjectUID] is the uid of no subject of the database. *)
Definition dangling (self : t) (topic : Topic.t) : Prop :=
  forall s, In (Record.OfSubject s) (records self) ->
            Subject.uid s <> Topic.subjectUID topic.

(** [query(queryTypes, query)]; the callable is a total function that
    touches nothing. *)
Definition query (queryTypes : list Record.class) (query : Record.t -> bool)
  : Py.M t t :=
  Py.gets (fun self =>
    init (filter
            (fun record =>
               existsb (Record.class_eqb (Record.type record)) queryTypes
               && query record)
            (PyDict.values (recordDict self)))).

(** Every [lastStudy] of the database is a [datetime] object (its fields
    are in range). *)
Definition datetimes_valid (self : t) : bool :=
  forallb
    (fun record =>
       match record with
       | Record.OfTopic topic => datetime.valid (Topic.lastStudy topic)
       | Record.OfSubject _ => true
       end)
    (records self).

(** [toJSONDict]. *)
Definition toJSONDict (self : t) : PyDict.t (K := string) (V := JSON.dict) :=
  fold_left
    (fun resultDict kr =>
       PyDict.set String.eqb resultDict (UID.toString (fst kr))
         (Record.toJSON (snd kr)))
    (recordDict self) PyDict.empty.

(** The body of the loop of [fromJSONDict] for one value of [dictIn]. *)
Definition decode_record (db : db_module) (recordDict : JSON.dict)
  : Py.result Record.t :=
  if negb (PyDict.contains String.eqb recordDict "type")
  then inl (Py.AssertionError "Record does not have a type")
  else
    recordType <-? JSON.getitem recordDict "type" ;;
    if JSON.eqb_str recordType "subject" then
      s <-? Subject.fromJSON recordDict ;; inr (Record.OfSubject s)
    else if JSON.eqb_str recordType "topic" then
      t <-? Topic.fromJSON db recordDict ;; inr (Record.OfTopic t)
    else inl (Py.AssertionError "Unknown record type").

Fixpoint decode_records (db : db_module) (values : list JSON.dict)
  : Py.result (list Record.t) :=
  match values with
  | [] => inr []
  | recordDict :: rest =>
      record <-? decode_record db recordDict ;;
      records <-? decode_records db rest ;;
      inr (record :: records)
  end.

(** [fromJSONDict]: the keys of [dictIn] are not read. *)
Definition fromJSONDict (db : db_module)
    (dictIn : PyDict.t (K := string) (V := JSON.dict)) : Py.result t :=
  records <-? decode_records db (PyDict.values dictIn) ;;
  inr (init records).

End Database.

(** ** [simplefib/validators.py] *)

Module validators.

(** [getStrListValidator(validInputs)]: the callable it returns. *)
Definition getStrListValidator (validInputs : list string) (inText : string)
  : bool :=
  existsb (String.eqb inText) validInputs.

Definition getSubjectNames (db : Database.t) : list string :=
  flat_map
    (fun record =>
       match record with
       | Record.OfSubject s => [Subject.name s]
       | Record.OfTopic _ => []
       end)
    (Database.records db).

Definition getSubjectNameValidator (db : Database.t) (inText : string) : bool :=
  getStrListValidator (getSubjectNames db) inText.

End validators.

(** ** [simplefib/predict.py] *)

Module Predictor.

(** What [predict] touches outside its own object: the module-level
    Fibonacci engine [fibNumbers] and the system clock, of which [clock]
    counts the readings taken so far. *)
Record World : Type := mkWorld {
  fibNumbers : FibNumbers.t;
  clock : nat
}.

Definition with_fib {A} (c : Py.M FibNumbers.t A) : Py.M World A :=
  fun w =>
    let '(r, f) := c (fibNumbers w) in
    (r, {| fibNumbers := f; clock := clock w |}).

Section Clock.

(** The successive readings of [datetime.now(tz=timezone.utc)]. *)
Variable now : nat -> datetime.t.

Definition datetime_now : Py.M World datetime.t :=
  fun w => (inr (now (clock w)),
            {| fibNumbers := fibNumbers w; clock := S (clock w) |}).

(** The object: the database it was given, and [timeLookup]. *)
Record t : Type := mk {
  dBase : Database.t;
  timeLookup : PyDict.t (K := UID.t) (V := datetime.t)
}.

Definition init (dBase : Database.t) : t :=
  {| dBase := dBase; timeLookup := PyDict.empty |}.

Definition lookup_table : Type := PyDict.t (K := UID.t) (V := Float.t * Z).

(** The first loop: weight and bias of every subject, by UID. *)
Definition subjectWAndTup (dBase : Database.t) : lookup_table :=
  fold_left
    (fun d subject =>
       match subject with
       | Record.OfSubject s =>
           PyDict.set UID.eqb d (Subject.uid s) (Subject.weight s, Subject.bias s)
       | Record.OfTopic _ => d
       end)
    (PyDict.values (Database.recordDict dBase)) PyDict.empty.

(** [subjectWAndTup[uid]]. *)
Definition getitem (d : lookup_table) (uid : UID.t) : Py.result (Float.t * Z) :=
  match PyDict.lookup UID.eqb d uid with
  | Some wb => inr wb
  | None => inl (Py.KeyError (UID.toString uid))
  end.

(** [round(rawFibPred * subjectWeight + subjectBias)]. *)
Definition actualPred (rawFibPred : Z) (subjectWeight : Float.t)
    (subjectBias : Z) : Py.result Z :=
  x <-? Float.of_int rawFibPred ;;
  let product := Float.mul x subjectWeight in
  b <-? Float.of_int subjectBias ;;
  Float.round_to_int (Float.add product b).

(** The day offset that [predict] computes for a topic of a given
    [fibNumber] whose subject has a given weight and bias. *)
Definition offsetDays (fibNumber : Z) (subjectWeight : Float.t)
    (subjectBias : Z) : Py.M FibNumbers.t Z :=
  rawFibPred <- FibNumbers.getNthFibNumber fibNumber ;;
  Py.lift (actualPred rawFibPred subjectWeight subjectBias).

(** The body of the second loop for one record. *)
Definition predict_item (table : lookup_table)
    (resultDict : PyDict.t (K := UID.t) (V := datetime.t)) (item : Record.t)
  : Py.M World (PyDict.t (K := UID.t) (V := datetime.t)) :=
  match item with
  | Record.OfSubject _ => Py.ret resultDict
  | Record.OfTopic item =>
      rawFibPred <- with_fib (FibNumbers.getNthFibNumber (Topic.fibNumber item)) ;;
      w <- Py.lift (getitem table (Topic.subjectUID item)) ;;
      b <- Py.lift (getitem table (Topic.subjectUID item)) ;;
      pred <- Py.lift (actualPred rawFibPred (fst w) (snd b)) ;;
      t0 <- datetime_now ;;
      days <- Py.lift (datetime.timedelta_days pred) ;;
      due <- Py.lift (datetime.add_days t0 days) ;;
      Py.ret (PyDict.set UID.eqb resultDict (Topic.uid item) due)
  end.

Fixpoint predict_loop (table : lookup_table) (items : list Record.t)
    (resultDict : PyDict.t (K := UID.t) (V := datetime.t))
  : Py.M World (PyDict.t (K := UID.t) (V := datetime.t)) :=
  match items with
  | [] => Py.ret resultDict
  | item :: rest =>
      resultDict' <- predict_item table resultDict item ;;
      predict_loop table rest resultDict'
  end.

(** [predict]: the mapping returned, and the object with its [timeLookup]
    set to it.  When an exception is raised the object is as it was. *)
Definition predict (self : t)
  : Py.M World (PyDict.t (K := UID.t) (V := datetime.t) * t) :=
  resultDict <-
    predict_loop (subjectWAndTup (dBase self))
      (PyDict.values (Database.recordDict (dBase self))) PyDict.empty ;;
  Py.ret (resultDict, {| dBase := dBase self; timeLookup := resultDict |}).

End Clock.

End Predictor.

(** ** [simplefib/cli.py]: the commands, with the answers to the prompts
       as arguments and the module-level [db] as the state *)

Module cli.

(** The loops [subjUID += record.uid.uid] over the subjects of a name. *)
Definition subjUID_of (db : Database.t) (subjectName : string) : string :=
  fold_left
    (fun subjUID record =>
       match record with
       | Record.OfSubject s =>
           if String.eqb (Subject.name s) subjectName
           then (subjUID ++ UID.uid (Subject.uid s))%string else subjUID
       | Record.OfTopic _ => subjUID
       end)
    (PyDict.values (Database.recordDict db)) "".

Definition createSubject (newUID : UID.t) (subjectName : string)
    (subjWeight : Float.t) (subjBias : Z) : Py.M Database.t unit :=
  Database.insert
    (Record.OfSubject
       (Subject.init newUID subjectName true (Some subjWeight) (Some subjBias))).

Definition createTopic (m : db_module) (newUID : UID.t)
    (topicName subjectName : string) : Py.M Database.t unit :=
  subjUID <- Py.gets (fun db => subjUID_of db subjectName) ;;
  Database.insert
    (Record.OfTopic
       (Topic.init m newUID topicName (UID.init subjUID) true None None)).

(** The topics of the chosen subject, in the order of the database. *)
Definition allTopics (db : Database.t) (subjUID : string) : list Topic.t :=
  flat_map
    (fun record =>
       match record with
       | Record.OfTopic t =>
           if String.eqb (UID.uid (Topic.subjectUID t)) subjUID then [t] else []
       | Record.OfSubject _ => []
       end)
    (PyDict.values (Database.recordDict db)).

Definition topicUID_of (topics : list Topic.t) (topicName : string) : string :=
  fold_left
    (fun topicUID topic =>
       if String.eqb (Topic.name topic) topicName
       then (topicUID ++ UID.uid (Topic.uid topic))%string else topicUID)
    topics "".

(** The end of [completeTask], from [db.get] on: the completion of the
    topic of a given UID.  The record that [get] returns is the stored
    object itself, so [topic.fibNumber += 1] already changes the database
    under the key that was looked up; [update] then stores the same object
    under its own [uid]. *)
Definition completeTopic (uid : UID.t) : Py.M Database.t unit :=
  topic <- Database.get uid ;;
  match topic with
  | Record.OfSubject _ => Py.raise (Py.AssertionError "")
  | Record.OfTopic t =>
      let t' := Topic.add_fibNumber t 1 in
      Database.store uid (Record.OfTopic t') ;;;
      Database.update (Record.OfTopic t')
  end.

(** [completeTask] from the two answers on.  The prompts pass on only
    answers that their validators accept: [subjectName] is the name of a
    subject of the database ([getSubjectNameValidator]) and [topicName] the
    name of one of the topics collected in [allTopics]
    ([getStrListValidator]). *)
Definition completeTask (subjectName topicName : string)
  : Py.M Database.t unit :=
  subjUID <- Py.gets (fun db => subjUID_of db subjectName) ;;
  topics <- Py.gets (fun db => allTopics db subjUID) ;;
  completeTopic (UID.init (topicUID_of topics topicName)).

End cli.

(** ** Sample data for the scenarios *)

Module Sample.

Definition db_mod : db_module :=
  import_db (datetime.mk 2026 1 1 9 0 0 0 datetime.utc).

(** The clock: 3 November 2026, 22:59 UTC, a second later at each reading. *)
Definition now (k : nat) : datetime.t :=
  datetime.mk 2026 11 3 22 59 (Z.of_nat (k mod 60)) 0 datetime.utc.

Definition world : Predictor.World :=
  {| Predictor.fibNumbers := FibNumbers.init; Predictor.clock := 0 |}.

(** A subject of weight 2.5 and bias 0, and a topic of [fibNumber] 2 of it. *)
Definition maths : Subject.t :=
  Subject.init (UID.init "s1") "maths" true (Some (Float.round 5 (-1))) (Some 0).

Definition sets : Topic.t :=
  Topic.init db_mod (UID.init "t1") "sets" (UID.init "s1") true None None.

Definition db : Database.t :=
  Database.init [Record.OfSubject maths; Record.OfTopic sets].

(** A subject of weight 1.0, a topic of it that has been completed 48
    times, and a topic that refers to no subject. *)
Definition physics : Subject.t :=
  Subject.init (UID.init "s2") "physics" true None None.

Definition optics : Topic.t :=
  Topic.init db_mod (UID.init "t2") "optics" (UID.init "s2") true (Some 50) None.

Definition orphan : Topic.t :=
  Topic.init db_mod (UID.init "t3") "orphan" (UID.init "gone") true None None.

Definition db_orphan : Database.t :=
  Database.init [Record.OfSubject physics; Record.OfTopic optics;
                 Record.OfTopic orphan].

(** A subject of weight -1.0. *)
Definition backwards : Float.t := Float.round (-1) 0.

End Sample.

(** The order of two dyadic numbers [m1 * 2^e1 <= m2 * 2^e2], on integers. *)
Definition dle (m1 e1 m2 e2 : Z) : Prop :=
  m1 * 2 ^ (e1 - Z.min e1 e2) <= m2 * 2 ^ (e2 - Z.min e1 e2).

(** The topics among a list of records, in the order of the list: the
    records for which the loop of [predict] computes a date. *)
Definition topics_of (items : list Record.t) : list Topic.t :=
  flat_map (fun r => match r with Record.OfTopic t => [t] | _ => [] end) items.

(* ================================================================== *)
(** * Properties *)
(* ================================================================== *)

(** ** The Fibonacci engine *)

Lemma fib_at_rec (k : nat) : fib_at (S (S k)) = fib_at (S k) + fib_at k.
Proof.
  unfold fib_at. simpl. destruct (fib_pair k) as [a b]. simpl. lia.
Qed.

Lemma fib_at_pos (k : nat) : 0 < fib_at k /\ 0 < snd (fib_pair k).
Proof.
  unfold fib_at. induction k as [|k IH]; simpl; [lia|].
  destruct (fib_pair k) as [a b]. simpl in *. lia.
Qed.

Lemma fib_at_mono_step (k : nat) : fib_at k <= fib_at (S k).
Proof.
  destruct k as [|k]; [vm_compute; discriminate|].
  rewrite fib_at_rec. pose proof (fib_at_pos k). lia.
Qed.

Lemma fib_at_mono (j k : nat) : (j <= k)%nat -> fib_at j <= fib_at k.
Proof.
  induction 1 as [|k _ IH]; [lia|].
  pose proof (fib_at_mono_step k). lia.
Qed.

Lemma map_seq_shift (k c s : nat) :
  map (fun j => Z.of_nat k + Z.of_nat j) (seq s c) = map Z.of_nat (seq (k + s) c).
Proof.
  revert s. induction c as [|c IH]; intro s; simpl; [reflexivity|].
  rewrite IH. f_equal; [lia|]. f_equal. f_equal. lia.
Qed.

Lemma range_of_nat (k : nat) (n : Z) :
  Py.range (Z.of_nat k) n = map Z.of_nat (seq k (Z.to_nat (n - Z.of_nat k))).
Proof.
  unfold Py.range. rewrite map_seq_shift. rewrite Nat.add_0_r. reflexivity.
Qed.

Lemma getitem_fib (len : nat) (i : Z) :
  0 <= i < Z.of_nat len ->
  Py.getitem (map fib_at (seq 0 len)) i = inr (fib_at (Z.to_nat i)).
Proof.
  intros Hi. unfold Py.getitem.
  destruct (i <? 0) eqn:E; [apply Z.ltb_lt in E; lia|]. rewrite E.
  rewrite nth_error_map, nth_error_seq.
  destruct (Nat.ltb_spec (Z.to_nat i) len) as [_|H]; [reflexivity|lia].
Qed.

Lemma fib_loop (c k : nat) :
  (2 <= k)%nat ->
  Py.for_ (map Z.of_nat (seq k c))
    (fun i => a <- FibNumbers.at_ (i - 1) ;; b <- FibNumbers.at_ (i - 2) ;;
              FibNumbers.append (a + b))
    {| FibNumbers.fibNumbers := map fib_at (seq 0 k) |}
  = (inr tt, {| FibNumbers.fibNumbers := map fib_at (seq 0 (k + c)) |}).
Proof.
  revert k. induction c as [|c IH]; intros k Hk; simpl.
  - rewrite Nat.add_0_r. reflexivity.
  - unfold Py.bind at 1. unfold Py.bind at 1. unfold FibNumbers.at_ at 1.
    simpl FibNumbers.fibNumbers.
    rewrite getitem_fib by lia.
    unfold Py.bind at 1. unfold FibNumbers.at_ at 1. simpl FibNumbers.fibNumbers.
    rewrite getitem_fib by lia.
    unfold FibNumbers.append, Py.modify. simpl FibNumbers.fibNumbers.
    replace (map fib_at (seq 0 k) ++
             [fib_at (Z.to_nat (Z.of_nat k - 1)) + fib_at (Z.to_nat (Z.of_nat k - 2))])
      with (map fib_at (seq 0 (S k))).
    + rewrite IH by lia. replace (S k + c)%nat with (k + S c)%nat by lia.
      reflexivity.
    + rewrite seq_S, map_app. simpl. do 2 f_equal.
      destruct k as [|[|k]]; try lia.
      replace (Z.to_nat (Z.of_nat (S (S k)) - 1)) with (S k) by lia.
      replace (Z.to_nat (Z.of_nat (S (S k)) - 2)) with k by lia.
      apply fib_at_rec.
Qed.

(** What a call does on a well-formed memo: it returns the term and leaves a
    well-formed memo that has only grown. *)
Lemma getNthFibNumber_ok (self : FibNumbers.t) (n : Z) :
  memo_ok self -> 1 <= n ->
  exists self',
    FibNumbers.getNthFibNumber n self = (inr (fib_at (Z.to_nat (n - 1))), self')
    /\ memo_ok self'
    /\ List.length (FibNumbers.fibNumbers self') =
       Nat.max (List.length (FibNumbers.fibNumbers self)) (Z.to_nat n).
Proof.
  intros [Hlen Heq] Hn. destruct self as [l]. simpl in *.
  remember (List.length l) as k eqn:Hk. clear Hk. subst l.
  unfold FibNumbers.getNthFibNumber.
  destruct (n =? 0) eqn:E0; [apply Z.eqb_eq in E0; lia|].
  destruct (n <? 0) eqn:E1; [apply Z.ltb_lt in E1; lia|].
  unfold Py.bind at 1. unfold Py.gets. cbn [FibNumbers.fibNumbers].
  unfold Py.len. rewrite length_map, length_seq.
  destruct (n <=? Z.of_nat k) eqn:E2.
  - apply Z.leb_le in E2.
    exists {| FibNumbers.fibNumbers := map fib_at (seq 0 k) |}.
    split; [|split].
    + unfold FibNumbers.at_. simpl. rewrite getitem_fib by lia. reflexivity.
    + split; simpl; rewrite length_map, length_seq; [lia|reflexivity].
    + simpl. rewrite length_map, length_seq. lia.
  - apply Z.leb_gt in E2.
    exists {| FibNumbers.fibNumbers := map fib_at (seq 0 (Z.to_nat n)) |}.
    rewrite range_of_nat.
    unfold Py.bind at 1. rewrite fib_loop by assumption.
    replace (k + Z.to_nat (n - Z.of_nat k))%nat with (Z.to_nat n) by lia.
    split; [|split].
    + unfold FibNumbers.at_. simpl. rewrite getitem_fib by lia. reflexivity.
    + split; simpl; rewrite length_map, length_seq; [lia|reflexivity].
    + simpl. rewrite length_map, length_seq. lia.
Qed.

Lemma getNthFibNumber_nonpos_state (self : FibNumbers.t) (n : Z) :
  n <= 0 -> snd (FibNumbers.getNthFibNumber n self) = self.
Proof.
  intros Hn. unfold FibNumbers.getNthFibNumber.
  destruct (n =? 0) eqn:E0; [reflexivity|].
  destruct (n <? 0) eqn:E1; [reflexivity|].
  apply Z.eqb_neq in E0. apply Z.ltb_ge in E1. lia.
Qed.

Lemma reachable_memo_ok (self : FibNumbers.t) :
  FibNumbers.reachable self -> memo_ok self.
Proof.
  induction 1 as [|self n _ IH].
  - split; simpl; [lia|reflexivity].
  - destruct (Z_le_gt_dec n 0) as [Hn|Hn].
    + rewrite getNthFibNumber_nonpos_state by assumption. exact IH.
    + destruct (getNthFibNumber_ok self n IH) as (self' & Hc & Hok & _); [lia|].
      rewrite Hc. exact Hok.
Qed.

Lemma getNthFibNumber_value (self : FibNumbers.t) (n : Z) :
  FibNumbers.reachable self -> 1 <= n ->
  fst (FibNumbers.getNthFibNumber n self) = inr (fib_at (Z.to_nat (n - 1))).
Proof.
  intros Hr Hn.
  destruct (getNthFibNumber_ok self n (reachable_memo_ok self Hr) Hn)
    as (self' & Hc & _).
  rewrite Hc. reflexivity.
Qed.

(** C4.  In every state the engine can reach, [getNthFibNumber 1] and
    [getNthFibNumber 2] return 1, and for every [n > 2] the value returned
    for [n] is the sum of the values returned for [n - 1] and [n - 2]
    (whatever reachable states those calls are made in, so in particular
    when they are made one after the other). *)
Theorem getNthFibNumber_recurrence (s0 s1 s2 : FibNumbers.t) (n : Z) :
  FibNumbers.reachable s0 -> FibNumbers.reachable s1 ->
  FibNumbers.reachable s2 ->
  fst (FibNumbers.getNthFibNumber 1 s0) = inr 1 /\
  fst (FibNumbers.getNthFibNumber 2 s0) = inr 1 /\
  (2 < n ->
   exists a b c,
     fst (FibNumbers.getNthFibNumber n s0) = inr a /\
     fst (FibNumbers.getNthFibNumber (n - 1) s1) = inr b /\
     fst (FibNumbers.getNthFibNumber (n - 2) s2) = inr c /\
     a = b + c).
Proof.
  intros H0 H1 H2. split; [|split].
  - rewrite getNthFibNumber_value by (assumption || lia). reflexivity.
  - rewrite getNthFibNumber_value by (assumption || lia). reflexivity.
  - intros Hn.
    exists (fib_at (Z.to_nat (n - 1))), (fib_at (Z.to_nat (n - 1 - 1))),
      (fib_at (Z.to_nat (n - 2 - 1))).
    repeat split; try (apply getNthFibNumber_value; (assumption || lia)).
    replace (Z.to_nat (n - 1)) with (S (S (Z.to_nat (n - 2 - 1)))) by lia.
    replace (Z.to_nat (n - 1 - 1)) with (S (Z.to_nat (n - 2 - 1))) by lia.
    apply fib_at_rec.
Qed.

Lemma getNthFibNumber_recurrence_witness :
  let s1 := snd (FibNumbers.getNthFibNumber 5 FibNumbers.init) in
  let s2 := snd (FibNumbers.getNthFibNumber 4 s1) in
  fst (FibNumbers.getNthFibNumber 1 FibNumbers.init) = inr 1 /\
  fst (FibNumbers.getNthFibNumber 2 FibNumbers.init) = inr 1 /\
  (2 < 5 ->
   exists a b c,
     fst (FibNumbers.getNthFibNumber 5 FibNumbers.init) = inr a /\
     fst (FibNumbers.getNthFibNumber (5 - 1) s1) = inr b /\
     fst (FibNumbers.getNthFibNumber (5 - 2) s2) = inr c /\
     a = b + c).
Proof.
  intros s1 s2.
  apply (getNthFibNumber_recurrence FibNumbers.init s1 s2 5).
  - apply FibNumbers.reachable_init.
  - apply FibNumbers.reachable_call, FibNumbers.reachable_init.
  - apply FibNumbers.reachable_call, FibNumbers.reachable_call,
      FibNumbers.reachable_init.
Defined.

(** C9.  [getNthFibNumber n] raises [ValueError] for [n = 0] and for every
    [n < 0], leaving the memo as it was, and in every reachable state it
    returns a value for every [n >= 1]. *)
Theorem getNthFibNumber_domain (self : FibNumbers.t) (n : Z) :
  FibNumbers.reachable self ->
  (n = 0 ->
   FibNumbers.getNthFibNumber n self =
   (inl (Py.ValueError "For our cases, there is no zeroth fib number"), self))
  /\
  (n < 0 ->
   FibNumbers.getNthFibNumber n self =
   (inl (Py.ValueError "Can't have a negative fib number."), self))
  /\
  (1 <= n ->
   exists v self', FibNumbers.getNthFibNumber n self = (inr v, self')).
Proof.
  intros Hr. split; [|split].
  - intros ->. reflexivity.
  - intros Hn. unfold FibNumbers.getNthFibNumber.
    destruct (n =? 0) eqn:E0; [apply Z.eqb_eq in E0; lia|].
    destruct (n <? 0) eqn:E1; [reflexivity|apply Z.ltb_ge in E1; lia].
  - intros Hn.
    destruct (getNthFibNumber_ok self n (reachable_memo_ok self Hr) Hn)
      as (self' & Hc & _).
    eauto.
Qed.

Lemma getNthFibNumber_domain_witness :
  (7 = 0 ->
   FibNumbers.getNthFibNumber 7 FibNumbers.init =
   (inl (Py.ValueError "For our cases, there is no zeroth fib number"),
    FibNumbers.init))
  /\
  (7 < 0 ->
   FibNumbers.getNthFibNumber 7 FibNumbers.init =
   (inl (Py.ValueError "Can't have a negative fib number."), FibNumbers.init))
  /\
  (1 <= 7 ->
   exists v self',
     FibNumbers.getNthFibNumber 7 FibNumbers.init = (inr v, self')).
Proof.
  apply (getNthFibNumber_domain FibNumbers.init 7).
  apply FibNumbers.reachable_init.
Defined.

Example getNthFibNumber_7 :
  FibNumbers.getNthFibNumber 7 FibNumbers.init =
  (inr 13, {| FibNumbers.fibNumbers := [1; 1; 2; 3; 5; 8; 13] |}).
Proof. reflexivity. Qed.

Example getNthFibNumber_0_and_minus_1 :
  fst (FibNumbers.getNthFibNumber 0 FibNumbers.init) =
    inl (Py.ValueError "For our cases, there is no zeroth fib number") /\
  fst (FibNumbers.getNthFibNumber (-1) FibNumbers.init) =
    inl (Py.ValueError "Can't have a negative fib number.").
Proof. split; reflexivity. Qed.

(** ** Dicts *)

Section PyDictFacts.

Context {K V : Type} (eqb : K -> K -> bool).
Hypothesis eqb_eq : forall a b, eqb a b = true <-> a = b.

Let dict := PyDict.t (K := K) (V := V).

Lemma eqb_refl' (a : K) : eqb a a = true.
Proof. apply eqb_eq. reflexivity. Qed.

Lemma eqb_neq (a b : K) : a <> b -> eqb a b = false.
Proof.
  intros H. destruct (eqb a b) eqn:E; [|reflexivity].
  apply eqb_eq in E. contradiction.
Qed.

Lemma lookup_set_eq (d : dict) k v : PyDict.lookup eqb (PyDict.set eqb d k v) k = Some v.
Proof.
  induction d as [|[k' v'] d IH]; simpl.
  - rewrite eqb_refl'. reflexivity.
  - destruct (eqb k' k) eqn:E; simpl; rewrite E; [reflexivity|exact IH].
Qed.

Lemma lookup_set_ne (d : dict) k v k' :
  k <> k' -> PyDict.lookup eqb (PyDict.set eqb d k v) k' = PyDict.lookup eqb d k'.
Proof.
  intros Hne. induction d as [|[k0 v0] d IH]; simpl.
  - rewrite eqb_neq by assumption. reflexivity.
  - destruct (eqb k0 k) eqn:E; simpl.
    + apply eqb_eq in E. subst k0. rewrite eqb_neq by assumption. reflexivity.
    + rewrite IH. reflexivity.
Qed.

Lemma set_fresh (d : dict) k v :
  PyDict.contains eqb d k = false -> PyDict.set eqb d k v = d ++ [(k, v)].
Proof.
  unfold PyDict.contains. induction d as [|[k' v'] d IH]; simpl; intros H.
  - reflexivity.
  - destruct (eqb k' k); [discriminate|]. rewrite IH by exact H. reflexivity.
Qed.

Lemma contains_app (d1 d2 : dict) k :
  PyDict.contains eqb (d1 ++ d2) k =
  PyDict.contains eqb d1 k || PyDict.contains eqb d2 k.
Proof.
  unfold PyDict.contains. induction d1 as [|[k' v'] d1 IH]; simpl.
  - reflexivity.
  - destruct (eqb k' k); [reflexivity|exact IH].
Qed.

Lemma contains_In (d : dict) k :
  PyDict.contains eqb d k = true <-> In k (PyDict.keys d).
Proof.
  unfold PyDict.contains. induction d as [|[k' v'] d IH]; simpl.
  - split; [discriminate|tauto].
  - destruct (eqb k' k) eqn:E.
    + apply eqb_eq in E. split; auto.
    + rewrite IH. split; [auto|]. intros [H|H]; [|exact H].
      subst k'. rewrite eqb_refl' in E. discriminate.
Qed.

Lemma lookup_In (d : dict) k v :
  PyDict.unique_keys eqb d = true ->
  (PyDict.lookup eqb d k = Some v <-> In (k, v) d).
Proof.
  induction d as [|[k' v'] d IH]; simpl; intros Hu.
  - split; [discriminate|tauto].
  - apply andb_prop in Hu. destruct Hu as [Hk Hu].
    destruct (eqb k' k) eqn:E.
    + apply eqb_eq in E. subst k'. split.
      * intros [= ->]. auto.
      * intros [[= ->]|Hin]; [reflexivity|].
        assert (Hc : PyDict.contains eqb d k = true).
        { apply contains_In. apply (in_map fst) in Hin. exact Hin. }
        rewrite Hc in Hk. discriminate.
    + rewrite (IH Hu). split; [auto|].
      intros [[= -> ->]|Hin]; [|exact Hin].
      rewrite eqb_refl' in E. discriminate.
Qed.

Lemma contains_set (d : dict) k v k' :
  PyDict.contains eqb (PyDict.set eqb d k v) k' =
  eqb k k' || PyDict.contains eqb d k'.
Proof.
  unfold PyDict.contains.
  destruct (eqb k k') eqn:E.
  - apply eqb_eq in E. subst k'. rewrite lookup_set_eq. reflexivity.
  - rewrite lookup_set_ne; [reflexivity|].
    intros ->. rewrite eqb_refl' in E. discriminate.
Qed.

Lemma unique_keys_set (d : dict) k v :
  PyDict.unique_keys eqb d = true ->
  PyDict.unique_keys eqb (PyDict.set eqb d k v) = true.
Proof.
  induction d as [|[k' v'] d IH]; simpl; intros Hu; [reflexivity|].
  apply andb_prop in Hu. destruct Hu as [Hk Hu].
  destruct (eqb k' k) eqn:E; simpl.
  - rewrite Hk, Hu. reflexivity.
  - rewrite contains_set, IH by exact Hu.
    apply negb_true_iff in Hk. rewrite Hk.
    replace (eqb k k') with false; [reflexivity|].
    symmetry. apply eqb_neq. intros ->. rewrite eqb_refl' in E. discriminate.
Qed.

Lemma contains_del_le (d : dict) k k' :
  PyDict.contains eqb (PyDict.del eqb d k) k' = true ->
  PyDict.contains eqb d k' = true.
Proof.
  unfold PyDict.contains. induction d as [|[k0 v0] d IH]; simpl; [auto|].
  destruct (eqb k0 k) eqn:E; simpl.
  - destruct (eqb k0 k'); auto.
  - destruct (eqb k0 k'); auto.
Qed.

Lemma unique_keys_del (d : dict) k :
  PyDict.unique_keys eqb d = true ->
  PyDict.unique_keys eqb (PyDict.del eqb d k) = true.
Proof.
  induction d as [|[k' v'] d IH]; simpl; intros Hu; [reflexivity|].
  apply andb_prop in Hu. destruct Hu as [Hk Hu].
  destruct (eqb k' k) eqn:E; simpl; [exact Hu|].
  rewrite IH by exact Hu. rewrite andb_true_r.
  apply negb_true_iff. apply negb_true_iff in Hk.
  destruct (PyDict.contains eqb (PyDict.del eqb d k) k') eqn:C; [|reflexivity].
  apply contains_del_le in C. congruence.
Qed.

Lemma contains_del_eq (d : dict) k :
  PyDict.unique_keys eqb d = true ->
  PyDict.contains eqb (PyDict.del eqb d k) k = false.
Proof.
  induction d as [|[k' v'] d IH]; simpl; intros Hu; [reflexivity|].
  apply andb_prop in Hu. destruct Hu as [Hk Hu].
  destruct (eqb k' k) eqn:E.
  - apply eqb_eq in E. subst k'. apply negb_true_iff in Hk. exact Hk.
  - unfold PyDict.contains in *. simpl. rewrite E. apply IH. exact Hu.
Qed.

(** Building a dict from entries whose keys are new and distinct appends
    them in order. *)
Lemma fold_set_fresh (key : V -> K) (l : dict) (d0 : dict) :
  PyDict.unique_keys eqb (d0 ++ l) = true ->
  (forall kv, In kv l -> fst kv = key (snd kv)) ->
  fold_left (fun d v => PyDict.set eqb d (key v) v) (map snd l) d0 = d0 ++ l.
Proof.
  revert d0. induction l as [|[k v] l IH]; intros d0 Hu Hkey; simpl.
  - rewrite app_nil_r. reflexivity.
  - assert (Hk : k = key v) by (apply (Hkey (k, v)); left; reflexivity).
    rewrite <- Hk.
    assert (Hfresh : PyDict.contains eqb d0 k = false).
    { clear IH Hkey Hk. induction d0 as [|[k0 v0] d0 IHd]; [reflexivity|].
      simpl in Hu. apply andb_prop in Hu. destruct Hu as [H0 Hu].
      unfold PyDict.contains in *. simpl.
      destruct (eqb k0 k) eqn:E.
      - apply eqb_eq in E. subst k0.
        apply negb_true_iff in H0.
        fold (PyDict.contains eqb (d0 ++ (k, v) :: l) k) in H0.
        rewrite contains_app in H0. apply orb_false_iff in H0.
        destruct H0 as [_ H0]. unfold PyDict.contains in H0. simpl in H0.
        rewrite eqb_refl' in H0. discriminate.
      - apply IHd. exact Hu. }
    rewrite set_fresh by exact Hfresh.
    rewrite IH.
    + rewrite <- app_assoc. reflexivity.
    + rewrite <- app_assoc. exact Hu.
    + intros kv Hin. apply Hkey. right. exact Hin.
Qed.

Lemma unique_keys_filter (f : K * V -> bool) (d : dict) :
  PyDict.unique_keys eqb d = true ->
  PyDict.unique_keys eqb (filter f d) = true.
Proof.
  induction d as [|[k v] d IH]; simpl; intros Hu; [reflexivity|].
  apply andb_prop in Hu. destruct Hu as [Hk Hu].
  destruct (f (k, v)); simpl; [|apply IH; exact Hu].
  rewrite IH by exact Hu. rewrite andb_true_r.
  apply negb_true_iff. apply negb_true_iff in Hk.
  destruct (PyDict.contains eqb (filter f d) k) eqn:C; [|reflexivity].
  apply contains_In in C. apply in_map_iff in C.
  destruct C as ([k' v'] & Hfst & Hin). simpl in Hfst. subst k'.
  apply filter_In in Hin. destruct Hin as [Hin _].
  assert (PyDict.contains eqb d k = true).
  { apply contains_In. apply (in_map fst) in Hin. exact Hin. }
  congruence.
Qed.

End PyDictFacts.

Lemma UID_eqb_eq (a b : UID.t) : UID.eqb a b = true <-> a = b.
Proof.
  destruct a as [a], b as [b]. unfold UID.eqb. simpl.
  rewrite String.eqb_eq. split; [intros ->; reflexivity|intros [= ->]; reflexivity].
Qed.

(** ** The database *)

Lemma insert_spec (self : Database.t) (record : Record.t) :
  Database.insert record self =
  if Database.has_key self (Record.uid record)
  then (inl (Py.AssertionError "Record already exists in database"), self)
  else (inr tt,
        {| Database.recordDict :=
             PyDict.set UID.eqb (Database.recordDict self)
               (Record.uid record) record |}).
Proof.
  unfold Database.insert, Database.contains, Py.bind, Py.gets, Database.has_key.
  destruct (PyDict.contains UID.eqb (Database.recordDict self) (Record.uid record));
    reflexivity.
Qed.

Lemma update_spec (self : Database.t) (record : Record.t) :
  Database.update record self =
  if Database.has_key self (Record.uid record)
  then (inr tt,
        {| Database.recordDict :=
             PyDict.set UID.eqb (Database.recordDict self)
               (Record.uid record) record |})
  else (inl (Py.AssertionError "Record does not exist in database"), self).
Proof.
  unfold Database.update, Database.contains, Py.bind, Py.gets, Database.has_key.
  destruct (PyDict.contains UID.eqb (Database.recordDict self) (Record.uid record));
    reflexivity.
Qed.

Lemma delete_spec (self : Database.t) (uid : UID.t) :
  Database.delete uid self =
  if Database.has_key self uid
  then (inr tt,
        {| Database.recordDict :=
             PyDict.del UID.eqb (Database.recordDict self) uid |})
  else (inl (Py.AssertionError "Record does not exist in database"), self).
Proof.
  unfold Database.delete, Database.contains, Py.bind, Py.gets, Database.has_key.
  destruct (PyDict.contains UID.eqb (Database.recordDict self) uid);
    reflexivity.
Qed.

Lemma get_spec (self : Database.t) (uid : UID.t) :
  Database.get uid self =
  match PyDict.lookup UID.eqb (Database.recordDict self) uid with
  | Some record => (inr record, self)
  | None => (inl (Py.AssertionError "Record does not exist in database"), self)
  end.
Proof.
  unfold Database.get, Database.contains, Py.bind, Py.gets, Database.has_key,
    PyDict.contains.
  destruct (PyDict.lookup UID.eqb (Database.recordDict self) uid) eqn:E;
    simpl; rewrite ?E; reflexivity.
Qed.

(** C3.  In every state of the database: [insert] fails exactly when the
    record's uid is already a key, [get], [update] and [delete] fail exactly
    when the key is absent (an [AssertionError] each time, with the message
    of the source), and a failing [insert] or [update] (as well as a failing
    [get] or [delete]) leaves the record mapping as it was. *)
Theorem database_failures (self : Database.t) (record : Record.t) (uid : UID.t) :
  (Py.fails (Database.insert record self) <->
     Database.has_key self (Record.uid record) = true) /\
  (Py.fails (Database.get uid self) <-> Database.has_key self uid = false) /\
  (Py.fails (Database.update record self) <->
     Database.has_key self (Record.uid record) = false) /\
  (Py.fails (Database.delete uid self) <-> Database.has_key self uid = false) /\
  (Py.fails (Database.insert record self) ->
     Database.insert record self =
     (inl (Py.AssertionError "Record already exists in database"), self)) /\
  (Py.fails (Database.update record self) ->
     Database.update record self =
     (inl (Py.AssertionError "Record does not exist in database"), self)) /\
  (Py.fails (Database.get uid self) ->
     Database.get uid self =
     (inl (Py.AssertionError "Record does not exist in database"), self)) /\
  (Py.fails (Database.delete uid self) ->
     Database.delete uid self =
     (inl (Py.AssertionError "Record does not exist in database"), self)).
Proof.
  unfold Py.fails.
  rewrite insert_spec, update_spec, delete_spec, get_spec.
  unfold Database.has_key, PyDict.contains.
  destruct (PyDict.lookup UID.eqb (Database.recordDict self) (Record.uid record));
    destruct (PyDict.lookup UID.eqb (Database.recordDict self) uid);
    simpl; repeat split;
    try (intros [e He]; discriminate He);
    try discriminate; try reflexivity; eauto.
Qed.

Lemma Database_init_spec (l : PyDict.t (K := UID.t) (V := Record.t)) :
  PyDict.unique_keys UID.eqb l = true ->
  forallb (fun kr => UID.eqb (fst kr) (Record.uid (snd kr))) l = true ->
  Database.init (PyDict.values l) = {| Database.recordDict := l |}.
Proof.
  intros Hu Hk. unfold Database.init, PyDict.values. f_equal.
  rewrite (fold_set_fresh UID.eqb UID_eqb_eq Record.uid l PyDict.empty).
  - reflexivity.
  - exact Hu.
  - intros kv Hin. rewrite forallb_forall in Hk.
    apply UID_eqb_eq. apply Hk. exact Hin.
Qed.

(** The database that [query] returns, entry by entry and in order. *)
Lemma query_spec (self : Database.t) (kinds : list Record.class)
    (p : Record.t -> bool) :
  Database.wf self = true ->
  Database.query kinds p self =
  (inr {| Database.recordDict :=
            filter (fun kr =>
                      existsb (Record.class_eqb (Record.type (snd kr))) kinds
                      && p (snd kr))
                   (Database.recordDict self) |},
   self).
Proof.
  intros Hwf. unfold Database.wf in Hwf. apply andb_prop in Hwf.
  destruct Hwf as [Hu Hk].
  unfold Database.query, Py.gets. f_equal.
  set (f := fun record : Record.t =>
              existsb (Record.class_eqb (Record.type record)) kinds && p record).
  replace (filter f (PyDict.values (Database.recordDict self)))
    with (PyDict.values (filter (fun kr => f (snd kr)) (Database.recordDict self))).
  - f_equal. apply Database_init_spec.
    + apply (unique_keys_filter UID.eqb UID_eqb_eq). exact Hu.
    + apply forallb_forall. intros kr Hin. apply filter_In in Hin.
      rewrite forallb_forall in Hk. apply Hk. apply Hin.
  - unfold PyDict.values. clear Hu Hk.
    induction (Database.recordDict self) as [|[k r] d IH]; simpl; [reflexivity|].
    destruct (f r); simpl; rewrite IH; reflexivity.
Qed.

Lemma class_in_kinds (c : Record.class) (kinds : list Record.class) :
  existsb (Record.class_eqb c) kinds = true <-> In c kinds.
Proof.
  rewrite existsb_exists. split.
  - intros (c' & Hin & E). destruct c, c'; simpl in E; try discriminate; exact Hin.
  - intros Hin. exists c. split; [exact Hin|destruct c; reflexivity].
Qed.

(** C6.  [query kinds p] on a database returns a new database whose entries
    are exactly the entries of the source whose class is in [kinds] and on
    which [p] is true (under the same keys, with nothing else), and it leaves
    the source as it was. *)
Theorem query_exact (self : Database.t) (kinds : list Record.class)
    (p : Record.t -> bool) :
  Database.wf self = true ->
  exists out,
    Database.query kinds p self = (inr out, self) /\
    Database.wf out = true /\
    forall uid record,
      PyDict.lookup UID.eqb (Database.recordDict out) uid = Some record <->
      (PyDict.lookup UID.eqb (Database.recordDict self) uid = Some record /\
       In (Record.type record) kinds /\ p record = true).
Proof.
  intros Hwf. rewrite query_spec by exact Hwf.
  pose proof Hwf as Hwf'. unfold Database.wf in Hwf'.
  apply andb_prop in Hwf'. destruct Hwf' as [Hu Hk].
  eexists. split; [reflexivity|]. split.
  - unfold Database.wf. simpl. apply andb_true_intro. split.
    + apply (unique_keys_filter UID.eqb UID_eqb_eq). exact Hu.
    + apply forallb_forall. intros kr Hin. apply filter_In in Hin.
      rewrite forallb_forall in Hk. apply Hk. apply Hin.
  - intros uid record. simpl.
    rewrite (lookup_In UID.eqb UID_eqb_eq)
      by (apply (unique_keys_filter UID.eqb UID_eqb_eq); exact Hu).
    rewrite (lookup_In UID.eqb UID_eqb_eq) by exact Hu.
    rewrite filter_In. simpl. rewrite andb_true_iff, class_in_kinds. tauto.
Qed.

Lemma query_exact_witness :
  let s := Subject.init (UID.init "s1") "maths" true None None in
  let t := Topic.init (import_db (datetime.mk 2024 1 1 0 0 0 0 datetime.utc))
             (UID.init "t1") "sets" (UID.init "s1") true None None in
  let self := Database.init [Record.OfSubject s; Record.OfTopic t] in
  exists out,
    Database.query [Record.Topic] (fun _ => true) self = (inr out, self) /\
    Database.wf out = true /\
    forall uid record,
      PyDict.lookup UID.eqb (Database.recordDict out) uid = Some record <->
      (PyDict.lookup UID.eqb (Database.recordDict self) uid = Some record /\
       In (Record.type record) [Record.Topic] /\ (fun _ => true) record = true).
Proof.
  intros s t self.
  apply (query_exact self [Record.Topic] (fun _ => true)).
  reflexivity.
Defined.

(** The invariant holds of every database the operations build. *)
Lemma keys_own_set (d : PyDict.t (K := UID.t) (V := Record.t)) (record : Record.t) :
  forallb (fun kr => UID.eqb (fst kr) (Record.uid (snd kr))) d = true ->
  forallb (fun kr => UID.eqb (fst kr) (Record.uid (snd kr)))
    (PyDict.set UID.eqb d (Record.uid record) record) = true.
Proof.
  induction d as [|[k r] d IH]; simpl; intros H.
  - rewrite andb_true_r. apply UID_eqb_eq. reflexivity.
  - apply andb_prop in H. destruct H as [H1 H2].
    destruct (UID.eqb k (Record.uid record)) eqn:E; simpl.
    + rewrite E, H2. reflexivity.
    + rewrite H1, IH by exact H2. reflexivity.
Qed.

Lemma wf_set (self : Database.t) (record : Record.t) :
  Database.wf self = true ->
  Database.wf
    {| Database.recordDict :=
         PyDict.set UID.eqb (Database.recordDict self) (Record.uid record) record |}
  = true.
Proof.
  unfold Database.wf. simpl. intros H. apply andb_prop in H.
  destruct H as [Hu Hk].
  rewrite (unique_keys_set UID.eqb UID_eqb_eq) by exact Hu.
  rewrite keys_own_set by exact Hk. reflexivity.
Qed.

Lemma wf_init (records : list Record.t) : Database.wf (Database.init records) = true.
Proof.
  unfold Database.init.
  assert (H : forall d,
             Database.wf {| Database.recordDict := d |} = true ->
             Database.wf
               {| Database.recordDict :=
                    fold_left
                      (fun d record => PyDict.set UID.eqb d (Record.uid record) record)
                      records d |} = true).
  { induction records as [|r records IH]; simpl; intros d Hd; [exact Hd|].
    apply IH. apply (wf_set {| Database.recordDict := d |}). exact Hd. }
  apply H. reflexivity.
Qed.

Lemma wf_insert (self : Database.t) (record : Record.t) :
  Database.wf self = true -> Database.wf (snd (Database.insert record self)) = true.
Proof.
  intros H. rewrite insert_spec.
  destruct (Database.has_key self (Record.uid record)); simpl; [exact H|].
  apply wf_set. exact H.
Qed.

Lemma wf_update (self : Database.t) (record : Record.t) :
  Database.wf self = true -> Database.wf (snd (Database.update record self)) = true.
Proof.
  intros H. rewrite update_spec.
  destruct (Database.has_key self (Record.uid record)); simpl; [|exact H].
  apply wf_set. exact H.
Qed.

Lemma wf_delete (self : Database.t) (uid : UID.t) :
  Database.wf self = true -> Database.wf (snd (Database.delete uid self)) = true.
Proof.
  intros H. rewrite delete_spec.
  destruct (Database.has_key self uid); simpl; [|exact H].
  unfold Database.wf in *. simpl. apply andb_prop in H. destruct H as [Hu Hk].
  rewrite (unique_keys_del UID.eqb) by exact Hu. simpl.
  clear Hu. induction (Database.recordDict self) as [|[k r] d IH]; simpl in *;
    [reflexivity|].
  apply andb_prop in Hk. destruct Hk as [H1 H2].
  destruct (UID.eqb k uid); simpl; [exact H2|].
  rewrite H1, IH by exact H2. reflexivity.
Qed.

(** ** The predictor *)

Lemma getNthFibNumber_memoized (self : FibNumbers.t) (n : Z) :
  memo_ok self -> 1 <= n <= Py.len (FibNumbers.fibNumbers self) ->
  FibNumbers.getNthFibNumber n self = (inr (fib_at (Z.to_nat (n - 1))), self).
Proof.
  intros [Hlen Heq] Hn. destruct self as [l]. unfold Py.len in Hn. simpl in *.
  unfold FibNumbers.getNthFibNumber.
  destruct (n =? 0) eqn:E0; [apply Z.eqb_eq in E0; lia|].
  destruct (n <? 0) eqn:E1; [apply Z.ltb_lt in E1; lia|].
  unfold Py.bind at 1. unfold Py.gets. cbn [FibNumbers.fibNumbers]. unfold Py.len.
  destruct (n <=? Z.of_nat (List.length l)) eqn:E2; [|apply Z.leb_gt in E2; lia].
  unfold FibNumbers.at_. cbn [FibNumbers.fibNumbers]. f_equal.
  rewrite Heq. rewrite getitem_fib by lia. reflexivity.
Qed.

Lemma getNthFibNumber_reachable (self : FibNumbers.t) (n : Z) :
  FibNumbers.reachable self ->
  FibNumbers.reachable (snd (FibNumbers.getNthFibNumber n self)).
Proof. intros H. apply FibNumbers.reachable_call. exact H. Qed.

Section PredictFacts.

Variable now : nat -> datetime.t.

Let result_dict := PyDict.t (K := UID.t) (V := datetime.t).

Lemma predict_loop_cons table (r : Record.t) l (acc : result_dict) w :
  Predictor.predict_loop now table (r :: l) acc w =
  match Predictor.predict_item now table acc r w with
  | (inr acc', w') => Predictor.predict_loop now table l acc' w'
  | (inl e, w') => (inl e, w')
  end.
Proof. reflexivity. Qed.

Lemma predict_loop_app table (l1 l2 : list Record.t) (acc : result_dict) w :
  Predictor.predict_loop now table (l1 ++ l2) acc w =
  match Predictor.predict_loop now table l1 acc w with
  | (inr acc', w') => Predictor.predict_loop now table l2 acc' w'
  | (inl e, w') => (inl e, w')
  end.
Proof.
  revert acc w. induction l1 as [|r l1 IH]; intros acc w; simpl.
  - reflexivity.
  - unfold Py.bind.
    destruct (Predictor.predict_item now table acc r w) as [[e|acc'] w'].
    + reflexivity.
    + apply IH.
Qed.

Lemma predict_item_reachable table (acc : result_dict) r w :
  FibNumbers.reachable (Predictor.fibNumbers w) ->
  FibNumbers.reachable
    (Predictor.fibNumbers (snd (Predictor.predict_item now table acc r w))).
Proof.
  intros Hr. destruct r as [s|t]; simpl; [exact Hr|].
  unfold Py.bind, Predictor.with_fib, Py.lift, Predictor.datetime_now, Py.ret.
  pose proof (getNthFibNumber_reachable _ (Topic.fibNumber t) Hr) as Hr'.
  destruct (FibNumbers.getNthFibNumber (Topic.fibNumber t) (Predictor.fibNumbers w))
    as [[e|raw] f]; simpl in *; [exact Hr'|].
  destruct (Predictor.getitem table (Topic.subjectUID t)) as [e|wb]; simpl;
    [exact Hr'|].
  destruct (Predictor.actualPred raw (fst wb) (snd wb)) as [e|pred]; simpl;
    [exact Hr'|].
  destruct (datetime.timedelta_days pred) as [e|days]; simpl; [exact Hr'|].
  destruct (datetime.add_days (now (Predictor.clock w)) days) as [e|due]; simpl;
    exact Hr'.
Qed.

Lemma predict_loop_reachable table l (acc : result_dict) w :
  FibNumbers.reachable (Predictor.fibNumbers w) ->
  FibNumbers.reachable
    (Predictor.fibNumbers (snd (Predictor.predict_loop now table l acc w))).
Proof.
  revert acc w. induction l as [|r l IH]; intros acc w Hr; simpl; [exact Hr|].
  unfold Py.bind.
  pose proof (predict_item_reachable table acc r w Hr) as Hr'.
  destruct (Predictor.predict_item now table acc r w) as [[e|acc'] w'];
    simpl in *; [exact Hr'|].
  apply IH. exact Hr'.
Qed.

(** A topic that the table does not resolve makes its iteration fail. *)
Lemma predict_item_unresolved table (acc : result_dict) (t : Topic.t) w :
  PyDict.lookup UID.eqb table (Topic.subjectUID t) = None ->
  Py.fails (Predictor.predict_item now table acc (Record.OfTopic t) w).
Proof.
  intros Hnone. unfold Py.fails. simpl.
  unfold Py.bind, Predictor.with_fib, Py.lift, Predictor.getitem.
  destruct (FibNumbers.getNthFibNumber (Topic.fibNumber t) (Predictor.fibNumbers w))
    as [[e|raw] f]; simpl.
  - eauto.
  - rewrite Hnone. simpl. eauto.
Qed.

Lemma predict_item_unresolved_KeyError table (acc : result_dict) (t : Topic.t) w :
  PyDict.lookup UID.eqb table (Topic.subjectUID t) = None ->
  FibNumbers.reachable (Predictor.fibNumbers w) ->
  1 <= Topic.fibNumber t ->
  fst (Predictor.predict_item now table acc (Record.OfTopic t) w) =
  inl (Py.KeyError (UID.toString (Topic.subjectUID t))).
Proof.
  intros Hnone Hr Hn. simpl.
  unfold Py.bind, Predictor.with_fib, Py.lift, Predictor.getitem.
  destruct (getNthFibNumber_ok _ (Topic.fibNumber t) (reachable_memo_ok _ Hr) Hn)
    as (f & Hc & _).
  rewrite Hc. simpl. rewrite Hnone. reflexivity.
Qed.

Lemma predict_loop_unresolved table l (t : Topic.t) :
  In (Record.OfTopic t) l ->
  PyDict.lookup UID.eqb table (Topic.subjectUID t) = None ->
  forall (acc : result_dict) w,
    Py.fails (Predictor.predict_loop now table l acc w).
Proof.
  intros Hin Hnone. induction l as [|r l IH]; intros acc w; [destruct Hin|].
  simpl. unfold Py.bind.
  destruct Hin as [->|Hin].
  - destruct (predict_item_unresolved table acc t w Hnone) as [e He].
    destruct (Predictor.predict_item now table acc (Record.OfTopic t) w)
      as [[e'|acc'] w']; simpl in *; [|discriminate].
    exists e'. reflexivity.
  - destruct (Predictor.predict_item now table acc r w) as [[e'|acc'] w'].
    + exists e'. reflexivity.
    + apply IH. exact Hin.
Qed.

End PredictFacts.

(** The table of the first loop resolves exactly the uids of the subjects. *)
Lemma subjectWAndTup_fold_None (l : list Record.t) (d : Predictor.lookup_table)
    (u : UID.t) :
  PyDict.lookup UID.eqb
    (fold_left
       (fun d subject =>
          match subject with
          | Record.OfSubject s =>
              PyDict.set UID.eqb d (Subject.uid s) (Subject.weight s, Subject.bias s)
          | Record.OfTopic _ => d
          end) l d) u = None <->
  (PyDict.lookup UID.eqb d u = None /\
   forall s, In (Record.OfSubject s) l -> Subject.uid s <> u).
Proof.
  revert d. induction l as [|r l IH]; intros d; simpl.
  - split; [intros H; split; [exact H|tauto]|tauto].
  - rewrite IH. destruct r as [s|t].
    + split.
      * intros [Hl Hs]. destruct (UID_eqb_eq (Subject.uid s) u) as [_ Heq].
        assert (Hne : Subject.uid s <> u).
        { intros E. rewrite <- E in Hl.
          rewrite (lookup_set_eq UID.eqb UID_eqb_eq) in Hl. discriminate. }
        rewrite (lookup_set_ne UID.eqb UID_eqb_eq) in Hl by exact Hne.
        split; [exact Hl|]. intros s' [[= ->]|Hin]; [exact Hne|auto].
      * intros [Hl Hs]. split; [|intros s' Hin; apply Hs; right; exact Hin].
        rewrite (lookup_set_ne UID.eqb UID_eqb_eq); [exact Hl|].
        apply Hs. left. reflexivity.
    + split.
      * intros [Hl Hs]. split; [exact Hl|].
        intros s [Hd|Hin]; [discriminate|auto].
      * intros [Hl Hs]. split; [exact Hl|]. intros s Hin. apply Hs. right. exact Hin.
Qed.

Lemma dangling_unresolved (dBase : Database.t) (t : Topic.t) :
  Database.dangling dBase t <->
  PyDict.lookup UID.eqb (Predictor.subjectWAndTup dBase) (Topic.subjectUID t) = None.
Proof.
  unfold Predictor.subjectWAndTup. rewrite subjectWAndTup_fold_None.
  unfold Database.dangling, Database.records. simpl. tauto.
Qed.

(** One iteration for a topic whose subject is found: the date stored is
    the clock reading plus the day offset. *)
Lemma predict_item_ok (now : nat -> datetime.t) table
    (acc : PyDict.t (K := UID.t) (V := datetime.t)) (t : Topic.t) w
    wt b pred f' days due :
  PyDict.lookup UID.eqb table (Topic.subjectUID t) = Some (wt, b) ->
  Predictor.offsetDays (Topic.fibNumber t) wt b (Predictor.fibNumbers w)
    = (inr pred, f') ->
  datetime.timedelta_days pred = inr days ->
  datetime.add_days (now (Predictor.clock w)) days = inr due ->
  Predictor.predict_item now table acc (Record.OfTopic t) w =
  (inr (PyDict.set UID.eqb acc (Topic.uid t) due),
   {| Predictor.fibNumbers := f'; Predictor.clock := S (Predictor.clock w) |}).
Proof.
  intros Hl Hoff Hd Ha. simpl.
  unfold Predictor.offsetDays, Py.bind, Py.lift in Hoff.
  unfold Py.bind, Predictor.with_fib, Py.lift, Predictor.getitem,
    Predictor.datetime_now, Py.ret.
  destruct (FibNumbers.getNthFibNumber (Topic.fibNumber t) (Predictor.fibNumbers w))
    as [[e|raw] f]; [discriminate|].
  injection Hoff as Hp ->. simpl. rewrite Hl. simpl. rewrite Hp. simpl.
  rewrite Hd. simpl. rewrite Ha. reflexivity.
Qed.

Lemma offsetDays_scenario (f : FibNumbers.t) :
  FibNumbers.reachable f ->
  Predictor.offsetDays 2 (Float.round 5 (-1)) 0 f = (inr 2, f).
Proof.
  intros Hr. unfold Predictor.offsetDays, Py.bind.
  pose proof (reachable_memo_ok f Hr) as Hok.
  rewrite getNthFibNumber_memoized; [reflexivity|exact Hok|].
  destruct Hok as [Hlen _]. unfold Py.len. lia.
Qed.

(** C1 (as the code behaves).  For a database that holds exactly one
    subject of weight 2.5 and bias 0 and one topic of [fibNumber] 2 that
    refers to it, [predict] returns the mapping that sends the topic's uid to
    the clock reading plus [round(1 * 2.5) = 2] days: Python rounds a half to
    the even neighbour. *)
Theorem predict_scenario (now : nat -> datetime.t) (db : Database.t)
    (s : Subject.t) (t : Topic.t) (w : Predictor.World) (due : datetime.t) :
  Subject.weight s = Float.round 5 (-1) ->
  Subject.bias s = 0 ->
  Topic.fibNumber t = 2 ->
  Topic.subjectUID t = Subject.uid s ->
  Topic.uid t <> Subject.uid s ->
  Database.recordDict db =
    [(Subject.uid s, Record.OfSubject s); (Topic.uid t, Record.OfTopic t)] \/
  Database.recordDict db =
    [(Topic.uid t, Record.OfTopic t); (Subject.uid s, Record.OfSubject s)] ->
  FibNumbers.reachable (Predictor.fibNumbers w) ->
  datetime.add_days (now (Predictor.clock w)) 2 = inr due ->
  Predictor.predict now (Predictor.init db) w =
  (inr ([(Topic.uid t, due)],
        {| Predictor.dBase := db;
           Predictor.timeLookup := [(Topic.uid t, due)] |}),
   {| Predictor.fibNumbers := Predictor.fibNumbers w;
      Predictor.clock := S (Predictor.clock w) |}).
Proof.
  intros Hw Hb Hn Hsub Hne Hdb Hr Hdue.
  assert (Htable : Predictor.subjectWAndTup db =
                   [(Subject.uid s, (Float.round 5 (-1), 0))]).
  { unfold Predictor.subjectWAndTup, PyDict.values.
    destruct Hdb as [-> | ->]; simpl; rewrite Hw, Hb; reflexivity. }
  assert (Hitem : forall acc,
            Predictor.predict_item now (Predictor.subjectWAndTup db) acc
              (Record.OfTopic t) w =
            (inr (PyDict.set UID.eqb acc (Topic.uid t) due),
             {| Predictor.fibNumbers := Predictor.fibNumbers w;
                Predictor.clock := S (Predictor.clock w) |})).
  { intros acc.
    apply (predict_item_ok now _ acc t w (Float.round 5 (-1)) 0 2 _ 2 due).
    - rewrite Htable, Hsub. simpl.
      rewrite (proj2 (UID_eqb_eq _ _) eq_refl). reflexivity.
    - rewrite Hn. apply offsetDays_scenario. exact Hr.
    - reflexivity.
    - exact Hdue. }
  assert (Hloop :
            Predictor.predict_loop now (Predictor.subjectWAndTup db)
              (PyDict.values (Database.recordDict db)) PyDict.empty w =
            (inr [(Topic.uid t, due)],
             {| Predictor.fibNumbers := Predictor.fibNumbers w;
                Predictor.clock := S (Predictor.clock w) |})).
  { destruct Hdb as [Hdb | Hdb]; rewrite Hdb; unfold PyDict.values;
      cbn [map snd]; rewrite !predict_loop_cons.
    - change (Predictor.predict_item now (Predictor.subjectWAndTup db)
                PyDict.empty (Record.OfSubject s) w)
        with (@inr Py.exn _ (@PyDict.empty UID.t datetime.t), w).
      cbv iota beta. rewrite predict_loop_cons, Hitem. reflexivity.
    - rewrite Hitem. cbv iota beta. rewrite predict_loop_cons. reflexivity. }
  unfold Predictor.predict, Predictor.init. cbn [Predictor.dBase].
  unfold Py.bind. rewrite Hloop. reflexivity.
Qed.

Lemma predict_scenario_witness :
  Predictor.predict Sample.now (Predictor.init Sample.db) Sample.world =
  (inr ([(UID.init "t1", datetime.mk 2026 11 5 22 59 0 0 datetime.utc)],
        {| Predictor.dBase := Sample.db;
           Predictor.timeLookup :=
             [(UID.init "t1", datetime.mk 2026 11 5 22 59 0 0 datetime.utc)] |}),
   {| Predictor.fibNumbers := FibNumbers.init; Predictor.clock := 1 |}).
Proof.
  apply (predict_scenario Sample.now Sample.db Sample.maths Sample.sets
           Sample.world (datetime.mk 2026 11 5 22 59 0 0 datetime.utc)).
  - reflexivity.
  - reflexivity.
  - reflexivity.
  - reflexivity.
  - discriminate.
  - left. reflexivity.
  - apply FibNumbers.reachable_init.
  - reflexivity.
Defined.

(** C1 as stated fails: in the scenario the topic is predicted for the
    clock reading plus 2 days, which is not the clock reading plus 3 days. *)
Lemma predict_scenario_not_3_days :
  exists due self' w' due3,
    Predictor.predict Sample.now (Predictor.init Sample.db) Sample.world =
      (inr ([(Topic.uid Sample.sets, due)], self'), w') /\
    datetime.add_days (Sample.now 0) 3 = inr due3 /\
    due <> due3.
Proof.
  do 4 eexists. split; [|split].
  - vm_compute. reflexivity.
  - vm_compute. reflexivity.
  - discriminate.
Qed.

Lemma predict_loop_first_failure (now : nat -> datetime.t) table
    (items : list Record.t) :
  forall (acc : PyDict.t (K := UID.t) (V := datetime.t)) w e w',
    Predictor.predict_loop now table items acc w = (inl e, w') ->
    exists pre item post acc1 w1,
      items = pre ++ item :: post /\
      Predictor.predict_loop now table pre acc w = (inr acc1, w1) /\
      Predictor.predict_item now table acc1 item w1 = (inl e, w').
Proof.
  induction items as [|r l IH]; intros acc w e w' H; [discriminate|].
  rewrite predict_loop_cons in H.
  destruct (Predictor.predict_item now table acc r w) as [[e1|acc1] w1] eqn:Hr.
  - injection H as <- <-. exists [], r, l, acc, w.
    split; [reflexivity|]. split; [reflexivity|exact Hr].
  - destruct (IH acc1 w1 e w' H) as (pre & item & post & acc2 & w2 & -> & Hp & Hi).
    exists (r :: pre), item, post, acc2, w2.
    split; [reflexivity|]. split; [|exact Hi].
    rewrite predict_loop_cons, Hr. exact Hp.
Qed.



(** C8 (as the code behaves).  If a topic of the database refers to no
    subject of the database, [predict] raises and returns no mapping (and
    its [timeLookup] is not touched).  The exception is the one of the first
    record, in the order of iteration, whose prediction fails: the records
    before it are predicted, its own prediction raises, and [predict] ends
    there with that exception, in the state in which that record left the
    engine and the clock.  It is the [KeyError] of the missing reference
    when the records before the topic are predicted and the topic's
    [fibNumber] is at least 1. *)
Theorem predict_dangling (now : nat -> datetime.t) (self : Predictor.t)
    (t : Topic.t) (w : Predictor.World) :
  In (Record.OfTopic t) (Database.records (Predictor.dBase self)) ->
  Database.dangling (Predictor.dBase self) t ->
  Py.fails (Predictor.predict now self w) /\
  (exists pre item post acc w1 e w2,
     Database.records (Predictor.dBase self) = pre ++ item :: post /\
     Predictor.predict_loop now (Predictor.subjectWAndTup (Predictor.dBase self))
       pre PyDict.empty w = (inr acc, w1) /\
     Predictor.predict_item now (Predictor.subjectWAndTup (Predictor.dBase self))
       acc item w1 = (inl e, w2) /\
     Predictor.predict now self w = (inl e, w2)) /\
  (forall pre post acc w1,
     Database.records (Predictor.dBase self) = pre ++ Record.OfTopic t :: post ->
     Predictor.predict_loop now (Predictor.subjectWAndTup (Predictor.dBase self))
       pre PyDict.empty w = (inr acc, w1) ->
     FibNumbers.reachable (Predictor.fibNumbers w) ->
     1 <= Topic.fibNumber t ->
     fst (Predictor.predict now self w) =
     inl (Py.KeyError (UID.toString (Topic.subjectUID t)))).
Proof.
  intros Hin Hd. apply dangling_unresolved in Hd.
  assert (Hfail : exists e w2,
            Predictor.predict_loop now
              (Predictor.subjectWAndTup (Predictor.dBase self))
              (Database.records (Predictor.dBase self)) PyDict.empty w =
            (inl e, w2)).
  { destruct (predict_loop_unresolved now _ _ t Hin Hd PyDict.empty w) as [e He].
    destruct (Predictor.predict_loop now
                (Predictor.subjectWAndTup (Predictor.dBase self))
                (Database.records (Predictor.dBase self)) PyDict.empty w)
      as [[e'|acc] w']; simpl in He; [|discriminate].
    exists e', w'. reflexivity. }
  destruct Hfail as (e & w2 & Hloop).
  assert (Hpred : Predictor.predict now self w = (inl e, w2)).
  { unfold Predictor.predict, Py.bind.
    fold (Database.records (Predictor.dBase self)). rewrite Hloop. reflexivity. }
  split; [|split].
  - exists e. rewrite Hpred. reflexivity.
  - destruct (predict_loop_first_failure now _ _ _ _ _ _ Hloop)
      as (pre & item & post & acc & w1 & Hsplit & Hpre & Hitem).
    exists pre, item, post, acc, w1, e, w2.
    split; [exact Hsplit|]. split; [exact Hpre|]. split; [exact Hitem|exact Hpred].
  - intros pre post acc w1 Hsplit Hpre Hr Hn.
    unfold Predictor.predict, Py.bind. unfold Database.records in Hsplit.
    rewrite Hsplit, predict_loop_app, Hpre, predict_loop_cons.
    assert (Hr1 : FibNumbers.reachable (Predictor.fibNumbers w1)).
    { pose proof (predict_loop_reachable now
                    (Predictor.subjectWAndTup (Predictor.dBase self))
                    pre PyDict.empty w Hr) as H.
      rewrite Hpre in H. exact H. }
    pose proof (predict_item_unresolved_KeyError now _ acc t w1 Hd Hr1 Hn) as Hk.
    destruct (Predictor.predict_item now
                (Predictor.subjectWAndTup (Predictor.dBase self)) acc
                (Record.OfTopic t) w1) as [[e0|a] w3]; simpl in Hk;
      [|discriminate].
    simpl. injection Hk as ->. reflexivity.
Qed.

Lemma orphan_dangling : Database.dangling Sample.db_orphan Sample.orphan.
Proof.
  intros s Hin. simpl in Hin.
  destruct Hin as [[= <-]|[H|[H|[]]]]; discriminate.
Qed.

Lemma predict_dangling_witness :
  let db := Database.init [Record.OfSubject Sample.maths;
                           Record.OfTopic Sample.orphan] in
  Py.fails (Predictor.predict Sample.now (Predictor.init db) Sample.world) /\
  (exists pre item post acc w1 e w2,
     Database.records db = pre ++ item :: post /\
     Predictor.predict_loop Sample.now (Predictor.subjectWAndTup db)
       pre PyDict.empty Sample.world = (inr acc, w1) /\
     Predictor.predict_item Sample.now (Predictor.subjectWAndTup db)
       acc item w1 = (inl e, w2) /\
     Predictor.predict Sample.now (Predictor.init db) Sample.world =
       (inl e, w2)) /\
  (forall pre post acc w1,
     Database.records db = pre ++ Record.OfTopic Sample.orphan :: post ->
     Predictor.predict_loop Sample.now (Predictor.subjectWAndTup db)
       pre PyDict.empty Sample.world = (inr acc, w1) ->
     FibNumbers.reachable (Predictor.fibNumbers Sample.world) ->
     1 <= Topic.fibNumber Sample.orphan ->
     fst (Predictor.predict Sample.now (Predictor.init db) Sample.world) =
     inl (Py.KeyError (UID.toString (Topic.subjectUID Sample.orphan)))).
Proof.
  intros db.
  apply (predict_dangling Sample.now (Predictor.init db) Sample.orphan Sample.world).
  - simpl. right. left. reflexivity.
  - intros s Hin. simpl in Hin.
    destruct Hin as [[= <-]|[H|[]]]; discriminate.
Defined.

(** C8 as stated fails: a topic of the database refers to no subject, and
    [predict] raises [OverflowError], not the [KeyError] of the missing
    reference, because an earlier topic already fails. *)
Lemma predict_dangling_other_exception :
  In (Record.OfTopic Sample.orphan) (Database.records Sample.db_orphan) /\
  Database.dangling Sample.db_orphan Sample.orphan /\
  fst (Predictor.predict Sample.now (Predictor.init Sample.db_orphan) Sample.world)
    = inl Py.OverflowError.
Proof.
  split; [|split].
  - simpl. right. right. left. reflexivity.
  - exact orphan_dangling.
  - vm_compute. reflexivity.
Qed.






(** ** Floats: rounding is monotone *)

Lemma pow2_pos (k : Z) : 0 <= k -> 0 < 2 ^ k.
Proof. intros H. apply Z.pow_pos_nonneg; lia. Qed.

Lemma pow2_split (a b : Z) : 0 <= a -> 0 <= b -> 2 ^ (a + b) = 2 ^ a * 2 ^ b.
Proof. intros Ha Hb. apply Z.pow_add_r; assumption. Qed.

Lemma rne_shift_mono (m1 m2 k : Z) :
  0 <= k -> m1 <= m2 -> Float.rne_shift m1 k <= Float.rne_shift m2 k.
Proof.
  intros Hk Hm. unfold Float.rne_shift.
  pose proof (pow2_pos k Hk) as Hd. set (d := 2 ^ k) in *.
  pose proof (Z.div_mod m1 d ltac:(lia)) as E1.
  pose proof (Z.div_mod m2 d ltac:(lia)) as E2.
  pose proof (Z.mod_pos_bound m1 d Hd) as B1.
  pose proof (Z.mod_pos_bound m2 d Hd) as B2.
  pose proof (Z.div_le_mono m1 m2 d Hd Hm) as Hq.
  destruct (Z.eq_dec (m1 / d) (m2 / d)) as [Heq|Hne].
  - rewrite Heq in *. set (q := m2 / d) in *.
    assert (Hr : m1 mod d <= m2 mod d) by lia.
    destruct (Z.ltb_spec (2 * (m1 mod d)) d), (Z.ltb_spec (2 * (m2 mod d)) d),
      (Z.ltb_spec d (2 * (m1 mod d))), (Z.ltb_spec d (2 * (m2 mod d)));
      destruct (Z.even q); lia.
  - destruct (2 * (m1 mod d) <? d), (2 * (m2 mod d) <? d),
      (d <? 2 * (m1 mod d)), (d <? 2 * (m2 mod d)),
      (Z.even (m1 / d)), (Z.even (m2 / d)); lia.
Qed.

Lemma rne_shift_0 (m : Z) : Float.rne_shift m 0 = m.
Proof.
  unfold Float.rne_shift. simpl (2 ^ 0).
  rewrite Z.div_1_r, Z.mod_1_r. reflexivity.
Qed.

Lemma rne_shift_scale (m k j : Z) :
  0 <= k -> 0 <= j -> Float.rne_shift (m * 2 ^ j) (k + j) = Float.rne_shift m k.
Proof.
  intros Hk Hj. unfold Float.rne_shift.
  rewrite pow2_split by assumption.
  pose proof (pow2_pos k Hk) as Hd. pose proof (pow2_pos j Hj) as Hp.
  rewrite Z.div_mul_cancel_r by lia.
  rewrite Z.mul_mod_distr_r by lia.
  set (d := 2 ^ k) in *. set (p := 2 ^ j) in *.
  set (r := m mod d). set (q := m / d).
  replace (2 * (r * p) <? d * p) with (2 * r <? d).
  2:{ destruct (Z.ltb_spec (2 * r) d), (Z.ltb_spec (2 * (r * p)) (d * p));
      try reflexivity; nia. }
  replace (d * p <? 2 * (r * p)) with (d <? 2 * r).
  2:{ destruct (Z.ltb_spec d (2 * r)), (Z.ltb_spec (d * p) (2 * (r * p)));
      try reflexivity; nia. }
  reflexivity.
Qed.

Lemma rne_shift_exact (m j : Z) : 0 <= j -> Float.rne_shift (m * 2 ^ j) j = m.
Proof.
  intros Hj. rewrite <- (rne_shift_0 m) at 2.
  rewrite <- (rne_shift_scale m 0 j) by lia. reflexivity.
Qed.

Lemma rne_shift_lower (m k a : Z) :
  0 <= k -> a * 2 ^ k <= m -> a <= Float.rne_shift m k.
Proof.
  intros Hk Ha. pose proof (pow2_pos k Hk) as Hd.
  assert (Hq : a <= m / 2 ^ k) by (apply Z.div_le_lower_bound; lia).
  unfold Float.rne_shift.
  destruct (2 * (m mod 2 ^ k) <? 2 ^ k), (2 ^ k <? 2 * (m mod 2 ^ k)),
    (Z.even (m / 2 ^ k)); lia.
Qed.

Lemma rne_shift_upper (m k b : Z) :
  0 <= k -> m <= b * 2 ^ k -> Float.rne_shift m k <= b.
Proof.
  intros Hk Hb. pose proof (pow2_pos k Hk) as Hd.
  destruct (Z.eq_dec m (b * 2 ^ k)) as [->|Hne].
  - rewrite rne_shift_exact by assumption. lia.
  - assert (Hq : m / 2 ^ k < b) by (apply Z.div_lt_upper_bound; lia).
    unfold Float.rne_shift.
    destruct (2 * (m mod 2 ^ k) <? 2 ^ k), (2 ^ k <? 2 * (m mod 2 ^ k)),
      (Z.even (m / 2 ^ k)); lia.
Qed.

Lemma dle_scaled (m1 e1 m2 e2 c : Z) :
  c <= e1 -> c <= e2 ->
  (dle m1 e1 m2 e2 <-> m1 * 2 ^ (e1 - c) <= m2 * 2 ^ (e2 - c)).
Proof.
  intros H1 H2. unfold dle. set (k := Z.min e1 e2).
  assert (Hk : c <= k) by (unfold k; lia).
  assert (Hk1 : k <= e1) by (unfold k; lia).
  assert (Hk2 : k <= e2) by (unfold k; lia).
  replace (e1 - c) with ((e1 - k) + (k - c)) by lia.
  replace (e2 - c) with ((e2 - k) + (k - c)) by lia.
  rewrite !pow2_split by lia.
  pose proof (pow2_pos (k - c) ltac:(lia)) as Hp.
  rewrite !Z.mul_assoc. split; intros H.
  - apply Z.mul_le_mono_nonneg_r; [lia|exact H].
  - apply Z.mul_le_mono_pos_r in H; assumption.
Qed.

Lemma dle_same_exp (m1 m2 e : Z) : dle m1 e m2 e <-> m1 <= m2.
Proof.
  rewrite (dle_scaled m1 e m2 e e) by lia.
  rewrite Z.sub_diag. simpl (2 ^ 0). lia.
Qed.

Lemma ulp_exp_scale (m ex j : Z) :
  0 < m -> 0 <= j -> Float.ulp_exp (m * 2 ^ j) (ex - j) = Float.ulp_exp m ex.
Proof.
  intros Hm Hj. unfold Float.ulp_exp.
  rewrite Z.log2_mul_pow2 by lia. f_equal. lia.
Qed.

Lemma round_pos_scale (m ex j : Z) :
  0 < m -> 0 <= j ->
  Float.round_pos (m * 2 ^ j) (ex - j) = Float.round_pos m ex.
Proof.
  intros Hm Hj. unfold Float.round_pos.
  rewrite ulp_exp_scale by assumption.
  set (e := Float.ulp_exp m ex).
  replace (if e <=? ex - j then m * 2 ^ j * 2 ^ (ex - j - e)
           else Float.rne_shift (m * 2 ^ j) (e - (ex - j)))
    with (if e <=? ex then m * 2 ^ (ex - e) else Float.rne_shift m (e - ex));
    [reflexivity|].
  destruct (Z.leb_spec e ex) as [H1|H1], (Z.leb_spec e (ex - j)) as [H2|H2].
  - rewrite <- Z.mul_assoc, <- pow2_split by lia. f_equal. f_equal. lia.
  - replace (m * 2 ^ j)
      with (m * 2 ^ (ex - e) * 2 ^ (e - (ex - j))).
    + rewrite rne_shift_exact by lia. reflexivity.
    + rewrite <- Z.mul_assoc, <- pow2_split by lia. f_equal. f_equal. lia.
  - lia.
  - replace (e - (ex - j)) with ((e - ex) + j) by lia.
    rewrite rne_shift_scale by lia. reflexivity.
Qed.

Lemma round_scale (m ex j : Z) :
  0 <= j -> Float.round (m * 2 ^ j) (ex - j) = Float.round m ex.
Proof.
  intros Hj. pose proof (pow2_pos j Hj) as Hp. unfold Float.round.
  destruct (Z.eqb_spec m 0) as [->|Hm0].
  - reflexivity.
  - destruct (Z.eqb_spec (m * 2 ^ j) 0) as [H|_]; [nia|].
    destruct (Z.ltb_spec m 0) as [Hneg|Hpos],
             (Z.ltb_spec (m * 2 ^ j) 0) as [Hneg'|Hpos']; try nia.
    + replace (- (m * 2 ^ j)) with (- m * 2 ^ j) by lia.
      rewrite round_pos_scale by lia. reflexivity.
    + rewrite round_pos_scale by lia. reflexivity.
Qed.

(** What [round_pos] returns when it does not overflow. *)
Lemma round_pos_finite (m c n f : Z) :
  0 < m ->
  Float.round_pos m c = Float.Finite n f ->
  f = Float.ulp_exp m c /\
  n = (if f <=? c then m * 2 ^ (c - f) else Float.rne_shift m (f - c)) /\
  0 <= n <= 2 ^ 53 /\
  (f = Z.log2 m + c - 52 -> 2 ^ 52 <= n).
Proof.
  intros Hm H. unfold Float.round_pos in H.
  set (e := Float.ulp_exp m c) in *.
  destruct ((971 <? e) ||
            ((e =? 971) &&
             (2 ^ 53 <=? (if e <=? c then m * 2 ^ (c - e)
                          else Float.rne_shift m (e - c)))));
    [discriminate|].
  injection H as <- <-. split; [reflexivity|]. split; [reflexivity|].
  pose proof (Z.log2_spec m Hm) as [Hlo Hhi].
  pose proof (Z.log2_nonneg m) as Hl0.
  assert (He : Z.log2 m + c - 52 <= e) by (unfold e, Float.ulp_exp; lia).
  destruct (Z.leb_spec e c) as [Hec|Hec].
  - pose proof (pow2_pos (c - e) ltac:(lia)) as Hp.
    split; [split|].
    + nia.
    + assert (m * 2 ^ (c - e) < 2 ^ (Z.succ (Z.log2 m)) * 2 ^ (c - e)) by nia.
      rewrite <- pow2_split in H by lia.
      assert (2 ^ (Z.succ (Z.log2 m) + (c - e)) <= 2 ^ 53)
        by (apply Z.pow_le_mono_r; lia).
      lia.
    + intros Hf.
      assert (2 ^ Z.log2 m * 2 ^ (c - e) <= m * 2 ^ (c - e)) by nia.
      rewrite <- pow2_split in H by lia.
      replace (Z.log2 m + (c - e)) with 52 in H by lia. exact H.
  - split; [split|].
    + apply rne_shift_lower; lia.
    + apply rne_shift_upper; [lia|].
      rewrite <- pow2_split by lia.
      assert (2 ^ (Z.succ (Z.log2 m)) <= 2 ^ (53 + (e - c)))
        by (apply Z.pow_le_mono_r; lia).
      lia.
    + intros Hf. apply rne_shift_lower; [lia|].
      rewrite <- pow2_split by lia.
      replace (52 + (e - c)) with (Z.log2 m) by lia. exact Hlo.
Qed.

Lemma round_pos_mono (m1 m2 c n1 f1 n2 f2 : Z) :
  0 < m1 -> m1 <= m2 ->
  Float.round_pos m1 c = Float.Finite n1 f1 ->
  Float.round_pos m2 c = Float.Finite n2 f2 ->
  dle n1 f1 n2 f2.
Proof.
  intros Hpos Hle H1 H2.
  destruct (round_pos_finite m1 c n1 f1 Hpos H1) as (Hf1 & Hn1 & Hb1 & _).
  destruct (round_pos_finite m2 c n2 f2 ltac:(lia) H2) as (Hf2 & Hn2 & Hb2 & Hlow2).
  pose proof (Z.log2_le_mono m1 m2 Hle) as Hlog.
  assert (Hff : f1 <= f2) by (subst f1 f2; unfold Float.ulp_exp; lia).
  destruct (Z.eq_dec f1 f2) as [Heq|Hne].
  - subst f2. rewrite Heq in *. apply dle_same_exp. rewrite Hn1, Hn2.
    destruct (Z.leb_spec (Float.ulp_exp m2 c) c) as [Hc|Hc].
    + pose proof (pow2_pos (c - Float.ulp_exp m2 c) ltac:(lia)). nia.
    + apply rne_shift_mono; lia.
  - assert (Hf2' : f2 = Z.log2 m2 + c - 52).
    { subst f1 f2. unfold Float.ulp_exp in *. lia. }
    specialize (Hlow2 Hf2').
    apply (dle_scaled n1 f1 n2 f2 f1); [lia|lia|].
    rewrite Z.sub_diag. simpl (2 ^ 0).
    assert (2 ^ 1 <= 2 ^ (f2 - f1)) by (apply Z.pow_le_mono_r; lia).
    change (2 ^ 53) with (2 ^ 52 * 2 ^ 1) in Hb1. nia.
Qed.

Lemma dle_opp (m1 e1 m2 e2 : Z) : dle m1 e1 m2 e2 -> dle (- m2) e2 (- m1) e1.
Proof. unfold dle. rewrite (Z.min_comm e2 e1). lia. Qed.

Lemma dle_signs (m1 e1 m2 e2 : Z) : m1 <= 0 -> 0 <= m2 -> dle m1 e1 m2 e2.
Proof.
  intros H1 H2. unfold dle.
  pose proof (pow2_pos (e1 - Z.min e1 e2) ltac:(lia)).
  pose proof (pow2_pos (e2 - Z.min e1 e2) ltac:(lia)).
  nia.
Qed.

Lemma opp_finite (x : Float.t) (n f : Z) :
  Float.opp x = Float.Finite n f -> x = Float.Finite (- n) f.
Proof.
  destruct x as [m e|s|]; simpl; intros H; try discriminate.
  injection H as <- <-. f_equal. lia.
Qed.

Lemma round_sign (m c n f : Z) :
  Float.round m c = Float.Finite n f ->
  (0 <= m -> 0 <= n) /\ (m <= 0 -> n <= 0).
Proof.
  unfold Float.round.
  destruct (Z.eqb_spec m 0) as [->|Hm0].
  - intros [= <- <-]. lia.
  - destruct (Z.ltb_spec m 0) as [Hneg|Hpos]; intros H.
    + apply opp_finite in H.
      destruct (round_pos_finite (- m) c (- n) f ltac:(lia) H) as (_ & _ & Hb & _).
      lia.
    + destruct (round_pos_finite m c n f ltac:(lia) H) as (_ & _ & Hb & _). lia.
Qed.

Lemma round_mono_aligned (m1 m2 c n1 f1 n2 f2 : Z) :
  m1 <= m2 ->
  Float.round m1 c = Float.Finite n1 f1 ->
  Float.round m2 c = Float.Finite n2 f2 ->
  dle n1 f1 n2 f2.
Proof.
  intros Hle H1 H2.
  pose proof (round_sign m1 c n1 f1 H1) as [S1 S1'].
  pose proof (round_sign m2 c n2 f2 H2) as [S2 S2'].
  destruct (Z_lt_le_dec m1 0) as [Hn1|Hp1].
  - destruct (Z_lt_le_dec m2 0) as [Hn2|Hp2].
    + unfold Float.round in H1, H2.
      destruct (Z.eqb_spec m1 0); [lia|]. destruct (Z.eqb_spec m2 0); [lia|].
      destruct (Z.ltb_spec m1 0); [|lia]. destruct (Z.ltb_spec m2 0); [|lia].
      apply opp_finite in H1, H2.
      pose proof (round_pos_mono (- m2) (- m1) c (- n2) f2 (- n1) f1
                    ltac:(lia) ltac:(lia) H2 H1) as Hd.
      apply dle_opp in Hd. rewrite !Z.opp_involutive in Hd. exact Hd.
    + apply dle_signs; lia.
  - destruct (Z.eq_dec m1 0) as [->|Hne].
    + apply dle_signs; lia.
    + unfold Float.round in H1, H2.
      destruct (Z.eqb_spec m1 0); [lia|]. destruct (Z.eqb_spec m2 0); [lia|].
      destruct (Z.ltb_spec m1 0); [lia|]. destruct (Z.ltb_spec m2 0); [lia|].
      apply (round_pos_mono m1 m2 c); (assumption || lia).
Qed.

(** Rounding to binary64 is monotone. *)
Lemma round_mono (m1 e1 m2 e2 n1 f1 n2 f2 : Z) :
  dle m1 e1 m2 e2 ->
  Float.round m1 e1 = Float.Finite n1 f1 ->
  Float.round m2 e2 = Float.Finite n2 f2 ->
  dle n1 f1 n2 f2.
Proof.
  intros Hle H1 H2. set (c := Z.min e1 e2) in *.
  rewrite <- (round_scale m1 e1 (e1 - c)) in H1 by lia.
  rewrite <- (round_scale m2 e2 (e2 - c)) in H2 by lia.
  replace (e1 - (e1 - c)) with c in H1 by lia.
  replace (e2 - (e2 - c)) with c in H2 by lia.
  exact (round_mono_aligned _ _ c _ _ _ _ Hle H1 H2).
Qed.

Lemma round_to_int_scale (m e j : Z) :
  0 <= j ->
  Float.round_to_int (Float.Finite (m * 2 ^ j) (e - j)) =
  Float.round_to_int (Float.Finite m e).
Proof.
  intros Hj. simpl. f_equal.
  destruct (Z.leb_spec 0 e) as [H1|H1], (Z.leb_spec 0 (e - j)) as [H2|H2].
  - rewrite <- Z.mul_assoc, <- pow2_split by lia. f_equal. f_equal. lia.
  - replace (m * 2 ^ j) with (m * 2 ^ e * 2 ^ (- (e - j))).
    + apply rne_shift_exact. lia.
    + rewrite <- Z.mul_assoc, <- pow2_split by lia. f_equal. f_equal. lia.
  - lia.
  - replace (- (e - j)) with (- e + j) by lia. apply rne_shift_scale; lia.
Qed.

(** The builtin [round] is monotone. *)
Lemma round_to_int_mono (m1 e1 m2 e2 z1 z2 : Z) :
  dle m1 e1 m2 e2 ->
  Float.round_to_int (Float.Finite m1 e1) = inr z1 ->
  Float.round_to_int (Float.Finite m2 e2) = inr z2 ->
  z1 <= z2.
Proof.
  intros Hle H1 H2. set (c := Z.min e1 e2) in *.
  rewrite <- (round_to_int_scale m1 e1 (e1 - c)) in H1 by lia.
  rewrite <- (round_to_int_scale m2 e2 (e2 - c)) in H2 by lia.
  replace (e1 - (e1 - c)) with c in H1 by lia.
  replace (e2 - (e2 - c)) with c in H2 by lia.
  unfold dle in Hle. fold c in Hle.
  simpl in H1, H2. injection H1 as <-. injection H2 as <-.
  destruct (Z.leb_spec 0 c) as [Hc|Hc].
  - pose proof (pow2_pos c Hc). nia.
  - apply rne_shift_mono; lia.
Qed.

Lemma dle_mul (a1 p1 a2 p2 mw ew : Z) :
  dle a1 p1 a2 p2 -> 0 <= mw -> dle (a1 * mw) (p1 + ew) (a2 * mw) (p2 + ew).
Proof.
  intros H Hw. unfold dle in *.
  replace (Z.min (p1 + ew) (p2 + ew)) with (Z.min p1 p2 + ew) by lia.
  replace (p1 + ew - (Z.min p1 p2 + ew)) with (p1 - Z.min p1 p2) by lia.
  replace (p2 + ew - (Z.min p1 p2 + ew)) with (p2 - Z.min p1 p2) by lia.
  nia.
Qed.

Lemma dle_add (c1 q1 c2 q2 b pb : Z) :
  dle c1 q1 c2 q2 ->
  dle (c1 * 2 ^ (q1 - Z.min q1 pb) + b * 2 ^ (pb - Z.min q1 pb)) (Z.min q1 pb)
      (c2 * 2 ^ (q2 - Z.min q2 pb) + b * 2 ^ (pb - Z.min q2 pb)) (Z.min q2 pb).
Proof.
  intros H. set (E := Z.min (Z.min q1 pb) (Z.min q2 pb)).
  apply (dle_scaled _ _ _ _ E); [unfold E; lia|unfold E; lia|].
  apply (dle_scaled _ _ _ _ E) in H; [|unfold E; lia|unfold E; lia].
  rewrite !Z.mul_add_distr_r, <- !Z.mul_assoc, <- !pow2_split
    by (unfold E; lia).
  replace (q1 - Z.min q1 pb + (Z.min q1 pb - E)) with (q1 - E) by lia.
  replace (q2 - Z.min q2 pb + (Z.min q2 pb - E)) with (q2 - E) by lia.
  replace (pb - Z.min q1 pb + (Z.min q1 pb - E)) with (pb - E) by lia.
  replace (pb - Z.min q2 pb + (Z.min q2 pb - E)) with (pb - E) by lia.
  lia.
Qed.

Lemma of_int_inr (z : Z) (x : Float.t) :
  Float.of_int z = inr x ->
  exists m e, x = Float.Finite m e /\ Float.round z 0 = Float.Finite m e.
Proof.
  unfold Float.of_int. destruct (Float.round z 0) as [m e|s|]; intros H;
    try discriminate; injection H as <-; eauto.
Qed.

Lemma round_to_int_inr (x : Float.t) (z : Z) :
  Float.round_to_int x = inr z -> exists m e, x = Float.Finite m e.
Proof. destruct x; intros H; try discriminate; eauto. Qed.

(** The day offset is monotone in the raw Fibonacci term when the weight is
    not negative. *)
Lemma actualPred_mono (r1 r2 : Z) (w : Float.t) (b d1 d2 : Z) :
  r1 <= r2 -> Float.nonneg w = true ->
  Predictor.actualPred r1 w b = inr d1 ->
  Predictor.actualPred r2 w b = inr d2 ->
  d1 <= d2.
Proof.
  intros Hr Hw H1 H2. unfold Predictor.actualPred, Py.rbind in *.
  destruct (Float.of_int r1) as [|x1] eqn:R1; [discriminate|].
  destruct (Float.of_int r2) as [|x2] eqn:R2; [discriminate|].
  destruct (Float.of_int b) as [|xb] eqn:Rb; [discriminate|].
  apply of_int_inr in R1, R2, Rb.
  destruct R1 as (a1 & p1 & -> & R1). destruct R2 as (a2 & p2 & -> & R2).
  destruct Rb as (bb & pb & -> & Rb).
  assert (Ha : dle a1 p1 a2 p2).
  { apply (round_mono r1 0 r2 0); try assumption. apply dle_same_exp. exact Hr. }
  destruct (round_to_int_inr _ _ H1) as (y1 & g1 & A1).
  destruct (round_to_int_inr _ _ H2) as (y2 & g2 & A2).
  rewrite A1 in H1. rewrite A2 in H2.
  destruct w as [mw ew|s|]; simpl in Hw.
  - apply Z.leb_le in Hw. simpl Float.mul in A1, A2.
    destruct (Float.round (a1 * mw) (p1 + ew)) as [c1 q1| |] eqn:M1;
      try discriminate.
    destruct (Float.round (a2 * mw) (p2 + ew)) as [c2 q2| |] eqn:M2;
      try discriminate.
    assert (Hc : dle c1 q1 c2 q2).
    { apply (round_mono _ _ _ _ _ _ _ _ (dle_mul _ _ _ _ mw ew Ha Hw) M1 M2). }
    simpl Float.add in A1, A2.
    apply (round_to_int_mono y1 g1 y2 g2); try assumption.
    apply (round_mono _ _ _ _ _ _ _ _ (dle_add _ _ _ _ bb pb Hc) A1 A2).
  - simpl in A1. destruct (a1 =? 0); simpl in A1; discriminate.
  - discriminate.
Qed.

(** ** Completion of a topic *)

Lemma set_set_same {K V : Type} (eqb : K -> K -> bool)
    (d : PyDict.t (K := K) (V := V)) (k : K) (v v' : V) :
  eqb k k = true ->
  PyDict.set eqb (PyDict.set eqb d k v) k v' = PyDict.set eqb d k v'.
Proof.
  intros Hrefl. induction d as [|[k0 v0] d IH]; simpl.
  - rewrite Hrefl. reflexivity.
  - destruct (eqb k0 k) eqn:E; simpl; rewrite E; [reflexivity|].
    rewrite IH. reflexivity.
Qed.

Lemma wf_lookup_uid (self : Database.t) (uid : UID.t) (record : Record.t) :
  Database.wf self = true ->
  PyDict.lookup UID.eqb (Database.recordDict self) uid = Some record ->
  Record.uid record = uid.
Proof.
  unfold Database.wf. intros H Hl. apply andb_prop in H. destruct H as [Hu Hk].
  apply (lookup_In UID.eqb UID_eqb_eq _ _ _ Hu) in Hl.
  rewrite forallb_forall in Hk. specialize (Hk _ Hl). simpl in Hk.
  apply UID_eqb_eq in Hk. symmetry. exact Hk.
Qed.

Lemma completeTopic_spec (db : Database.t) (uid : UID.t) (t : Topic.t) :
  Database.wf db = true ->
  PyDict.lookup UID.eqb (Database.recordDict db) uid = Some (Record.OfTopic t) ->
  cli.completeTopic uid db =
  (inr tt,
   {| Database.recordDict :=
        PyDict.set UID.eqb (Database.recordDict db) uid
          (Record.OfTopic (Topic.add_fibNumber t 1)) |}).
Proof.
  intros Hwf Hl. pose proof (wf_lookup_uid db uid _ Hwf Hl) as Hu. simpl in Hu.
  unfold cli.completeTopic, Py.bind. rewrite get_spec, Hl.
  cbv zeta. unfold Database.store at 1. unfold Py.modify.
  rewrite update_spec. unfold Database.has_key.
  cbn [Database.recordDict Record.uid Topic.add_fibNumber Topic.uid].
  rewrite Hu. unfold PyDict.contains.
  rewrite (lookup_set_eq UID.eqb UID_eqb_eq).
  rewrite set_set_same by (apply UID_eqb_eq; reflexivity). reflexivity.
Qed.

Lemma offsetDays_mono (w : Float.t) (b n1 n2 : Z) (f1 f2 : FibNumbers.t)
    (d1 d2 : Z) :
  FibNumbers.reachable f1 -> FibNumbers.reachable f2 ->
  1 <= n1 <= n2 -> Float.nonneg w = true ->
  fst (Predictor.offsetDays n1 w b f1) = inr d1 ->
  fst (Predictor.offsetDays n2 w b f2) = inr d2 ->
  d1 <= d2.
Proof.
  intros Hr1 Hr2 Hn Hw H1 H2.
  unfold Predictor.offsetDays, Py.bind, Py.lift in H1, H2.
  destruct (getNthFibNumber_ok f1 n1 (reachable_memo_ok f1 Hr1) ltac:(lia))
    as (f1' & E1 & _).
  destruct (getNthFibNumber_ok f2 n2 (reachable_memo_ok f2 Hr2) ltac:(lia))
    as (f2' & E2 & _).
  rewrite E1 in H1. rewrite E2 in H2. simpl in H1, H2.
  apply (actualPred_mono (fib_at (Z.to_nat (n1 - 1))) (fib_at (Z.to_nat (n2 - 1)))
           w b d1 d2); try assumption.
  apply fib_at_mono. lia.
Qed.

(** C7 (as the code behaves).  Completing a topic stores it with its
    [fibNumber] increased by exactly 1, all else unchanged; and for a
    subject whose weight is not negative the day offset that [predict]
    computes does not decrease when the [fibNumber] (at least 1) increases,
    weight and bias being fixed, whenever both offsets are computed. *)
Theorem completion_effect (db : Database.t) (uid : UID.t) (t : Topic.t)
    (w : Float.t) (b n1 n2 : Z) (f1 f2 : FibNumbers.t) (d1 d2 : Z) :
  Database.wf db = true ->
  PyDict.lookup UID.eqb (Database.recordDict db) uid = Some (Record.OfTopic t) ->
  FibNumbers.reachable f1 -> FibNumbers.reachable f2 ->
  1 <= n1 <= n2 -> Float.nonneg w = true ->
  fst (Predictor.offsetDays n1 w b f1) = inr d1 ->
  fst (Predictor.offsetDays n2 w b f2) = inr d2 ->
  (exists db',
     cli.completeTopic uid db = (inr tt, db') /\
     PyDict.lookup UID.eqb (Database.recordDict db') uid =
       Some (Record.OfTopic
               {| Topic.uid := Topic.uid t; Topic.name := Topic.name t;
                  Topic.subjectUID := Topic.subjectUID t;
                  Topic.active := Topic.active t;
                  Topic.lastStudy := Topic.lastStudy t;
                  Topic.fibNumber := Topic.fibNumber t + 1 |}) /\
     (forall uid', uid' <> uid ->
        PyDict.lookup UID.eqb (Database.recordDict db') uid' =
        PyDict.lookup UID.eqb (Database.recordDict db) uid')) /\
  d1 <= d2.
Proof.
  intros Hwf Hl Hr1 Hr2 Hn Hw H1 H2. split.
  - eexists. split; [apply completeTopic_spec; eassumption|]. split.
    + simpl. apply (lookup_set_eq UID.eqb UID_eqb_eq).
    + intros uid' Hne. simpl.
      apply (lookup_set_ne UID.eqb UID_eqb_eq). congruence.
  - exact (offsetDays_mono w b n1 n2 f1 f2 d1 d2 Hr1 Hr2 Hn Hw H1 H2).
Qed.

Lemma completion_effect_witness :
  (exists db',
     cli.completeTopic (UID.init "t1") Sample.db = (inr tt, db') /\
     PyDict.lookup UID.eqb (Database.recordDict db') (UID.init "t1") =
       Some (Record.OfTopic
               {| Topic.uid := Topic.uid Sample.sets;
                  Topic.name := Topic.name Sample.sets;
                  Topic.subjectUID := Topic.subjectUID Sample.sets;
                  Topic.active := Topic.active Sample.sets;
                  Topic.lastStudy := Topic.lastStudy Sample.sets;
                  Topic.fibNumber := Topic.fibNumber Sample.sets + 1 |}) /\
     (forall uid', uid' <> UID.init "t1" ->
        PyDict.lookup UID.eqb (Database.recordDict db') uid' =
        PyDict.lookup UID.eqb (Database.recordDict Sample.db) uid')) /\
  2 <= 5.
Proof.
  apply (completion_effect Sample.db (UID.init "t1") Sample.sets
           (Float.round 5 (-1)) 0 2 3 FibNumbers.init FibNumbers.init 2 5).
  - reflexivity.
  - reflexivity.
  - apply FibNumbers.reachable_init.
  - apply FibNumbers.reachable_init.
  - lia.
  - reflexivity.
  - reflexivity.
  - reflexivity.
Defined.

(** C7 as stated fails: for a subject of weight -1.0 and bias 0 the offset
    of [fibNumber] 2 is -1 day and that of [fibNumber] 3 is -2 days. *)
Lemma offset_decreases_for_negative_weight :
  fst (Predictor.offsetDays 2 Sample.backwards 0 FibNumbers.init) = inr (-1) /\
  fst (Predictor.offsetDays 3 Sample.backwards 0 FibNumbers.init) = inr (-2) /\
  ~ (-1 <= -2).
Proof. split; [|split]; [reflexivity|reflexivity|lia]. Qed.

(** ** Text of a [datetime]: [fromisoformat] undoes [isoformat] *)

Lemma digit_is_digit (k : Z) : 0 <= k <= 9 -> datetime.is_digit (datetime.digit k) k.
Proof.
  intros Hk.
  assert (H : k = 0 \/ k = 1 \/ k = 2 \/ k = 3 \/ k = 4 \/
              k = 5 \/ k = 6 \/ k = 7 \/ k = 8 \/ k = 9) by lia.
  repeat (destruct H as [->|H]; [repeat split|]); subst; repeat split.
Qed.

Lemma fmt2_digits (n : Z) :
  0 <= n <= 99 ->
  exists c1 c2 a b,
    datetime.fmt 2 n = String c1 (String c2 EmptyString) /\
    datetime.is_digit c1 a /\ datetime.is_digit c2 b /\ n = 10 * a + b.
Proof.
  intros Hn.
  exists (datetime.digit (n / 10 mod 10)), (datetime.digit (n / 1 mod 10)),
    (n / 10 mod 10), (n / 1 mod 10).
  rewrite Z.div_1_r.
  pose proof (Z.div_mod n 10 ltac:(lia)) as E.
  pose proof (Z.mod_pos_bound n 10 ltac:(lia)) as B.
  assert (Hq : 0 <= n / 10 <= 9).
  { split; [apply Z.div_pos; lia|].
    assert (n / 10 < 10) by (apply Z.div_lt_upper_bound; lia). lia. }
  rewrite (Z.mod_small (n / 10) 10) by lia.
  split; [|split; [|split]].
  - cbn [datetime.fmt]. change (10 ^ Z.of_nat 1) with 10.
    change (10 ^ Z.of_nat 0) with 1. rewrite Z.div_1_r.
    rewrite (Z.mod_small (n / 10) 10) by lia. reflexivity.
  - apply digit_is_digit. lia.
  - apply digit_is_digit. lia.
  - lia.
Qed.

Lemma digit_step (n p : Z) :
  0 <= n -> 0 < p ->
  n / p = 10 * (n / (p * 10)) + n / p mod 10 /\ 0 <= n / p mod 10 <= 9.
Proof.
  intros Hn Hp.
  rewrite <- Z.div_div by lia.
  pose proof (Z.div_mod (n / p) 10 ltac:(lia)).
  pose proof (Z.mod_pos_bound (n / p) 10 ltac:(lia)). lia.
Qed.

Lemma fmt4_digits (n : Z) :
  0 <= n <= 9999 ->
  exists c1 c2 c3 c4 a b c d,
    datetime.fmt 4 n =
      String c1 (String c2 (String c3 (String c4 EmptyString))) /\
    datetime.is_digit c1 a /\ datetime.is_digit c2 b /\
    datetime.is_digit c3 c /\ datetime.is_digit c4 d /\
    n = 1000 * a + 100 * b + 10 * c + d.
Proof.
  intros Hn.
  exists (datetime.digit (n / 1000 mod 10)), (datetime.digit (n / 100 mod 10)),
    (datetime.digit (n / 10 mod 10)), (datetime.digit (n / 1 mod 10)),
    (n / 1000 mod 10), (n / 100 mod 10), (n / 10 mod 10), (n / 1 mod 10).
  destruct (digit_step n 1 ltac:(lia) ltac:(lia)) as [E0 B0].
  destruct (digit_step n 10 ltac:(lia) ltac:(lia)) as [E1 B1].
  destruct (digit_step n 100 ltac:(lia) ltac:(lia)) as [E2 B2].
  destruct (digit_step n 1000 ltac:(lia) ltac:(lia)) as [E3 B3].
  simpl (_ * 10) in *.
  assert (H4 : n / 10000 = 0) by (apply Z.div_small; lia).
  pose proof (Z.div_1_r n) as D1.
  repeat split; try reflexivity; try (apply digit_is_digit; lia); try lia.
Qed.

Lemma fmt6_digits (n : Z) :
  0 <= n <= 999999 ->
  exists c1 c2 c3 c4 c5 c6 a b c d e f,
    datetime.fmt 6 n =
      String c1 (String c2 (String c3 (String c4 (String c5 (String c6
        EmptyString))))) /\
    datetime.is_digit c1 a /\ datetime.is_digit c2 b /\
    datetime.is_digit c3 c /\ datetime.is_digit c4 d /\
    datetime.is_digit c5 e /\ datetime.is_digit c6 f /\
    n = 100000 * a + 10000 * b + 1000 * c + 100 * d + 10 * e + f.
Proof.
  intros Hn.
  exists (datetime.digit (n / 100000 mod 10)),
    (datetime.digit (n / 10000 mod 10)), (datetime.digit (n / 1000 mod 10)),
    (datetime.digit (n / 100 mod 10)), (datetime.digit (n / 10 mod 10)),
    (datetime.digit (n / 1 mod 10)),
    (n / 100000 mod 10), (n / 10000 mod 10), (n / 1000 mod 10),
    (n / 100 mod 10), (n / 10 mod 10), (n / 1 mod 10).
  destruct (digit_step n 1 ltac:(lia) ltac:(lia)) as [E0 B0].
  destruct (digit_step n 10 ltac:(lia) ltac:(lia)) as [E1 B1].
  destruct (digit_step n 100 ltac:(lia) ltac:(lia)) as [E2 B2].
  destruct (digit_step n 1000 ltac:(lia) ltac:(lia)) as [E3 B3].
  destruct (digit_step n 10000 ltac:(lia) ltac:(lia)) as [E4 B4].
  destruct (digit_step n 100000 ltac:(lia) ltac:(lia)) as [E5 B5].
  simpl (_ * 10) in *.
  assert (H6 : n / 1000000 = 0) by (apply Z.div_small; lia).
  pose proof (Z.div_1_r n) as D1.
  repeat split; try reflexivity; try (apply digit_is_digit; lia); try lia.
Qed.

Arguments datetime.digit_val : simpl never.

Ltac use_digits :=
  repeat match goal with
  | H : datetime.is_digit ?c _ |- context [datetime.digit_val ?c] =>
      rewrite (proj1 H)
  | H : datetime.is_digit ?c _ |- context [Ascii.eqb ?c "-"] =>
      rewrite (proj1 (proj2 H))
  | H : datetime.is_digit ?c _ |- context [Ascii.eqb ?c "+"] =>
      rewrite (proj2 (proj2 H))
  end.

Ltac iso_eval :=
  repeat (progress
            (cbn -[Z.mul Z.add Z.opp Z.eqb Z.leb Z.ltb datetime.valid];
             use_digits)).

Ltac digits2 n :=
  let c1 := fresh "c" in let c2 := fresh "c" in
  let a := fresh "a" in let b := fresh "b" in
  let E := fresh "E" in let D1 := fresh "D" in let D2 := fresh "D" in
  let V := fresh "V" in
  destruct (fmt2_digits n ltac:(lia)) as (c1 & c2 & a & b & E & D1 & D2 & V);
  rewrite E; clear E.

Ltac digits6 n :=
  let E := fresh "E" in
  destruct (fmt6_digits n ltac:(lia))
    as (? & ? & ? & ? & ? & ? & ? & ? & ? & ? & ? & ? &
        E & ? & ? & ? & ? & ? & ? & ?);
  rewrite E; clear E.

Lemma valid_ranges (d : datetime.t) :
  datetime.valid d = true ->
  1 <= datetime.year d <= 9999 /\ 1 <= datetime.month d <= 12 /\
  1 <= datetime.day d <= 31 /\ 0 <= datetime.hour d <= 23 /\
  0 <= datetime.minute d <= 59 /\ 0 <= datetime.second d <= 59 /\
  0 <= datetime.microsecond d <= 999999 /\
  match datetime.tzinfo d with
  | None => True
  | Some off => -86400000000 < off < 86400000000
  end.
Proof.
  unfold datetime.valid. intros H.
  repeat (apply andb_prop in H; destruct H as [H ?]).
  repeat match goal with
         | H : (_ <=? _) = true |- _ => apply Z.leb_le in H
         end.
  assert (Hdim : datetime._days_in_month (datetime.year d) (datetime.month d) <= 31).
  { unfold datetime._days_in_month.
    destruct ((datetime.month d =? 2) && datetime._is_leap (datetime.year d));
      [lia|].
    assert (Hm : datetime.month d = 1 \/ datetime.month d = 2 \/ datetime.month d = 3 \/
            datetime.month d = 4 \/ datetime.month d = 5 \/ datetime.month d = 6 \/
            datetime.month d = 7 \/ datetime.month d = 8 \/ datetime.month d = 9 \/
            datetime.month d = 10 \/ datetime.month d = 11 \/ datetime.month d = 12) by lia.
    repeat (destruct Hm as [->|Hm]; [simpl; lia|]). rewrite Hm. simpl. lia. }
  repeat split; try lia.
  destruct (datetime.tzinfo d); [|exact I].
  match goal with
  | H : (_ && _) = true |- _ => apply andb_prop in H; destruct H as [A B];
      apply Z.ltb_lt in A; apply Z.ltb_lt in B; lia
  end.
Qed.


Lemma parse_date y1 y2 y3 y4 m1 m2 d1 d2 ya yb yc yd ma mb da db :
  datetime.is_digit y1 ya -> datetime.is_digit y2 yb ->
  datetime.is_digit y3 yc -> datetime.is_digit y4 yd ->
  datetime.is_digit m1 ma -> datetime.is_digit m2 mb ->
  datetime.is_digit d1 da -> datetime.is_digit d2 db ->
  datetime._parse_isoformat_date
    (String y1 (String y2 (String y3 (String y4 (String "-"
       (String m1 (String m2 (String "-" (String d1 (String d2 "")))))))))) =
  inr (1000 * ya + 100 * yb + 10 * yc + yd, 10 * ma + mb, 10 * da + db).
Proof.
  intros. unfold datetime._parse_isoformat_date. iso_eval.
  repeat (f_equal; try lia).
Qed.

Lemma parse_hms5 c1 c2 c3 c4 a1 a2 a3 a4 :
  datetime.is_digit c1 a1 -> datetime.is_digit c2 a2 ->
  datetime.is_digit c3 a3 -> datetime.is_digit c4 a4 ->
  datetime._parse_hh_mm_ss_ff
    (String c1 (String c2 (String ":" (String c3 (String c4 ""))))) =
  inr (10 * a1 + a2, 10 * a3 + a4, 0, 0).
Proof.
  intros. unfold datetime._parse_hh_mm_ss_ff. iso_eval.
  repeat (f_equal; try lia).
Qed.

Lemma parse_hms8 c1 c2 c3 c4 c5 c6 a1 a2 a3 a4 a5 a6 :
  datetime.is_digit c1 a1 -> datetime.is_digit c2 a2 ->
  datetime.is_digit c3 a3 -> datetime.is_digit c4 a4 ->
  datetime.is_digit c5 a5 -> datetime.is_digit c6 a6 ->
  datetime._parse_hh_mm_ss_ff
    (String c1 (String c2 (String ":" (String c3 (String c4 (String ":"
       (String c5 (String c6 "")))))))) =
  inr (10 * a1 + a2, 10 * a3 + a4, 10 * a5 + a6, 0).
Proof.
  intros. unfold datetime._parse_hh_mm_ss_ff. iso_eval.
  repeat (f_equal; try lia).
Qed.

Lemma parse_hms15 c1 c2 c3 c4 c5 c6 u1 u2 u3 u4 u5 u6
    a1 a2 a3 a4 a5 a6 b1 b2 b3 b4 b5 b6 :
  datetime.is_digit c1 a1 -> datetime.is_digit c2 a2 ->
  datetime.is_digit c3 a3 -> datetime.is_digit c4 a4 ->
  datetime.is_digit c5 a5 -> datetime.is_digit c6 a6 ->
  datetime.is_digit u1 b1 -> datetime.is_digit u2 b2 ->
  datetime.is_digit u3 b3 -> datetime.is_digit u4 b4 ->
  datetime.is_digit u5 b5 -> datetime.is_digit u6 b6 ->
  datetime._parse_hh_mm_ss_ff
    (String c1 (String c2 (String ":" (String c3 (String c4 (String ":"
       (String c5 (String c6 (String "."
          (String u1 (String u2 (String u3 (String u4 (String u5 (String u6
             ""))))))))))))))) =
  inr (10 * a1 + a2, 10 * a3 + a4, 10 * a5 + a6,
       100000 * b1 + 10000 * b2 + 1000 * b3 + 100 * b4 + 10 * b5 + b6).
Proof.
  intros. unfold datetime._parse_hh_mm_ss_ff. iso_eval.
  repeat (f_equal; try lia).
Qed.

Ltac iso_parse :=
  repeat (iso_eval;
          try (erewrite parse_date by eassumption);
          try (erewrite parse_hms15 by eassumption);
          try (erewrite parse_hms8 by eassumption);
          try (erewrite parse_hms5 by eassumption));
  iso_eval.

Ltac iso_close Hv :=
  match goal with
  | |- (if datetime.valid ?r then _ else _) = inr ?d =>
      replace r with d; [rewrite Hv; reflexivity|repeat (f_equal; try lia)]
  end.

Ltac tz_close Hv :=
  match goal with
  | |- context [if ?c then inr (_, datetime.utc) else _] =>
      let Ez := fresh "Ez" in
      destruct c eqn:Ez;
      [repeat (apply andb_prop in Ez; let Ez' := fresh "Ez" in
               destruct Ez as [Ez Ez']);
       repeat match goal with
              | H : (_ =? _) = true |- _ => apply Z.eqb_eq in H
              end|]
  end;
  cbn -[Z.mul Z.add Z.opp Z.eqb Z.leb Z.ltb datetime.valid];
  unfold datetime.utc; iso_close Hv.

Lemma fromisoformat_isoformat (d : datetime.t) :
  datetime.valid d = true ->
  datetime.fromisoformat (datetime.isoformat d) = inr d.
Proof.
  intros Hv.
  pose proof (valid_ranges d Hv) as (Hy & Hmo & Hd & Hh & Hmi & Hs & Hus & Htz).
  destruct d as [y mo dd h mi s us tz]. simpl in Hy, Hmo, Hd, Hh, Hmi, Hs, Hus, Htz.
  unfold datetime.isoformat, datetime._format_time.
  cbn [datetime.year datetime.month datetime.day datetime.hour datetime.minute
       datetime.second datetime.microsecond datetime.tzinfo].
  destruct (fmt4_digits y ltac:(lia))
    as (y1 & y2 & y3 & y4 & ya & yb & yc & yd & Ey & Y1 & Y2 & Y3 & Y4 & Vy).
  rewrite Ey; clear Ey.
  digits2 mo. digits2 dd. digits2 h. digits2 mi. digits2 s.
  destruct tz as [off|].
  2:{ unfold datetime._format_offset.
      destruct (Z.eqb_spec us 0) as [Hus0|Hus0]; [|digits6 us];
        unfold datetime.fromisoformat; iso_parse; iso_close Hv. }
  unfold datetime._format_offset.
  assert (Ha : 0 <= Z.abs off < 86400000000) by lia.
  remember (Z.abs off) as ab eqn:Hab.
  pose proof (Z.div_mod ab 3600000000 ltac:(lia)) as E1.
  pose proof (Z.mod_pos_bound ab 3600000000 ltac:(lia)) as B1.
  assert (Hhh : 0 <= ab / 3600000000 <= 23).
  { split; [apply Z.div_pos; lia|].
    assert (ab / 3600000000 < 24) by (apply Z.div_lt_upper_bound; lia). lia. }
  remember (ab / 3600000000) as zh eqn:Hzh.
  remember (ab mod 3600000000) as r eqn:Hr.
  pose proof (Z.div_mod r 60000000 ltac:(lia)) as E2.
  pose proof (Z.mod_pos_bound r 60000000 ltac:(lia)) as B2.
  assert (Hmm : 0 <= r / 60000000 <= 59).
  { split; [apply Z.div_pos; lia|].
    assert (r / 60000000 < 60) by (apply Z.div_lt_upper_bound; lia). lia. }
  remember (r / 60000000) as zm eqn:Hzm.
  remember (r mod 60000000) as ss eqn:Hss.
  pose proof (Z.div_mod ss 1000000 ltac:(lia)) as E3.
  pose proof (Z.mod_pos_bound ss 1000000 ltac:(lia)) as B3.
  assert (Hsec : 0 <= ss / 1000000 <= 59).
  { split; [apply Z.div_pos; lia|].
    assert (ss / 1000000 < 60) by (apply Z.div_lt_upper_bound; lia). lia. }
  remember (ss / 1000000) as zs eqn:Hzs.
  remember (ss mod 1000000) as zu eqn:Hzu.
  clear Hzh Hr Hzm Hss Hzs Hzu.
  digits2 zh. digits2 zm.
  destruct (Z.ltb_spec off 0) as [Hneg|Hpos];
  (destruct (Z.eqb_spec us 0) as [Hus0|Hus0]; [|digits6 us]);
  (destruct (Z.eqb_spec ss 0) as [Hss0|Hss0];
   [|digits2 zs; (destruct (Z.eqb_spec zu 0) as [Hzu0|Hzu0]; [|digits6 zu])]);
  unfold datetime.fromisoformat; iso_parse; tz_close Hv.
Qed.

(** ** Records and JSON *)

Lemma Subject_round_trip (x : Subject.t) :
  Subject.fromJSON (Subject.toJSON x) = inr x.
Proof. destruct x as [[u] n a w b]. reflexivity. Qed.

Lemma Topic_round_trip (m : db_module) (x : Topic.t) :
  datetime.valid (Topic.lastStudy x) = true ->
  Topic.fromJSON m (Topic.toJSON x) = inr x.
Proof.
  intros Hv. destruct x as [[u] n [s] a l f]. simpl in Hv.
  unfold Topic.fromJSON, Topic.toJSON. cbn -[datetime.fromisoformat datetime.isoformat].
  rewrite (fromisoformat_isoformat l Hv). reflexivity.
Qed.

(** C5.  [Subject.fromJSON (x.toJSON())] is [x] field for field, for every
    subject [x]; and [Topic.fromJSON (x.toJSON())] is [x] field for field,
    for every topic [x], [lastStudy] included down to its microsecond and
    its UTC offset ([lastStudy] being a [datetime] object, which means that
    its fields are in range). *)
Theorem json_round_trip (m : db_module) (s : Subject.t) (t : Topic.t) :
  datetime.valid (Topic.lastStudy t) = true ->
  Subject.fromJSON (Subject.toJSON s) = inr s /\
  Topic.fromJSON m (Topic.toJSON t) = inr t.
Proof.
  intros Hv. split; [apply Subject_round_trip|apply Topic_round_trip; exact Hv].
Qed.

Lemma json_round_trip_witness :
  Subject.fromJSON (Subject.toJSON Sample.maths) = inr Sample.maths /\
  Topic.fromJSON Sample.db_mod (Topic.toJSON Sample.sets) = inr Sample.sets.
Proof.
  apply (json_round_trip Sample.db_mod Sample.maths Sample.sets).
  reflexivity.
Defined.

Example isoformat_sample :
  datetime.isoformat (datetime.mk 2026 11 3 22 59 7 123456 datetime.utc) =
    "2026-11-03T22:59:07.123456+00:00" /\
  datetime.isoformat
    (datetime.mk 1 1 1 23 59 59 5 (Some (- 19807000012))) =
    "0001-01-01T23:59:59.000005-05:30:07.000012".
Proof. split; reflexivity. Qed.

(** ** The default of [dTime] *)

(** Whatever the time at which a topic is constructed, a topic constructed
    without [dTime] has the clock reading taken when the module was imported
    as its [lastStudy]. *)
Lemma Topic_default_lastStudy (now_at_import : datetime.t) uid name subjectUID
    active fibNumber :
  Topic.lastStudy
    (Topic.init (import_db now_at_import) uid name subjectUID active fibNumber None)
  = now_at_import.
Proof. reflexivity. Qed.

(** C2 fails on the code: with the module imported at the first reading of
    the clock and a topic created by [createTopic] five readings (five
    seconds) later, the topic's [lastStudy] is the time of the import, not
    the time of its creation. *)
Theorem createTopic_lastStudy_is_import_time :
  let m := import_db (Sample.now 0) in
  let creation_time := Sample.now 5 in
  exists db,
    cli.createTopic m (UID.init "t1") "sets" "maths"
      (Database.init [Record.OfSubject Sample.maths]) = (inr tt, db) /\
    exists t,
      PyDict.lookup UID.eqb (Database.recordDict db) (UID.init "t1") =
        Some (Record.OfTopic t) /\
      Topic.lastStudy t = Sample.now 0 /\
      Topic.lastStudy t <> creation_time.
Proof.
  eexists. split; [reflexivity|].
  eexists. split; [reflexivity|]. split; [reflexivity|discriminate].
Qed.

(** ** The float model against the standard library's IEEE 754 specification *)

Example round_agrees_with_SpecFloat :
  forallb
    (fun me => Float.same (Float.of_spec (Float.spec_of_dyadic me))
                          (Float.of_dyadic me))
    Float.test_values = true.
Proof. vm_compute. reflexivity. Qed.

Example mul_agrees_with_SpecFloat :
  forallb
    (fun ab =>
       Float.same
         (Float.of_spec
            (SpecFloat.SFmul 53 1024 (Float.spec_of_dyadic (fst ab))
               (Float.spec_of_dyadic (snd ab))))
         (Float.mul (Float.of_dyadic (fst ab)) (Float.of_dyadic (snd ab))))
    (list_prod Float.test_values Float.test_values) = true.
Proof. vm_compute. reflexivity. Qed.

Example add_agrees_with_SpecFloat :
  forallb
    (fun ab =>
       Float.same
         (Float.of_spec
            (SpecFloat.SFadd 53 1024 (Float.spec_of_dyadic (fst ab))
               (Float.spec_of_dyadic (snd ab))))
         (Float.add (Float.of_dyadic (fst ab)) (Float.of_dyadic (snd ab))))
    (list_prod Float.test_values Float.test_values) = true.
Proof. vm_compute. reflexivity. Qed.

Example round_half_to_even :
  map Float.round_to_int
    [Float.round 1 (-1); Float.round 3 (-1); Float.round 5 (-1);
     Float.round 7 (-1); Float.round (-5) (-1); Float.round 25 (-1)]
  = [inr 0; inr 2; inr 2; inr 4; inr (-2); inr 12].
Proof. reflexivity. Qed.

(** The second scenario of the specification: weight 1.0, bias 5,
    [fibNumber] 5 give an offset of [round(5 * 1.0 + 5) = 10] days. *)
Example offsetDays_scenario_2 :
  fst (Predictor.offsetDays 5 (Float.round 1 0) 5 FibNumbers.init) = inr 10.
Proof. reflexivity. Qed.

(* ================================================================== *)
(** * Further properties of the code *)

(** ** More on the Fibonacci engine *)

Lemma memo_ok_shape (self : FibNumbers.t) :
  memo_ok self ->
  FibNumbers.fibNumbers self =
    map fib_at (seq 0 (List.length (FibNumbers.fibNumbers self))).
Proof. intros [_ H]. exact H. Qed.

(** X1.  In every reachable state, a call of [getNthFibNumber] only appends
    to the memo (what was there stays, in place); for [n >= 1] the memo then
    has [max (len, n)] terms; the same call made again returns the same
    outcome and leaves the memo untouched; and no call changes the value
    that a later call returns for any index. *)
Theorem getNthFibNumber_only_appends (self : FibNumbers.t) (n : Z) :
  FibNumbers.reachable self ->
  (exists ext,
     FibNumbers.fibNumbers (snd (FibNumbers.getNthFibNumber n self)) =
     FibNumbers.fibNumbers self ++ ext) /\
  (1 <= n ->
   List.length (FibNumbers.fibNumbers (snd (FibNumbers.getNthFibNumber n self))) =
   Nat.max (List.length (FibNumbers.fibNumbers self)) (Z.to_nat n)) /\
  FibNumbers.getNthFibNumber n (snd (FibNumbers.getNthFibNumber n self)) =
    FibNumbers.getNthFibNumber n self /\
  (forall k,
     fst (FibNumbers.getNthFibNumber k (snd (FibNumbers.getNthFibNumber n self))) =
     fst (FibNumbers.getNthFibNumber k self)).
Proof.
  intros Hr. pose proof (reachable_memo_ok self Hr) as Hok.
  destruct (Z_le_gt_dec n 0) as [Hn|Hn].
  - pose proof (getNthFibNumber_nonpos_state self n Hn) as Hs.
    rewrite Hs. split; [|split; [|split]].
    + exists []. rewrite app_nil_r. reflexivity.
    + lia.
    + destruct (FibNumbers.getNthFibNumber n self) as [r s'] eqn:E.
      simpl in Hs. subst s'. reflexivity.
    + reflexivity.
  - destruct (getNthFibNumber_ok self n Hok ltac:(lia)) as (s' & Hc & Hok' & Hlen).
    rewrite Hc. cbn [fst snd]. split; [|split; [|split]].
    + pose proof (memo_ok_shape self Hok) as Hs.
      rewrite (memo_ok_shape s' Hok'), Hlen.
      remember (List.length (FibNumbers.fibNumbers self)) as l eqn:Hl.
      clear Hl. rewrite Hs.
      exists (map fib_at (seq l (Nat.max l (Z.to_nat n) - l))).
      rewrite <- map_app. f_equal.
      replace (Nat.max l (Z.to_nat n)) with (l + (Nat.max l (Z.to_nat n) - l))%nat
        at 1 by lia.
      rewrite seq_app. reflexivity.
    + intros _. exact Hlen.
    + apply getNthFibNumber_memoized; [exact Hok'|].
      unfold Py.len. rewrite Hlen. lia.
    + intros k. destruct (Z_le_gt_dec k 0) as [Hk|Hk].
      * unfold FibNumbers.getNthFibNumber.
        destruct (k =? 0) eqn:E0; [reflexivity|].
        destruct (k <? 0) eqn:E1; [reflexivity|].
        apply Z.eqb_neq in E0. apply Z.ltb_ge in E1. lia.
      * rewrite (getNthFibNumber_value self k Hr) by lia.
        assert (Hr' : FibNumbers.reachable s').
        { replace s' with (snd (FibNumbers.getNthFibNumber n self))
            by (rewrite Hc; reflexivity).
          apply FibNumbers.reachable_call. exact Hr. }
        rewrite (getNthFibNumber_value s' k Hr') by lia. reflexivity.
Qed.

Lemma getNthFibNumber_only_appends_witness :
  (exists ext,
     FibNumbers.fibNumbers (snd (FibNumbers.getNthFibNumber 6 FibNumbers.init)) =
     FibNumbers.fibNumbers FibNumbers.init ++ ext) /\
  (1 <= 6 ->
   List.length
     (FibNumbers.fibNumbers (snd (FibNumbers.getNthFibNumber 6 FibNumbers.init))) =
   Nat.max (List.length (FibNumbers.fibNumbers FibNumbers.init)) (Z.to_nat 6)) /\
  FibNumbers.getNthFibNumber 6 (snd (FibNumbers.getNthFibNumber 6 FibNumbers.init)) =
    FibNumbers.getNthFibNumber 6 FibNumbers.init /\
  (forall k,
     fst (FibNumbers.getNthFibNumber k
            (snd (FibNumbers.getNthFibNumber 6 FibNumbers.init))) =
     fst (FibNumbers.getNthFibNumber k FibNumbers.init)).
Proof.
  apply (getNthFibNumber_only_appends FibNumbers.init 6).
  apply FibNumbers.reachable_init.
Defined.

Lemma fib_at_ge_pair (k : nat) :
  Z.of_nat k <= fib_at k /\ Z.of_nat k + 1 <= fib_at (S k).
Proof.
  induction k as [|k [IH1 IH2]].
  - split; vm_compute; discriminate.
  - split; [lia|]. rewrite fib_at_rec.
    pose proof (fib_at_pos k). lia.
Qed.

Lemma fib_at_ge (k : nat) : Z.of_nat k <= fib_at k.
Proof. apply fib_at_ge_pair. Qed.

Lemma getNthFibNumber_call (self : FibNumbers.t) (n : Z) :
  FibNumbers.reachable self -> 1 <= n ->
  exists self',
    FibNumbers.getNthFibNumber n self = (inr (fib_at (Z.to_nat (n - 1))), self')
    /\ FibNumbers.reachable self'.
Proof.
  intros Hr Hn.
  destruct (getNthFibNumber_ok self n (reachable_memo_ok self Hr) Hn)
    as (s' & Hc & _).
  exists s'. split; [exact Hc|].
  replace s' with (snd (FibNumbers.getNthFibNumber n self))
    by (rewrite Hc; reflexivity).
  apply FibNumbers.reachable_call. exact Hr.
Qed.

Lemma isXAFibNumber_loop_spec (fuel k : nat) (x : Z) (self : FibNumbers.t) :
  FibNumbers.reachable self ->
  (forall j, (j < k)%nat -> fib_at j < x) ->
  (Z.to_nat x + 2 <= fuel + k)%nat ->
  exists b self',
    FibNumbers.isXAFibNumber_loop fuel (Z.of_nat k + 1) x self =
      (inr (Some b), self') /\
    FibNumbers.reachable self' /\
    (b = true <-> exists j, fib_at j = x).
Proof.
  revert k self. induction fuel as [|fuel IH]; intros k self Hr Hinv Hfuel.
  - exfalso. destruct k as [|k]; [lia|].
    pose proof (Hinv k ltac:(lia)). pose proof (fib_at_ge k). lia.
  - cbn [FibNumbers.isXAFibNumber_loop]. unfold Py.bind at 1.
    destruct (getNthFibNumber_call self (Z.of_nat k + 1) Hr ltac:(lia))
      as (s1 & Hc1 & Hr1).
    rewrite Hc1. replace (Z.to_nat (Z.of_nat k + 1 - 1)) with k by lia.
    destruct (Z.eqb_spec (fib_at k) x) as [Heq|Hne].
    + exists true, s1. split; [reflexivity|]. split; [exact Hr1|].
      split; [intros _; exists k; exact Heq|reflexivity].
    + unfold Py.bind at 1.
      destruct (getNthFibNumber_call s1 (Z.of_nat k + 1) Hr1 ltac:(lia))
        as (s2 & Hc2 & Hr2).
      rewrite Hc2. replace (Z.to_nat (Z.of_nat k + 1 - 1)) with k by lia.
      destruct (Z.ltb_spec x (fib_at k)) as [Hlt|Hge].
      * exists false, s2. split; [reflexivity|]. split; [exact Hr2|].
        split; [discriminate|]. intros [j Hj]. exfalso.
        destruct (Nat.lt_ge_cases j k) as [Hjk|Hjk].
        -- pose proof (Hinv j Hjk). lia.
        -- pose proof (fib_at_mono k j Hjk). lia.
      * replace (Z.of_nat k + 1 + 1) with (Z.of_nat (S k) + 1) by lia.
        apply IH; [exact Hr2| |lia].
        intros j Hj. destruct (Nat.eq_dec j k) as [->|Hjk]; [lia|].
        apply Hinv. lia.
Qed.

(** X2.  In every reachable state and for every integer [x], the loop of
    [isXAFibNumber] returns after at most [max (x, 0) + 2] iterations, and it
    returns [True] exactly when [x] is a term of the sequence. *)
Theorem isXAFibNumber_correct (self : FibNumbers.t) (x : Z) (fuel : nat) :
  FibNumbers.reachable self ->
  (Z.to_nat x + 2 <= fuel)%nat ->
  exists b self',
    FibNumbers.isXAFibNumber fuel x self = (inr (Some b), self') /\
    FibNumbers.reachable self' /\
    (b = true <->
     exists n, 1 <= n /\ fst (FibNumbers.getNthFibNumber n self) = inr x).
Proof.
  intros Hr Hfuel.
  destruct (isXAFibNumber_loop_spec fuel 0 x self Hr)
    as (b & s' & Hc & Hr' & Hb); [intros j Hj; lia|lia|].
  exists b, s'. unfold FibNumbers.isXAFibNumber.
  change (Z.of_nat 0 + 1) with 1 in Hc. split; [exact Hc|]. split; [exact Hr'|].
  rewrite Hb. split.
  - intros [j Hj]. exists (Z.of_nat j + 1). split; [lia|].
    rewrite getNthFibNumber_value by (assumption || lia).
    replace (Z.to_nat (Z.of_nat j + 1 - 1)) with j by lia. rewrite Hj. reflexivity.
  - intros (n & Hn & Hv). rewrite getNthFibNumber_value in Hv by (assumption || lia).
    injection Hv as Hv. eauto.
Qed.

Lemma isXAFibNumber_correct_witness :
  exists b self',
    FibNumbers.isXAFibNumber 10 8 FibNumbers.init = (inr (Some b), self') /\
    FibNumbers.reachable self' /\
    (b = true <->
     exists n, 1 <= n /\ fst (FibNumbers.getNthFibNumber n FibNumbers.init) = inr 8).
Proof.
  apply (isXAFibNumber_correct FibNumbers.init 8 10).
  - apply FibNumbers.reachable_init.
  - simpl. lia.
Defined.

Example isXAFibNumber_samples :
  map (fun x => fst (FibNumbers.isXAFibNumber 20 x FibNumbers.init))
      [-3; 0; 1; 2; 4; 13; 14]
  = [inr (Some false); inr (Some false); inr (Some true); inr (Some true);
     inr (Some false); inr (Some true); inr (Some false)].
Proof. reflexivity. Qed.

Lemma fibGenerator_run_spec (numSeq : list Z) (self : FibNumbers.t) :
  FibNumbers.reachable self ->
  exists self',
    FibNumbers.reachable self' /\
    ((Forall (fun i => 1 <= i) numSeq /\
      FibNumbers.fibGenerator_run numSeq self =
        ((map (fun i => fib_at (Z.to_nat (i - 1))) numSeq, None), self'))
     \/
     (exists pre i post msg,
        numSeq = pre ++ i :: post /\ Forall (fun i => 1 <= i) pre /\ i <= 0 /\
        FibNumbers.fibGenerator_run numSeq self =
          ((map (fun i => fib_at (Z.to_nat (i - 1))) pre,
            Some (Py.ValueError msg)), self'))).
Proof.
  revert self. induction numSeq as [|i rest IH]; intros self Hr.
  - exists self. split; [exact Hr|]. left. split; [constructor|reflexivity].
  - cbn [FibNumbers.fibGenerator_run].
    destruct (Z_le_gt_dec i 0) as [Hi|Hi].
    + exists self. split; [exact Hr|]. right.
      unfold FibNumbers.getNthFibNumber.
      destruct (Z.eq_dec i 0) as [->|Hne].
      * eexists [], 0, rest, _. cbn [Z.eqb Py.raise].
        repeat split; [constructor|lia].
      * eexists [], i, rest, _.
        destruct (i =? 0) eqn:E0; [apply Z.eqb_eq in E0; lia|].
        destruct (i <? 0) eqn:E1; [|apply Z.ltb_ge in E1; lia].
        repeat split; [constructor|lia].
    + destruct (getNthFibNumber_call self i Hr ltac:(lia)) as (s1 & Hc & Hr1).
      rewrite Hc. destruct (IH s1 Hr1) as (s2 & Hr2 & [[Hall Hrun]|Hbad]).
      * exists s2. split; [exact Hr2|]. left. split.
        -- constructor; [lia|exact Hall].
        -- rewrite Hrun. reflexivity.
      * destruct Hbad as (pre & j & post & msg & Hsplit & Hpre & Hj & Hrun).
        exists s2. split; [exact Hr2|]. right.
        exists (i :: pre), j, post, msg. rewrite Hrun, Hsplit.
        repeat split; [constructor; [lia|exact Hpre]|exact Hj].
Qed.

Lemma yielded_values (self : FibNumbers.t) (l : list Z) :
  FibNumbers.reachable self -> Forall (fun i => 1 <= i) l ->
  Forall2 (fun i y => fst (FibNumbers.getNthFibNumber i self) = inr y)
    l (map (fun i => fib_at (Z.to_nat (i - 1))) l).
Proof.
  intros Hr. induction 1 as [|i l Hi _ IH]; simpl; constructor.
  - apply getNthFibNumber_value; assumption.
  - exact IH.
Qed.

(** X3.  In every reachable state, [fibGenerator(numSeq)] consumed to its
    end yields, in the order of [numSeq], the value of [getNthFibNumber] for
    each index and then ends normally, when every index is at least 1;
    otherwise it yields those values for the indices before the first index
    that is 0 or negative, and then raises [ValueError]. *)
Theorem fibGenerator_run_yields (numSeq : list Z) (self : FibNumbers.t) :
  FibNumbers.reachable self ->
  exists ys end_ self',
    FibNumbers.fibGenerator_run numSeq self = ((ys, end_), self') /\
    FibNumbers.reachable self' /\
    ((Forall (fun i => 1 <= i) numSeq /\ end_ = None /\
      Forall2 (fun i y => fst (FibNumbers.getNthFibNumber i self) = inr y)
        numSeq ys)
     \/
     (exists pre i post msg,
        numSeq = pre ++ i :: post /\ Forall (fun i => 1 <= i) pre /\ i <= 0 /\
        end_ = Some (Py.ValueError msg) /\
        Forall2 (fun i y => fst (FibNumbers.getNthFibNumber i self) = inr y)
          pre ys)).
Proof.
  intros Hr.
  destruct (fibGenerator_run_spec numSeq self Hr) as (s' & Hr' & [[Hall Hrun]|Hbad]).
  - do 3 eexists. split; [exact Hrun|]. split; [exact Hr'|]. left.
    split; [exact Hall|]. split; [reflexivity|].
    apply yielded_values; assumption.
  - destruct Hbad as (pre & i & post & msg & Hsplit & Hpre & Hi & Hrun).
    do 3 eexists. split; [exact Hrun|]. split; [exact Hr'|]. right.
    exists pre, i, post, msg. repeat split; try assumption.
    apply yielded_values; assumption.
Qed.

Lemma fibGenerator_run_yields_witness :
  exists ys end_ self',
    FibNumbers.fibGenerator_run [3; 1; 0; 5] FibNumbers.init = ((ys, end_), self') /\
    FibNumbers.reachable self' /\
    ((Forall (fun i => 1 <= i) [3; 1; 0; 5] /\ end_ = None /\
      Forall2 (fun i y => fst (FibNumbers.getNthFibNumber i FibNumbers.init) = inr y)
        [3; 1; 0; 5] ys)
     \/
     (exists pre i post msg,
        [3; 1; 0; 5] = pre ++ i :: post /\ Forall (fun i => 1 <= i) pre /\ i <= 0 /\
        end_ = Some (Py.ValueError msg) /\
        Forall2 (fun i y => fst (FibNumbers.getNthFibNumber i FibNumbers.init) = inr y)
          pre ys)).
Proof.
  apply (fibGenerator_run_yields [3; 1; 0; 5] FibNumbers.init).
  apply FibNumbers.reachable_init.
Defined.

Example fibGenerator_run_sample :
  fst (FibNumbers.fibGenerator_run [3; 1; 0; 5] FibNumbers.init) =
  ([2; 1],
   Some (Py.ValueError "For our cases, there is no zeroth fib number")).
Proof. reflexivity. Qed.

(** ** More on the database *)

Lemma find_app {A : Type} (p : A -> bool) (l1 l2 : list A) :
  find p (l1 ++ l2) =
  match find p l1 with Some x => Some x | None => find p l2 end.
Proof.
  induction l1 as [|a l1 IH]; simpl; [reflexivity|].
  destruct (p a); [reflexivity|exact IH].
Qed.

Lemma lookup_set (d : PyDict.t (K := UID.t) (V := Record.t)) k v k' :
  PyDict.lookup UID.eqb (PyDict.set UID.eqb d k v) k' =
  if UID.eqb k k' then Some v else PyDict.lookup UID.eqb d k'.
Proof.
  destruct (UID.eqb k k') eqn:E.
  - apply UID_eqb_eq in E. subst k'. apply (lookup_set_eq UID.eqb UID_eqb_eq).
  - apply (lookup_set_ne UID.eqb UID_eqb_eq). intros ->.
    rewrite (proj2 (UID_eqb_eq k' k') eq_refl) in E. discriminate.
Qed.

(** X4.  [Database(records)] deduplicates by uid, the last record wins: the
    record stored under a uid is the last record of the list that has this
    uid (and no record is stored under a uid that no record of the list
    has). *)
Theorem Database_init_last_wins (records : list Record.t) (uid : UID.t) :
  PyDict.lookup UID.eqb (Database.recordDict (Database.init records)) uid =
  find (fun record => UID.eqb (Record.uid record) uid) (rev records).
Proof.
  unfold Database.init. cbn [Database.recordDict].
  assert (H : forall d,
    PyDict.lookup UID.eqb
      (fold_left (fun d record => PyDict.set UID.eqb d (Record.uid record) record)
         records d) uid =
    match find (fun record => UID.eqb (Record.uid record) uid) (rev records) with
    | Some r => Some r
    | None => PyDict.lookup UID.eqb d uid
    end).
  { induction records as [|r records IH]; intros d; simpl; [reflexivity|].
    rewrite IH, find_app, lookup_set. simpl.
    destruct (find (fun record => UID.eqb (Record.uid record) uid) (rev records));
      [reflexivity|].
    destruct (UID.eqb (Record.uid r) uid); reflexivity. }
  rewrite H.
  destruct (find (fun record => UID.eqb (Record.uid record) uid) (rev records));
    reflexivity.
Qed.

Lemma keys_set_fresh (d : PyDict.t (K := UID.t) (V := Record.t)) k v :
  PyDict.contains UID.eqb d k = false ->
  PyDict.keys (PyDict.set UID.eqb d k v) = PyDict.keys d ++ [k].
Proof.
  intros H. rewrite (set_fresh UID.eqb) by exact H.
  unfold PyDict.keys. rewrite map_app. reflexivity.
Qed.

Lemma keys_set_present {K V : Type} (eqb : K -> K -> bool)
    (d : PyDict.t (K := K) (V := V)) k v :
  PyDict.contains eqb d k = true ->
  PyDict.keys (PyDict.set eqb d k v) = PyDict.keys d.
Proof.
  unfold PyDict.contains, PyDict.keys.
  induction d as [|[k0 v0] d IH]; simpl; [discriminate|].
  destruct (eqb k0 k); simpl; [reflexivity|]. intros H. rewrite IH by exact H.
  reflexivity.
Qed.

Lemma lookup_del_ne {K V : Type} (eqb : K -> K -> bool)
    (eqb_eq : forall a b, eqb a b = true <-> a = b)
    (d : PyDict.t (K := K) (V := V)) k k' :
  k <> k' -> PyDict.lookup eqb (PyDict.del eqb d k) k' = PyDict.lookup eqb d k'.
Proof.
  intros Hne. induction d as [|[k0 v0] d IH]; simpl; [reflexivity|].
  destruct (eqb k0 k) eqn:E; simpl.
  - apply eqb_eq in E. subst k0.
    destruct (eqb k k') eqn:E'; [apply eqb_eq in E'; contradiction|reflexivity].
  - rewrite IH. reflexivity.
Qed.

(** X5.  [insert] of a record whose uid is not a key succeeds; [get] of that
    uid then returns the record; every other key keeps its record; and the
    new key comes last in the order of iteration. *)
Theorem insert_then_get (self : Database.t) (record : Record.t) :
  Database.has_key self (Record.uid record) = false ->
  exists self',
    Database.insert record self = (inr tt, self') /\
    Database.get (Record.uid record) self' = (inr record, self') /\
    (forall uid, uid <> Record.uid record ->
       PyDict.lookup UID.eqb (Database.recordDict self') uid =
       PyDict.lookup UID.eqb (Database.recordDict self) uid) /\
    PyDict.keys (Database.recordDict self') =
      PyDict.keys (Database.recordDict self) ++ [Record.uid record].
Proof.
  intros Hk. rewrite insert_spec, Hk. eexists. split; [reflexivity|].
  split; [|split].
  - rewrite get_spec. cbn [Database.recordDict].
    rewrite (lookup_set_eq UID.eqb UID_eqb_eq). reflexivity.
  - intros uid Hne. cbn [Database.recordDict].
    apply (lookup_set_ne UID.eqb UID_eqb_eq). congruence.
  - cbn [Database.recordDict]. apply keys_set_fresh. exact Hk.
Qed.

Lemma insert_then_get_witness :
  exists self',
    Database.insert (Record.OfTopic Sample.orphan) Sample.db = (inr tt, self') /\
    Database.get (Record.uid (Record.OfTopic Sample.orphan)) self' =
      (inr (Record.OfTopic Sample.orphan), self') /\
    (forall uid, uid <> Record.uid (Record.OfTopic Sample.orphan) ->
       PyDict.lookup UID.eqb (Database.recordDict self') uid =
       PyDict.lookup UID.eqb (Database.recordDict Sample.db) uid) /\
    PyDict.keys (Database.recordDict self') =
      PyDict.keys (Database.recordDict Sample.db) ++
      [Record.uid (Record.OfTopic Sample.orphan)].
Proof.
  apply (insert_then_get Sample.db (Record.OfTopic Sample.orphan)).
  reflexivity.
Defined.

(** X6.  [update] of a record whose uid is a key succeeds and replaces the
    stored record wholly: [get] of that uid then returns the new record,
    every other key keeps its record, and the keys and their order are as
    before. *)
Theorem update_then_get (self : Database.t) (record : Record.t) :
  Database.has_key self (Record.uid record) = true ->
  exists self',
    Database.update record self = (inr tt, self') /\
    Database.get (Record.uid record) self' = (inr record, self') /\
    (forall uid, uid <> Record.uid record ->
       PyDict.lookup UID.eqb (Database.recordDict self') uid =
       PyDict.lookup UID.eqb (Database.recordDict self) uid) /\
    PyDict.keys (Database.recordDict self') =
      PyDict.keys (Database.recordDict self).
Proof.
  intros Hk. rewrite update_spec, Hk. eexists. split; [reflexivity|].
  split; [|split].
  - rewrite get_spec. cbn [Database.recordDict].
    rewrite (lookup_set_eq UID.eqb UID_eqb_eq). reflexivity.
  - intros uid Hne. cbn [Database.recordDict].
    apply (lookup_set_ne UID.eqb UID_eqb_eq). congruence.
  - cbn [Database.recordDict]. apply keys_set_present. exact Hk.
Qed.

Lemma update_then_get_witness :
  let record := Record.set_active false (Record.OfTopic Sample.sets) in
  exists self',
    Database.update record Sample.db = (inr tt, self') /\
    Database.get (Record.uid record) self' = (inr record, self') /\
    (forall uid, uid <> Record.uid record ->
       PyDict.lookup UID.eqb (Database.recordDict self') uid =
       PyDict.lookup UID.eqb (Database.recordDict Sample.db) uid) /\
    PyDict.keys (Database.recordDict self') =
      PyDict.keys (Database.recordDict Sample.db).
Proof.
  intros record. apply (update_then_get Sample.db record). reflexivity.
Defined.

(** X7.  [delete] of a uid that is a key succeeds; [get], [update] and
    [delete] of that uid then fail, an [insert] under it succeeds again, and
    every other key keeps its record. *)
Theorem delete_then_get (self : Database.t) (uid : UID.t) (record : Record.t) :
  Database.wf self = true ->
  Database.has_key self uid = true ->
  Record.uid record = uid ->
  exists self',
    Database.delete uid self = (inr tt, self') /\
    Database.get uid self' =
      (inl (Py.AssertionError "Record does not exist in database"), self') /\
    Database.update record self' =
      (inl (Py.AssertionError "Record does not exist in database"), self') /\
    Database.delete uid self' =
      (inl (Py.AssertionError "Record does not exist in database"), self') /\
    (exists self'', Database.insert record self' = (inr tt, self'')) /\
    (forall uid', uid' <> uid ->
       PyDict.lookup UID.eqb (Database.recordDict self') uid' =
       PyDict.lookup UID.eqb (Database.recordDict self) uid').
Proof.
  intros Hwf Hk Hu. rewrite delete_spec, Hk. eexists. split; [reflexivity|].
  unfold Database.wf in Hwf. apply andb_prop in Hwf. destruct Hwf as [Huniq _].
  pose proof (contains_del_eq UID.eqb UID_eqb_eq _ uid Huniq) as Hgone.
  rewrite get_spec, update_spec, delete_spec, insert_spec.
  unfold Database.has_key. cbn [Database.recordDict]. rewrite Hu, Hgone.
  unfold PyDict.contains in Hgone.
  destruct (PyDict.lookup UID.eqb
              (PyDict.del UID.eqb (Database.recordDict self) uid) uid);
    [discriminate|].
  repeat split; eauto.
  intros uid' Hne. apply (lookup_del_ne UID.eqb UID_eqb_eq). congruence.
Qed.

Lemma delete_then_get_witness :
  exists self',
    Database.delete (UID.init "t1") Sample.db = (inr tt, self') /\
    Database.get (UID.init "t1") self' =
      (inl (Py.AssertionError "Record does not exist in database"), self') /\
    Database.update (Record.OfTopic Sample.sets) self' =
      (inl (Py.AssertionError "Record does not exist in database"), self') /\
    Database.delete (UID.init "t1") self' =
      (inl (Py.AssertionError "Record does not exist in database"), self') /\
    (exists self'', Database.insert (Record.OfTopic Sample.sets) self' = (inr tt, self'')) /\
    (forall uid', uid' <> UID.init "t1" ->
       PyDict.lookup UID.eqb (Database.recordDict self') uid' =
       PyDict.lookup UID.eqb (Database.recordDict Sample.db) uid').
Proof.
  apply (delete_then_get Sample.db (UID.init "t1") (Record.OfTopic Sample.sets));
    reflexivity.
Defined.

Lemma wf_filter (self : Database.t) (f : UID.t * Record.t -> bool) :
  Database.wf self = true ->
  Database.wf {| Database.recordDict := filter f (Database.recordDict self) |}
  = true.
Proof.
  unfold Database.wf. cbn [Database.recordDict]. intros Hwf.
  apply andb_prop in Hwf. destruct Hwf as [Hu Hk].
  apply andb_true_intro. split.
  - apply (unique_keys_filter UID.eqb UID_eqb_eq). exact Hu.
  - apply forallb_forall. intros kr Hin. apply filter_In in Hin.
    rewrite forallb_forall in Hk. apply Hk. apply Hin.
Qed.

Lemma wf_completeTopic (self : Database.t) (uid : UID.t) :
  Database.wf self = true ->
  Database.wf (snd (cli.completeTopic uid self)) = true.
Proof.
  intros Hwf.
  destruct (PyDict.lookup UID.eqb (Database.recordDict self) uid) as [[s|t]|] eqn:E.
  - unfold cli.completeTopic, Py.bind. rewrite get_spec, E. exact Hwf.
  - rewrite (completeTopic_spec self uid t Hwf E). cbn [snd].
    pose proof (wf_lookup_uid self uid _ Hwf E) as Hu. simpl in Hu. subst uid.
    apply (wf_set self (Record.OfTopic (Topic.add_fibNumber t 1))). exact Hwf.
  - unfold cli.completeTopic, Py.bind. rewrite get_spec, E. exact Hwf.
Qed.

(** X8.  The invariant of the database (no uid is a key twice, and every
    record is stored under its own uid) holds of [Database(records)] for
    any list of records, and every operation keeps it, whether it succeeds
    or fails: [insert], [update], [delete], [query] (for the source and for
    the database returned), and the commands [createSubject],
    [createTopic] and [completeTask]. *)
Theorem database_invariant (self : Database.t) (records : list Record.t)
    (record : Record.t) (uid newUID : UID.t) (kinds : list Record.class)
    (p : Record.t -> bool) (m : db_module) (name1 name2 : string)
    (weight : Float.t) (bias : Z) :
  Database.wf self = true ->
  Database.wf (Database.init records) = true /\
  Database.wf (snd (Database.insert record self)) = true /\
  Database.wf (snd (Database.update record self)) = true /\
  Database.wf (snd (Database.delete uid self)) = true /\
  Database.wf (snd (Database.query kinds p self)) = true /\
  (forall out, fst (Database.query kinds p self) = inr out ->
               Database.wf out = true) /\
  Database.wf (snd (cli.createSubject newUID name1 weight bias self)) = true /\
  Database.wf (snd (cli.createTopic m newUID name1 name2 self)) = true /\
  Database.wf (snd (cli.completeTask name1 name2 self)) = true.
Proof.
  intros Hwf.
  split; [apply wf_init|].
  split; [apply wf_insert; exact Hwf|].
  split; [apply wf_update; exact Hwf|].
  split; [apply wf_delete; exact Hwf|].
  rewrite (query_spec self kinds p Hwf). cbn [fst snd].
  split; [exact Hwf|].
  split; [intros out' Ho; injection Ho as <-; apply wf_filter; exact Hwf|].
  split; [apply wf_insert; exact Hwf|].
  split; [apply (wf_insert self); exact Hwf|].
  apply wf_completeTopic. exact Hwf.
Qed.

Lemma database_invariant_witness :
  Database.wf (Database.init [Record.OfTopic Sample.sets; Record.OfTopic Sample.sets]) = true /\
  Database.wf (snd (Database.insert (Record.OfTopic Sample.orphan) Sample.db)) = true /\
  Database.wf (snd (Database.update (Record.OfTopic Sample.orphan) Sample.db)) = true /\
  Database.wf (snd (Database.delete (UID.init "t1") Sample.db)) = true /\
  Database.wf (snd (Database.query [Record.Topic] (fun _ => true) Sample.db)) = true /\
  (forall out, fst (Database.query [Record.Topic] (fun _ => true) Sample.db) = inr out ->
               Database.wf out = true) /\
  Database.wf (snd (cli.createSubject (UID.init "s9") "maths" (Float.round 1 0) 0 Sample.db)) = true /\
  Database.wf (snd (cli.createTopic Sample.db_mod (UID.init "s9") "maths" "sets" Sample.db)) = true /\
  Database.wf (snd (cli.completeTask "maths" "sets" Sample.db)) = true.
Proof.
  apply (database_invariant Sample.db
           [Record.OfTopic Sample.sets; Record.OfTopic Sample.sets]
           (Record.OfTopic Sample.orphan) (UID.init "t1") (UID.init "s9")
           [Record.Topic] (fun _ => true) Sample.db_mod "maths" "sets"
           (Float.round 1 0) 0).
  reflexivity.
Defined.

Lemma filter_filter {A : Type} (f g : A -> bool) (l : list A) :
  filter f (filter g l) = filter (fun x => g x && f x) l.
Proof.
  induction l as [|a l IH]; simpl; [reflexivity|].
  destruct (g a); simpl; [destruct (f a); rewrite IH; reflexivity|exact IH].
Qed.

(** X9.  Queries compose: querying the result of a query gives the database
    of the records that pass both filters, which is also what the two
    queries give in the other order and what a single query with both
    conditions gives; the databases queried are left as they were. *)
Theorem query_compose (self : Database.t) (kinds1 kinds2 : list Record.class)
    (p1 p2 : Record.t -> bool) :
  Database.wf self = true ->
  exists d1 d2 d12,
    Database.query kinds1 p1 self = (inr d1, self) /\
    Database.query kinds2 p2 d1 = (inr d12, d1) /\
    Database.query kinds2 p2 self = (inr d2, self) /\
    Database.query kinds1 p1 d2 = (inr d12, d2) /\
    Database.query kinds1
      (fun record =>
         p1 record &&
         (existsb (Record.class_eqb (Record.type record)) kinds2 && p2 record))
      self = (inr d12, self).
Proof.
  intros Hwf.
  pose proof (wf_filter self
                (fun kr => existsb (Record.class_eqb (Record.type (snd kr))) kinds1
                           && p1 (snd kr)) Hwf) as Hwf1.
  pose proof (wf_filter self
                (fun kr => existsb (Record.class_eqb (Record.type (snd kr))) kinds2
                           && p2 (snd kr)) Hwf) as Hwf2.
  rewrite (query_spec self kinds1 p1 Hwf), (query_spec self kinds2 p2 Hwf).
  do 2 eexists.
  exists {| Database.recordDict :=
              filter (fun kr =>
                        existsb (Record.class_eqb (Record.type (snd kr))) kinds1
                        && (p1 (snd kr) &&
                            (existsb (Record.class_eqb (Record.type (snd kr))) kinds2
                             && p2 (snd kr))))
                     (Database.recordDict self) |}.
  split; [reflexivity|].
  rewrite (query_spec _ kinds2 p2 Hwf1). split.
  { cbn [Database.recordDict]. rewrite filter_filter. do 3 f_equal.
    apply filter_ext. intros [k r]. simpl.
    destruct (existsb (Record.class_eqb (Record.type r)) kinds1), (p1 r),
      (existsb (Record.class_eqb (Record.type r)) kinds2), (p2 r); reflexivity. }
  split; [reflexivity|].
  rewrite (query_spec _ kinds1 p1 Hwf2). split.
  { cbn [Database.recordDict]. rewrite filter_filter. do 3 f_equal.
    apply filter_ext. intros [k r]. simpl.
    destruct (existsb (Record.class_eqb (Record.type r)) kinds1), (p1 r),
      (existsb (Record.class_eqb (Record.type r)) kinds2), (p2 r); reflexivity. }
  rewrite (query_spec self kinds1 _ Hwf). reflexivity.
Qed.

Lemma query_compose_witness :
  exists d1 d2 d12,
    Database.query [Record.Topic] (fun _ => true) Sample.db_orphan =
      (inr d1, Sample.db_orphan) /\
    Database.query [Record.Topic; Record.Subject]
      (fun r => String.eqb (UID.uid (Record.uid r)) "t3") d1 = (inr d12, d1) /\
    Database.query [Record.Topic; Record.Subject]
      (fun r => String.eqb (UID.uid (Record.uid r)) "t3") Sample.db_orphan =
      (inr d2, Sample.db_orphan) /\
    Database.query [Record.Topic] (fun _ => true) d2 = (inr d12, d2) /\
    Database.query [Record.Topic]
      (fun record =>
         (fun _ => true) record &&
         (existsb (Record.class_eqb (Record.type record))
            [Record.Topic; Record.Subject] &&
          (fun r => String.eqb (UID.uid (Record.uid r)) "t3") record))
      Sample.db_orphan = (inr d12, Sample.db_orphan).
Proof.
  apply (query_compose Sample.db_orphan [Record.Topic]
           [Record.Topic; Record.Subject] (fun _ => true)
           (fun r => String.eqb (UID.uid (Record.uid r)) "t3")).
  reflexivity.
Defined.

(** ** The database as a JSON dict *)

Lemma contains_map_keys (f : UID.t * Record.t -> JSON.dict)
    (d : PyDict.t (K := UID.t) (V := Record.t)) (k : UID.t) :
  PyDict.contains String.eqb
    (map (fun kr => (UID.toString (fst kr), f kr)) d) (UID.toString k) =
  PyDict.contains UID.eqb d k.
Proof.
  unfold PyDict.contains. induction d as [|[k0 r0] d IH]; simpl; [reflexivity|].
  unfold UID.eqb at 1. unfold UID.toString at 1 2.
  destruct (String.eqb (UID.uid k0) (UID.uid k)); [reflexivity|exact IH].
Qed.

Lemma unique_keys_map (f : UID.t * Record.t -> JSON.dict)
    (d : PyDict.t (K := UID.t) (V := Record.t)) :
  PyDict.unique_keys String.eqb
    (map (fun kr => (UID.toString (fst kr), f kr)) d) =
  PyDict.unique_keys UID.eqb d.
Proof.
  induction d as [|[k0 r0] d IH]; simpl; [reflexivity|].
  rewrite IH. f_equal. f_equal. apply contains_map_keys.
Qed.

Lemma fold_set_fresh_gen {K V X : Type} (eqb : K -> K -> bool)
    (eqb_eq : forall a b, eqb a b = true <-> a = b)
    (kf : X -> K) (vf : X -> V) (xs : list X) (d0 : PyDict.t (K := K) (V := V)) :
  PyDict.unique_keys eqb (d0 ++ map (fun x => (kf x, vf x)) xs) = true ->
  fold_left (fun d x => PyDict.set eqb d (kf x) (vf x)) xs d0 =
  d0 ++ map (fun x => (kf x, vf x)) xs.
Proof.
  revert d0. induction xs as [|x xs IH]; intros d0 Hu; simpl.
  - rewrite app_nil_r. reflexivity.
  - assert (Hfresh : PyDict.contains eqb d0 (kf x) = false).
    { clear IH. induction d0 as [|[k0 v0] d0 IHd]; [reflexivity|].
      simpl in Hu. apply andb_prop in Hu. destruct Hu as [H0 Hu].
      unfold PyDict.contains in *. simpl.
      destruct (eqb k0 (kf x)) eqn:E.
      - apply eqb_eq in E. subst k0. apply negb_true_iff in H0.
        fold (PyDict.contains eqb
                (d0 ++ (kf x, vf x) :: map (fun x => (kf x, vf x)) xs) (kf x)) in H0.
        rewrite (contains_app eqb) in H0. apply orb_false_iff in H0.
        destruct H0 as [_ H0]. unfold PyDict.contains in H0. simpl in H0.
        rewrite (proj2 (eqb_eq (kf x) (kf x)) eq_refl) in H0. discriminate.
      - apply IHd. exact Hu. }
    rewrite (set_fresh eqb) by exact Hfresh.
    rewrite IH; rewrite <- app_assoc; [reflexivity|exact Hu].
Qed.

(** What [toJSONDict] builds: one entry per record, in order, under the
    string of its key. *)
Lemma toJSONDict_spec (self : Database.t) :
  Database.wf self = true ->
  Database.toJSONDict self =
  map (fun kr => (UID.toString (fst kr), Record.toJSON (snd kr)))
      (Database.recordDict self).
Proof.
  intros Hwf. unfold Database.wf in Hwf. apply andb_prop in Hwf.
  destruct Hwf as [Hu _]. unfold Database.toJSONDict.
  rewrite (fold_set_fresh_gen String.eqb String.eqb_eq
             (fun kr => UID.toString (fst kr)) (fun kr => Record.toJSON (snd kr))).
  - reflexivity.
  - simpl. rewrite (unique_keys_map (fun kr => Record.toJSON (snd kr))). exact Hu.
Qed.

Lemma decode_record_toJSON (m : db_module) (record : Record.t) :
  match record with
  | Record.OfTopic t => datetime.valid (Topic.lastStudy t) = true
  | Record.OfSubject _ => True
  end ->
  Database.decode_record m (Record.toJSON record) = inr record.
Proof.
  destruct record as [s|t]; intros Hv; unfold Database.decode_record.
  - cbn [Record.toJSON]. rewrite Subject_round_trip. reflexivity.
  - cbn [Record.toJSON]. rewrite (Topic_round_trip m t Hv). reflexivity.
Qed.

(** X10.  Decoding what [toJSONDict] encodes gives the database back: the
    same keys in the same order with the same records, field for field (for
    a database that satisfies its invariant and whose [lastStudy] values are
    [datetime] objects). *)
Theorem database_round_trip (m : db_module) (self : Database.t) :
  Database.wf self = true ->
  Database.datetimes_valid self = true ->
  Database.fromJSONDict m (Database.toJSONDict self) = inr self.
Proof.
  intros Hwf Hv. rewrite (toJSONDict_spec self Hwf).
  unfold Database.fromJSONDict, PyDict.values. rewrite map_map. cbn [snd].
  assert (Hdec : Database.decode_records m
                   (map (fun kr => Record.toJSON (snd kr)) (Database.recordDict self))
                 = inr (PyDict.values (Database.recordDict self))).
  { unfold Database.datetimes_valid, Database.records, PyDict.values in *.
    induction (Database.recordDict self) as [|[k r] d IH]; simpl in *;
      [reflexivity|].
    apply andb_prop in Hv. destruct Hv as [Hr Hd].
    rewrite decode_record_toJSON by (destruct r; [exact I|exact Hr]).
    simpl. rewrite IH by exact Hd. reflexivity. }
  rewrite Hdec. simpl. f_equal.
  unfold Database.wf in Hwf. apply andb_prop in Hwf. destruct Hwf as [Hu Hk].
  rewrite (Database_init_spec _ Hu Hk). destruct self. reflexivity.
Qed.

Lemma database_round_trip_witness :
  Database.fromJSONDict Sample.db_mod (Database.toJSONDict Sample.db_orphan) =
  inr Sample.db_orphan.
Proof.
  apply (database_round_trip Sample.db_mod Sample.db_orphan); reflexivity.
Defined.

Lemma decode_records_app (m : db_module) (l1 l2 : list JSON.dict) :
  Database.decode_records m (l1 ++ l2) =
  match Database.decode_records m l1 with
  | inr rs1 =>
      match Database.decode_records m l2 with
      | inr rs2 => inr (rs1 ++ rs2)
      | inl e => inl e
      end
  | inl e => inl e
  end.
Proof.
  induction l1 as [|v l1 IH]; simpl.
  - destruct (Database.decode_records m l2); reflexivity.
  - unfold Py.rbind. destruct (Database.decode_record m v) as [e|r]; [reflexivity|].
    rewrite IH. destruct (Database.decode_records m l1) as [e|rs1]; [reflexivity|].
    destruct (Database.decode_records m l2); reflexivity.
Qed.

Lemma decode_record_bad_type (m : db_module) (v : JSON.dict) :
  match PyDict.lookup String.eqb v "type" with
  | None => True
  | Some ty => JSON.eqb_str ty "subject" = false /\ JSON.eqb_str ty "topic" = false
  end ->
  Database.decode_record m v =
  inl (Py.AssertionError
         match PyDict.lookup String.eqb v "type" with
         | None => "Record does not have a type"
         | Some _ => "Unknown record type"
         end).
Proof.
  unfold Database.decode_record, PyDict.contains, JSON.getitem.
  destruct (PyDict.lookup String.eqb v "type") as [ty|]; simpl.
  - intros [H1 H2]. rewrite H1, H2. reflexivity.
  - reflexivity.
Qed.

(** X11.  [fromJSONDict] rejects a dict that has a value with no ["type"]
    key or with a type tag other than ["subject"] and ["topic"]: it returns
    no database.  When the values before that one decode, the exception is
    the [AssertionError] of the source, "Record does not have a type" or
    "Unknown record type". *)
Theorem fromJSONDict_rejects (m : db_module)
    (dictIn : PyDict.t (K := string) (V := JSON.dict)) (v : JSON.dict) :
  In v (PyDict.values dictIn) ->
  match PyDict.lookup String.eqb v "type" with
  | None => True
  | Some ty => JSON.eqb_str ty "subject" = false /\ JSON.eqb_str ty "topic" = false
  end ->
  (exists e, Database.fromJSONDict m dictIn = inl e) /\
  (forall pre post records,
     PyDict.values dictIn = pre ++ v :: post ->
     Database.decode_records m pre = inr records ->
     Database.fromJSONDict m dictIn =
     inl (Py.AssertionError
            match PyDict.lookup String.eqb v "type" with
            | None => "Record does not have a type"
            | Some _ => "Unknown record type"
            end)).
Proof.
  intros Hin Hbad. pose proof (decode_record_bad_type m v Hbad) as Hdec.
  unfold Database.fromJSONDict. split.
  - apply in_split in Hin. destruct Hin as (pre & post & ->).
    rewrite decode_records_app. simpl. rewrite Hdec. simpl.
    destruct (Database.decode_records m pre); simpl; eauto.
  - intros pre post records -> Hpre.
    rewrite decode_records_app, Hpre. simpl. rewrite Hdec. reflexivity.
Qed.

Lemma fromJSONDict_rejects_witness :
  let v := [("uid", JSON.Str "u1"); ("type", JSON.Str "exam")] in
  let dictIn := [("s1", Subject.toJSON Sample.maths); ("u1", v)] in
  (exists e, Database.fromJSONDict Sample.db_mod dictIn = inl e) /\
  (forall pre post records,
     PyDict.values dictIn = pre ++ v :: post ->
     Database.decode_records Sample.db_mod pre = inr records ->
     Database.fromJSONDict Sample.db_mod dictIn =
     inl (Py.AssertionError
            match PyDict.lookup String.eqb v "type" with
            | None => "Record does not have a type"
            | Some _ => "Unknown record type"
            end)).
Proof.
  intros v dictIn.
  apply (fromJSONDict_rejects Sample.db_mod dictIn v).
  - simpl. right. left. reflexivity.
  - simpl. split; reflexivity.
Defined.

(** X12.  Decoding a record is strict: [Subject.fromJSON] returns no
    subject for a dict that lacks one of the keys ["uid"], ["name"],
    ["active"], ["weight"], ["bias"], and [Topic.fromJSON] returns no topic
    for a dict that lacks one of ["uid"], ["name"], ["subjectUID"],
    ["active"], ["lastStudy"], ["fibNumber"]; no field gets a default. *)
Theorem fromJSON_strict (m : db_module) (dictIn : JSON.dict) (key : string) :
  PyDict.lookup String.eqb dictIn key = None ->
  (In key ["uid"; "name"; "active"; "weight"; "bias"] ->
   exists e, Subject.fromJSON dictIn = inl e) /\
  (In key ["uid"; "name"; "subjectUID"; "active"; "lastStudy"; "fibNumber"] ->
   exists e, Topic.fromJSON m dictIn = inl e).
Proof.
  intros Hnone. split; intros Hin; simpl in Hin.
  - unfold Subject.fromJSON, Py.rbind, JSON.getitem.
    repeat (destruct Hin as [<-|Hin]; [rewrite Hnone|]); [..|destruct Hin];
      repeat match goal with
             | |- context [match PyDict.lookup String.eqb dictIn ?k with _ => _ end] =>
                 destruct (PyDict.lookup String.eqb dictIn k) as [[]|]; simpl
             end; eauto.
  - unfold Topic.fromJSON, Py.rbind, JSON.getitem.
    repeat (destruct Hin as [<-|Hin]; [rewrite Hnone|]); [..|destruct Hin];
      repeat match goal with
             | |- context [match PyDict.lookup String.eqb dictIn ?k with _ => _ end] =>
                 destruct (PyDict.lookup String.eqb dictIn k) as [[]|]; simpl
             | |- context [match datetime.fromisoformat ?s with _ => _ end] =>
                 destruct (datetime.fromisoformat s); simpl
             end; eauto.
Qed.

Lemma fromJSON_strict_witness :
  (In "name" ["uid"; "name"; "active"; "weight"; "bias"] ->
   exists e, Subject.fromJSON [("uid", JSON.Str "s1")] = inl e) /\
  (In "name" ["uid"; "name"; "subjectUID"; "active"; "lastStudy"; "fibNumber"] ->
   exists e, Topic.fromJSON Sample.db_mod [("uid", JSON.Str "s1")] = inl e).
Proof.
  apply (fromJSON_strict Sample.db_mod [("uid", JSON.Str "s1")] "name").
  reflexivity.
Defined.

(** ** More on the predictor *)

Lemma offsetDays_state (n : Z) (wt : Float.t) (b : Z) (f1 f2 : FibNumbers.t) :
  FibNumbers.reachable f1 -> FibNumbers.reachable f2 ->
  fst (Predictor.offsetDays n wt b f1) = fst (Predictor.offsetDays n wt b f2).
Proof.
  intros H1 H2. unfold Predictor.offsetDays, Py.bind, Py.lift.
  destruct (Z_le_gt_dec n 0) as [Hn|Hn].
  - unfold FibNumbers.getNthFibNumber.
    destruct (n =? 0) eqn:E0; [reflexivity|].
    destruct (n <? 0) eqn:E1; [reflexivity|].
    apply Z.eqb_neq in E0. apply Z.ltb_ge in E1. lia.
  - destruct (getNthFibNumber_call f1 n H1 ltac:(lia)) as (s1 & -> & _).
    destruct (getNthFibNumber_call f2 n H2 ltac:(lia)) as (s2 & -> & _).
    reflexivity.
Qed.

Lemma subjectWAndTup_fold_Some (l : list Record.t) (d : Predictor.lookup_table)
    (u : UID.t) (wb : Float.t * Z) :
  PyDict.lookup UID.eqb
    (fold_left
       (fun d subject =>
          match subject with
          | Record.OfSubject s =>
              PyDict.set UID.eqb d (Subject.uid s) (Subject.weight s, Subject.bias s)
          | Record.OfTopic _ => d
          end) l d) u = Some wb ->
  (exists s, In (Record.OfSubject s) l /\ Subject.uid s = u /\
             wb = (Subject.weight s, Subject.bias s)) \/
  PyDict.lookup UID.eqb d u = Some wb.
Proof.
  revert d. induction l as [|r l IH]; intros d H; simpl in H; [right; exact H|].
  destruct (IH _ H) as [(s & Hin & Hu & Hwb)|Hd].
  - left. exists s. split; [right; exact Hin|]. split; assumption.
  - destruct r as [s|t]; [|right; exact Hd].
    destruct (UID.eqb (Subject.uid s) u) eqn:E.
    + apply UID_eqb_eq in E. subst u.
      rewrite (lookup_set_eq UID.eqb UID_eqb_eq) in Hd. injection Hd as <-.
      left. exists s. split; [left; reflexivity|]. split; reflexivity.
    + rewrite (lookup_set_ne UID.eqb UID_eqb_eq) in Hd.
      * right. exact Hd.
      * intros Heq. apply UID_eqb_eq in Heq. congruence.
Qed.

(** One iteration that succeeds, read backwards. *)
Lemma predict_item_inr (now : nat -> datetime.t) table
    (acc acc' : PyDict.t (K := UID.t) (V := datetime.t)) (t : Topic.t) w w' :
  Predictor.predict_item now table acc (Record.OfTopic t) w = (inr acc', w') ->
  exists wt b days due,
    PyDict.lookup UID.eqb table (Topic.subjectUID t) = Some (wt, b) /\
    fst (Predictor.offsetDays (Topic.fibNumber t) wt b (Predictor.fibNumbers w))
      = inr days /\
    datetime.add_days (now (Predictor.clock w)) days = inr due /\
    acc' = PyDict.set UID.eqb acc (Topic.uid t) due /\
    Predictor.clock w' = S (Predictor.clock w) /\
    Predictor.fibNumbers w' =
      snd (FibNumbers.getNthFibNumber (Topic.fibNumber t) (Predictor.fibNumbers w)).
Proof.
  simpl. unfold Predictor.offsetDays.
  unfold Py.bind, Predictor.with_fib, Py.lift, Predictor.getitem,
    Predictor.datetime_now, Py.ret.
  destruct (FibNumbers.getNthFibNumber (Topic.fibNumber t) (Predictor.fibNumbers w))
    as [[e|raw] f]; [discriminate|]. cbn [fst snd Predictor.fibNumbers Predictor.clock].
  destruct (PyDict.lookup UID.eqb table (Topic.subjectUID t)) as [[wt b]|];
    [|discriminate]. cbn [fst snd].
  destruct (Predictor.actualPred raw wt b) as [e|pred] eqn:Ep; [discriminate|].
  cbn [Predictor.fibNumbers Predictor.clock].
  unfold datetime.timedelta_days.
  destruct (999999999 <? Z.abs pred); [discriminate|].
  destruct (datetime.add_days (now (Predictor.clock w)) pred) as [e|due] eqn:Ea;
    [discriminate|].
  intros [= <- <-]. exists wt, b, pred, due.
  repeat split; cbn; try reflexivity; try assumption.
Qed.

Lemma predict_loop_inr (now : nat -> datetime.t) table (items : list Record.t) :
  forall (acc acc' : PyDict.t (K := UID.t) (V := datetime.t)) w w',
    FibNumbers.reachable (Predictor.fibNumbers w) ->
    NoDup (PyDict.keys acc ++ map Topic.uid (topics_of items)) ->
    Predictor.predict_loop now table items acc w = (inr acc', w') ->
    exists dues,
      List.length dues = List.length (topics_of items) /\
      acc' = acc ++ combine (map Topic.uid (topics_of items)) dues /\
      Predictor.clock w' = (Predictor.clock w + List.length (topics_of items))%nat /\
      (forall i t, nth_error (topics_of items) i = Some t ->
         exists wt b days due,
           PyDict.lookup UID.eqb table (Topic.subjectUID t) = Some (wt, b) /\
           fst (Predictor.offsetDays (Topic.fibNumber t) wt b (Predictor.fibNumbers w))
             = inr days /\
           datetime.add_days (now (Predictor.clock w + i)%nat) days = inr due /\
           nth_error dues i = Some due).
Proof.
  induction items as [|r items IH]; intros acc acc' w w' Hr Hnd Hloop.
  - injection Hloop as <- <-. exists []. simpl.
    rewrite app_nil_r, Nat.add_0_r. repeat split; try reflexivity.
    intros [|i] t H; discriminate.
  - rewrite predict_loop_cons in Hloop. destruct r as [s|t].
    + simpl in Hloop. unfold Py.ret in Hloop. apply (IH acc acc' w w' Hr Hnd Hloop).
    + destruct (Predictor.predict_item now table acc (Record.OfTopic t) w)
        as [[e|acc1] w1] eqn:Hitem; [discriminate|].
      destruct (predict_item_inr now table acc acc1 t w w1 Hitem)
        as (wt & b & days & due & Hl & Hoff & Hadd & Hacc & Hclock & Hfib).
      cbn [topics_of flat_map app map] in Hnd |- *.
      change (flat_map (fun r => match r with Record.OfTopic t => [t] | _ => [] end) items)
        with (topics_of items) in *.
      assert (Hfresh : PyDict.contains UID.eqb acc (Topic.uid t) = false).
      { destruct (PyDict.contains UID.eqb acc (Topic.uid t)) eqn:C; [|reflexivity].
        apply (contains_In UID.eqb UID_eqb_eq) in C.
        apply NoDup_remove_2 in Hnd. exfalso. apply Hnd.
        apply in_or_app. left. exact C. }
      rewrite (set_fresh UID.eqb) in Hacc by exact Hfresh. subst acc1.
      assert (Hr1 : FibNumbers.reachable (Predictor.fibNumbers w1)).
      { rewrite Hfib. apply FibNumbers.reachable_call. exact Hr. }
      destruct (IH (acc ++ [(Topic.uid t, due)]) acc' w1 w' Hr1)
        as (dues & Hlen & Hacc' & Hc' & Hidx).
      * unfold PyDict.keys in *. rewrite map_app. simpl. rewrite <- app_assoc.
        simpl. exact Hnd.
      * exact Hloop.
      * exists (due :: dues). split; [simpl; lia|]. split.
        { rewrite Hacc', <- app_assoc. reflexivity. }
        split; [simpl; lia|].
        intros [|i] t' Hn; simpl in Hn.
        -- injection Hn as <-. exists wt, b, days, due.
           rewrite Nat.add_0_r. repeat split; assumption.
        -- destruct (Hidx i t' Hn) as (wt' & b' & days' & due' & H1 & H2 & H3 & H4).
           exists wt', b', days', due'. split; [exact H1|]. split.
           ++ rewrite <- H2. apply offsetDays_state; assumption.
           ++ split; [|exact H4]. rewrite Hclock in H3.
              replace (Predictor.clock w + S i)%nat with (S (Predictor.clock w) + i)%nat
                by lia. exact H3.
Qed.

Lemma unique_keys_NoDup {V : Type} (d : PyDict.t (K := UID.t) (V := V)) :
  PyDict.unique_keys UID.eqb d = true -> NoDup (PyDict.keys d).
Proof.
  induction d as [|[k v] d IH]; simpl; intros H; [constructor|].
  apply andb_prop in H. destruct H as [Hk Hu]. constructor; [|apply IH; exact Hu].
  intros Hin. apply (contains_In UID.eqb UID_eqb_eq) in Hin.
  rewrite Hin in Hk. discriminate.
Qed.

Lemma wf_uids (self : Database.t) :
  Database.wf self = true ->
  map Record.uid (Database.records self) = PyDict.keys (Database.recordDict self).
Proof.
  unfold Database.wf, Database.records, PyDict.values, PyDict.keys.
  intros H. apply andb_prop in H. destruct H as [_ Hk].
  induction (Database.recordDict self) as [|[k r] d IH]; simpl in *; [reflexivity|].
  apply andb_prop in Hk. destruct Hk as [H1 H2].
  apply UID_eqb_eq in H1. rewrite IH by exact H2. congruence.
Qed.

Lemma topics_of_uids (items : list Record.t) (u : UID.t) :
  In u (map Topic.uid (topics_of items)) -> In u (map Record.uid items).
Proof.
  induction items as [|[s|t] items IH]; simpl; intros H; [exact H| |].
  - right. apply IH. exact H.
  - destruct H as [H|H]; [left; exact H|right; apply IH; exact H].
Qed.

Lemma topics_of_NoDup (items : list Record.t) :
  NoDup (map Record.uid items) -> NoDup (map Topic.uid (topics_of items)).
Proof.
  induction items as [|[s|t] items IH]; simpl; intros H.
  - constructor.
  - apply IH. inversion H. assumption.
  - inversion H as [|? ? Hnot Hnd]. subst. constructor; [|apply IH; exact Hnd].
    intros Hin. apply Hnot. apply topics_of_uids. exact Hin.
Qed.

Lemma lookup_combine {V : Type} (ks : list UID.t) (vs : list V) (i : nat) k v :
  NoDup ks -> nth_error ks i = Some k -> nth_error vs i = Some v ->
  PyDict.lookup UID.eqb (combine ks vs) k = Some v.
Proof.
  intros Hnd. revert vs i. induction Hnd as [|k0 ks Hnot Hnd IH]; intros vs i Hk Hv.
  - destruct i; discriminate.
  - destruct vs as [|v0 vs]; [destruct i; discriminate|].
    destruct i as [|i]; simpl in *.
    + injection Hk as <-. injection Hv as <-.
      rewrite (proj2 (UID_eqb_eq k0 k0) eq_refl). reflexivity.
    + destruct (UID.eqb k0 k) eqn:E.
      * apply UID_eqb_eq in E. subst k0. exfalso. apply Hnot.
        apply nth_error_In in Hk. exact Hk.
      * apply (IH vs i); assumption.
Qed.

Lemma keys_combine {V : Type} (ks : list UID.t) (vs : list V) :
  List.length vs = List.length ks -> PyDict.keys (combine ks vs) = ks.
Proof.
  unfold PyDict.keys. revert vs. induction ks as [|k ks IH]; intros [|v vs] H;
    simpl in *; try discriminate; try reflexivity.
  rewrite IH by lia. reflexivity.
Qed.

(** X13.  When [predict] returns, the mapping has exactly one entry per
    topic of the database, in the order of the database (and none for a
    subject); the i-th topic is mapped to the i-th reading of the clock
    taken by the call, plus the day offset computed from the topic's
    [fibNumber] and the weight and bias of a subject of the database whose
    uid is the topic's [subjectUID]; the clock has been read once per topic;
    and the object has the same database and the mapping as [timeLookup]. *)
Theorem predict_full_mapping (now : nat -> datetime.t) (self self' : Predictor.t)
    (w w' : Predictor.World) (result : PyDict.t (K := UID.t) (V := datetime.t)) :
  Database.wf (Predictor.dBase self) = true ->
  FibNumbers.reachable (Predictor.fibNumbers w) ->
  Predictor.predict now self w = (inr (result, self'), w') ->
  PyDict.keys result =
    map Topic.uid (topics_of (Database.records (Predictor.dBase self))) /\
  Predictor.clock w' =
    (Predictor.clock w +
     List.length (topics_of (Database.records (Predictor.dBase self))))%nat /\
  self' = {| Predictor.dBase := Predictor.dBase self;
             Predictor.timeLookup := result |} /\
  (forall i t,
     nth_error (topics_of (Database.records (Predictor.dBase self))) i = Some t ->
     exists s days due,
       In (Record.OfSubject s) (Database.records (Predictor.dBase self)) /\
       Subject.uid s = Topic.subjectUID t /\
       fst (Predictor.offsetDays (Topic.fibNumber t) (Subject.weight s)
              (Subject.bias s) (Predictor.fibNumbers w)) = inr days /\
       datetime.add_days (now (Predictor.clock w + i)%nat) days = inr due /\
       PyDict.lookup UID.eqb result (Topic.uid t) = Some due).
Proof.
  intros Hwf Hr Hp. unfold Predictor.predict, Py.bind in Hp.
  fold (Database.records (Predictor.dBase self)) in Hp.
  destruct (Predictor.predict_loop now (Predictor.subjectWAndTup (Predictor.dBase self))
              (Database.records (Predictor.dBase self)) PyDict.empty w)
    as [[e|acc] w1] eqn:Hloop; [discriminate|].
  unfold Py.ret in Hp. injection Hp as <- <- <-.
  assert (Hnd : NoDup (map Topic.uid
                         (topics_of (Database.records (Predictor.dBase self))))).
  { apply topics_of_NoDup. rewrite (wf_uids _ Hwf). apply unique_keys_NoDup.
    unfold Database.wf in Hwf. apply andb_prop in Hwf. apply Hwf. }
  destruct (predict_loop_inr now _ _ PyDict.empty acc w w1 Hr Hnd Hloop)
    as (dues & Hlen & Hacc & Hclock & Hidx).
  simpl in Hacc. subst acc.
  split; [apply keys_combine; rewrite length_map; exact Hlen|].
  split; [exact Hclock|]. split; [reflexivity|].
  intros i t Hn.
  destruct (Hidx i t Hn) as (wt & b & days & due & Hl & Hoff & Hadd & Hdue).
  destruct (subjectWAndTup_fold_Some _ _ _ _ Hl)
    as [(s & Hin & Hu & Hwb)|Hempty]; [|discriminate].
  injection Hwb as -> ->.
  exists s, days, due. repeat split; try assumption.
  apply (lookup_combine _ _ i); [exact Hnd| |exact Hdue].
  rewrite nth_error_map, Hn. reflexivity.
Qed.

Lemma predict_full_mapping_witness :
  let result := [(UID.init "t1", datetime.mk 2026 11 5 22 59 0 0 datetime.utc)] in
  PyDict.keys result =
    map Topic.uid (topics_of (Database.records Sample.db)) /\
  1%nat = (0 + List.length (topics_of (Database.records Sample.db)))%nat /\
  {| Predictor.dBase := Sample.db; Predictor.timeLookup := result |} =
  {| Predictor.dBase := Sample.db; Predictor.timeLookup := result |} /\
  (forall i t,
     nth_error (topics_of (Database.records Sample.db)) i = Some t ->
     exists s days due,
       In (Record.OfSubject s) (Database.records Sample.db) /\
       Subject.uid s = Topic.subjectUID t /\
       fst (Predictor.offsetDays (Topic.fibNumber t) (Subject.weight s)
              (Subject.bias s) FibNumbers.init) = inr days /\
       datetime.add_days (Sample.now (0 + i)%nat) days = inr due /\
       PyDict.lookup UID.eqb result (Topic.uid t) = Some due).
Proof.
  intros result.
  apply (predict_full_mapping Sample.now (Predictor.init Sample.db)
           {| Predictor.dBase := Sample.db; Predictor.timeLookup := result |}
           Sample.world
           {| Predictor.fibNumbers := FibNumbers.init; Predictor.clock := 1 |}
           result).
  - reflexivity.
  - apply FibNumbers.reachable_init.
  - reflexivity.
Defined.

Lemma predict_item_invalid (now : nat -> datetime.t) table
    (acc : PyDict.t (K := UID.t) (V := datetime.t)) (t : Topic.t) w :
  Topic.fibNumber t <= 0 ->
  Predictor.predict_item now table acc (Record.OfTopic t) w =
  (inl (Py.ValueError
          (if Topic.fibNumber t =? 0
           then "For our cases, there is no zeroth fib number"
           else "Can't have a negative fib number.")), w).
Proof.
  intros Hn. simpl. unfold Py.bind, Predictor.with_fib, FibNumbers.getNthFibNumber.
  destruct (Topic.fibNumber t =? 0) eqn:E0.
  - destruct w. reflexivity.
  - destruct (Topic.fibNumber t <? 0) eqn:E1.
    + destruct w. reflexivity.
    + apply Z.eqb_neq in E0. apply Z.ltb_ge in E1. lia.
Qed.

(** X14.  If a topic of the database has a [fibNumber] that is 0 or
    negative, [predict] raises and returns no mapping.  The exception is the
    [ValueError] of [getNthFibNumber] when the records before that topic are
    predicted. *)
Theorem predict_invalid_fibNumber (now : nat -> datetime.t) (self : Predictor.t)
    (t : Topic.t) (w : Predictor.World) :
  In (Record.OfTopic t) (Database.records (Predictor.dBase self)) ->
  Topic.fibNumber t <= 0 ->
  Py.fails (Predictor.predict now self w) /\
  (forall pre post acc w1,
     Database.records (Predictor.dBase self) = pre ++ Record.OfTopic t :: post ->
     Predictor.predict_loop now (Predictor.subjectWAndTup (Predictor.dBase self))
       pre PyDict.empty w = (inr acc, w1) ->
     Predictor.predict now self w =
     (inl (Py.ValueError
             (if Topic.fibNumber t =? 0
              then "For our cases, there is no zeroth fib number"
              else "Can't have a negative fib number.")), w1)).
Proof.
  intros Hin Hn. unfold Py.fails, Predictor.predict, Py.bind.
  fold (Database.records (Predictor.dBase self)). split.
  - apply in_split in Hin. destruct Hin as (pre & post & ->).
    rewrite predict_loop_app.
    destruct (Predictor.predict_loop now
                (Predictor.subjectWAndTup (Predictor.dBase self)) pre
                PyDict.empty w) as [[e|acc] w1]; [eexists; reflexivity|].
    rewrite predict_loop_cons, predict_item_invalid by exact Hn.
    eexists. reflexivity.
  - intros pre post acc w1 -> Hpre.
    rewrite predict_loop_app, Hpre, predict_loop_cons, predict_item_invalid
      by exact Hn.
    reflexivity.
Qed.

Lemma predict_invalid_fibNumber_witness :
  let t := Topic.add_fibNumber Sample.sets (-2) in
  let self := Predictor.init
                (Database.init [Record.OfSubject Sample.maths; Record.OfTopic t]) in
  Py.fails (Predictor.predict Sample.now self Sample.world) /\
  (forall pre post acc w1,
     Database.records (Predictor.dBase self) = pre ++ Record.OfTopic t :: post ->
     Predictor.predict_loop Sample.now
       (Predictor.subjectWAndTup (Predictor.dBase self))
       pre PyDict.empty Sample.world = (inr acc, w1) ->
     Predictor.predict Sample.now self Sample.world =
     (inl (Py.ValueError
             (if Topic.fibNumber t =? 0
              then "For our cases, there is no zeroth fib number"
              else "Can't have a negative fib number.")), w1)).
Proof.
  intros t self.
  apply (predict_invalid_fibNumber Sample.now self t Sample.world).
  - simpl. right. left. reflexivity.
  - simpl. lia.
Defined.

(** ** Exact day offsets *)

Lemma round_int_exact (m : Z) :
  Z.abs m < 2 ^ 53 ->
  exists n e, Float.round m 0 = Float.Finite n e /\ -52 <= e <= 0 /\
              n = m * 2 ^ (- e).
Proof.
  intros Hm.
  assert (Hpos : forall p, 0 < p < 2 ^ 53 ->
            exists n e, Float.round_pos p 0 = Float.Finite n e /\ -52 <= e <= 0 /\
                        n = p * 2 ^ (- e)).
  { intros p Hp. unfold Float.round_pos, Float.ulp_exp.
    pose proof (Z.log2_nonneg p) as Hl0.
    assert (Hl : Z.log2 p < 53) by (apply Z.log2_lt_pow2; lia).
    replace (Z.max (Z.log2 p + 0 - 52) (-1074)) with (Z.log2 p - 52) by lia.
    set (e := Z.log2 p - 52).
    destruct (Z.leb_spec e 0) as [_|H]; [|unfold e in H; lia].
    destruct (Z.ltb_spec 971 e) as [H|_]; [unfold e in H; lia|].
    destruct (Z.eqb_spec e 971) as [H|_]; [unfold e in H; lia|].
    simpl. exists (p * 2 ^ (0 - e)), e. split; [reflexivity|].
    split; [unfold e; lia|]. f_equal. }
  unfold Float.round.
  destruct (Z.eqb_spec m 0) as [->|Hne].
  - exists 0, 0. repeat split; lia.
  - destruct (Z.ltb_spec m 0) as [Hneg|Hge].
    + destruct (Hpos (- m) ltac:(lia)) as (n & e & Hr & He & Hn).
      rewrite Hr. exists (- n), e. repeat split; lia.
    + apply Hpos. lia.
Qed.

Lemma round_scaled_int (m e : Z) :
  e <= 0 -> Float.round (m * 2 ^ (- e)) e = Float.round m 0.
Proof.
  intros He. replace e with (0 - (- e)) at 2 by lia. apply round_scale. lia.
Qed.

Lemma actualPred_exact (raw k b : Z) :
  Z.abs raw < 2 ^ 53 -> Z.abs k < 2 ^ 53 -> Z.abs b < 2 ^ 53 ->
  Z.abs (raw * k) < 2 ^ 53 -> Z.abs (raw * k + b) < 2 ^ 53 ->
  Predictor.actualPred raw (Float.round k 0) b = inr (raw * k + b).
Proof.
  intros Hraw Hk Hb Hprod Hsum.
  destruct (round_int_exact raw Hraw) as (n1 & e1 & R1 & He1 & Hn1).
  destruct (round_int_exact k Hk) as (n2 & e2 & R2 & He2 & Hn2).
  destruct (round_int_exact b Hb) as (n4 & e4 & R4 & He4 & Hn4).
  destruct (round_int_exact (raw * k) Hprod) as (n3 & e3 & R3 & He3 & Hn3).
  destruct (round_int_exact (raw * k + b) Hsum) as (n5 & e5 & R5 & He5 & Hn5).
  unfold Predictor.actualPred, Py.rbind, Float.of_int.
  rewrite R1, R4, R2. cbn [Float.mul].
  replace (n1 * n2) with (raw * k * 2 ^ (- (e1 + e2))).
  2:{ rewrite Hn1, Hn2. replace (- (e1 + e2)) with (- e1 + - e2) by lia.
      rewrite pow2_split by lia. ring. }
  rewrite round_scaled_int by lia. rewrite R3. cbn [Float.add].
  set (c := Z.min e3 e4).
  replace (n3 * 2 ^ (e3 - c) + n4 * 2 ^ (e4 - c))
    with ((raw * k + b) * 2 ^ (- c)).
  2:{ assert (P3 : 2 ^ (- e3) * 2 ^ (e3 - c) = 2 ^ (- c))
        by (rewrite <- pow2_split by (unfold c; lia); f_equal; lia).
      assert (P4 : 2 ^ (- e4) * 2 ^ (e4 - c) = 2 ^ (- c))
        by (rewrite <- pow2_split by (unfold c; lia); f_equal; lia).
      rewrite Hn3, Hn4, <- !Z.mul_assoc, P3, P4. ring. }
  rewrite round_scaled_int by (unfold c; lia). rewrite R5.
  cbn [Float.round_to_int]. f_equal.
  destruct (Z.leb_spec 0 e5) as [H|H].
  - replace e5 with 0 in * by lia. rewrite Hn5. simpl. lia.
  - rewrite Hn5. apply rne_shift_exact. lia.
Qed.

(** X15.  With a weight that is an integer [k] (as a float), the day offset
    is exactly [F * k + bias], [F] being the Fibonacci term of the topic's
    [fibNumber], as long as [F], [k], [bias], [F * k] and [F * k + bias]
    are below [2^53] in magnitude: no rounding takes place. *)
Theorem offsetDays_integer_weight (f : FibNumbers.t) (n raw k b : Z) :
  FibNumbers.reachable f -> 1 <= n ->
  fst (FibNumbers.getNthFibNumber n f) = inr raw ->
  Z.abs raw < 2 ^ 53 -> Z.abs k < 2 ^ 53 -> Z.abs b < 2 ^ 53 ->
  Z.abs (raw * k) < 2 ^ 53 -> Z.abs (raw * k + b) < 2 ^ 53 ->
  fst (Predictor.offsetDays n (Float.round k 0) b f) = inr (raw * k + b).
Proof.
  intros Hr Hn Hraw B1 B2 B3 B4 B5.
  unfold Predictor.offsetDays, Py.bind, Py.lift.
  destruct (FibNumbers.getNthFibNumber n f) as [[e|raw'] f']; [discriminate|].
  simpl in Hraw. injection Hraw as ->. simpl.
  apply actualPred_exact; assumption.
Qed.

Lemma offsetDays_integer_weight_witness :
  fst (Predictor.offsetDays 10 (Float.round 3 0) (-7) FibNumbers.init) =
  inr (55 * 3 + -7).
Proof.
  apply (offsetDays_integer_weight FibNumbers.init 10 55 3 (-7)).
  - apply FibNumbers.reachable_init.
  - lia.
  - reflexivity.
  - simpl. lia.
  - simpl. lia.
  - simpl. lia.
  - simpl. lia.
  - simpl. lia.
Defined.

(** ** The commands and the validators *)

Lemma append_nil_r (s : string) : (s ++ "")%string = s.
Proof. induction s as [|c s IH]; simpl; [reflexivity|rewrite IH; reflexivity]. Qed.

Lemma UID_init_uid (u : UID.t) : UID.init (UID.uid u) = u.
Proof. destruct u. reflexivity. Qed.

Lemma wf_records_NoDup (self : Database.t) :
  Database.wf self = true -> NoDup (Database.records self).
Proof.
  intros Hwf. apply (NoDup_map_inv Record.uid). rewrite (wf_uids self Hwf).
  apply unique_keys_NoDup. unfold Database.wf in Hwf.
  apply andb_prop in Hwf. apply Hwf.
Qed.

Lemma subjUID_fold_none (subjectName : string) (l : list Record.t) (acc : string) :
  (forall s, In (Record.OfSubject s) l -> Subject.name s <> subjectName) ->
  fold_left
    (fun subjUID record =>
       match record with
       | Record.OfSubject s =>
           if String.eqb (Subject.name s) subjectName
           then (subjUID ++ UID.uid (Subject.uid s))%string else subjUID
       | Record.OfTopic _ => subjUID
       end) l acc = acc.
Proof.
  revert acc. induction l as [|r l IH]; intros acc H; simpl; [reflexivity|].
  rewrite IH by (intros s Hs; apply H; right; exact Hs).
  destruct r as [s|t]; simpl; [|reflexivity].
  destruct (String.eqb_spec (Subject.name s) subjectName) as [E|_]; [|reflexivity].
  exfalso. apply (H s); [left; reflexivity|exact E].
Qed.

Lemma subjUID_fold_unique (subjectName : string) (l : list Record.t)
    (acc : string) (s : Subject.t) :
  NoDup l -> In (Record.OfSubject s) l -> Subject.name s = subjectName ->
  (forall s', In (Record.OfSubject s') l -> Subject.name s' = subjectName -> s' = s) ->
  fold_left
    (fun subjUID record =>
       match record with
       | Record.OfSubject s =>
           if String.eqb (Subject.name s) subjectName
           then (subjUID ++ UID.uid (Subject.uid s))%string else subjUID
       | Record.OfTopic _ => subjUID
       end) l acc = (acc ++ UID.uid (Subject.uid s))%string.
Proof.
  intros Hnd. revert acc. induction Hnd as [|r l Hnot Hnd IH]; intros acc Hin Hn Hu;
    [destruct Hin|].
  cbn [fold_left]. destruct Hin as [->|Hin].
  - rewrite Hn, String.eqb_refl. apply subjUID_fold_none.
    intros s' Hs' E. apply Hnot. rewrite <- (Hu s' (or_intror Hs') E). exact Hs'.
  - assert (Hr : match r with
                 | Record.OfSubject s0 =>
                     if String.eqb (Subject.name s0) subjectName
                     then (acc ++ UID.uid (Subject.uid s0))%string else acc
                 | Record.OfTopic _ => acc
                 end = acc).
    { destruct r as [s'|t]; [|reflexivity].
      destruct (String.eqb_spec (Subject.name s') subjectName) as [E|_];
        [|reflexivity].
      exfalso. apply Hnot. rewrite (Hu s' (or_introl eq_refl) E). exact Hin. }
    rewrite Hr. apply IH; [exact Hin|exact Hn|].
    intros s' Hs' E. apply Hu; [right; exact Hs'|exact E].
Qed.

Lemma subjUID_of_unique (db : Database.t) (subjectName : string) (s : Subject.t) :
  Database.wf db = true ->
  In (Record.OfSubject s) (Database.records db) ->
  Subject.name s = subjectName ->
  (forall s', In (Record.OfSubject s') (Database.records db) ->
              Subject.name s' = subjectName -> s' = s) ->
  cli.subjUID_of db subjectName = UID.uid (Subject.uid s).
Proof.
  intros Hwf Hin Hn Hu. unfold cli.subjUID_of.
  fold (Database.records db).
  apply (subjUID_fold_unique subjectName (Database.records db) "" s);
    try assumption.
  apply wf_records_NoDup. exact Hwf.
Qed.

(** X16.  The validator of subject names accepts a text exactly when some
    subject of the database has that name. *)
Theorem getSubjectNameValidator_spec (db : Database.t) (inText : string) :
  validators.getSubjectNameValidator db inText = true <->
  exists s, In (Record.OfSubject s) (Database.records db) /\
            Subject.name s = inText.
Proof.
  unfold validators.getSubjectNameValidator, validators.getStrListValidator,
    validators.getSubjectNames.
  rewrite existsb_exists. split.
  - intros (n & Hin & E). apply String.eqb_eq in E. subst n.
    apply in_flat_map in Hin. destruct Hin as ([s|t] & Hr & Hn); simpl in Hn.
    + destruct Hn as [Hn|[]]. exists s. split; [exact Hr|exact Hn].
    + destruct Hn.
  - intros (s & Hin & Hn). exists inText. split; [|apply String.eqb_refl].
    apply in_flat_map. exists (Record.OfSubject s). split; [exact Hin|].
    simpl. left. exact Hn.
Qed.

(** X17.  [createTopic] with a new uid and the name of exactly one subject
    of the database adds, at the end of the database, an active topic of
    [fibNumber] 2 with the given name, whose [subjectUID] is the uid of that
    subject, so that the topic is not a dangling one; its [lastStudy] is the
    default of [dTime]. *)
Theorem createTopic_links_subject (m : db_module) (self : Database.t)
    (newUID : UID.t) (topicName subjectName : string) (s : Subject.t) :
  Database.wf self = true ->
  Database.has_key self newUID = false ->
  In (Record.OfSubject s) (Database.records self) ->
  Subject.name s = subjectName ->
  (forall s', In (Record.OfSubject s') (Database.records self) ->
              Subject.name s' = subjectName -> s' = s) ->
  exists self',
    cli.createTopic m newUID topicName subjectName self = (inr tt, self') /\
    Database.recordDict self' =
      Database.recordDict self ++
      [(newUID,
        Record.OfTopic
          {| Topic.uid := newUID; Topic.name := topicName;
             Topic.subjectUID := Subject.uid s; Topic.active := true;
             Topic.lastStudy := Topic_init_dTime_default m;
             Topic.fibNumber := 2 |})] /\
    forall t, In (Record.OfTopic t) (Database.records self') ->
              Topic.uid t = newUID -> ~ Database.dangling self' t.
Proof.
  intros Hwf Hk Hin Hn Hu.
  unfold cli.createTopic, Py.bind, Py.gets.
  rewrite (subjUID_of_unique self subjectName s Hwf Hin Hn Hu), UID_init_uid.
  rewrite insert_spec. cbn [Record.uid Topic.init Topic.uid]. rewrite Hk.
  eexists. split; [reflexivity|]. cbn [Database.recordDict].
  rewrite (set_fresh UID.eqb) by exact Hk. split; [reflexivity|].
  intros t Ht Huid Hd.
  unfold Database.records, PyDict.values in Ht. cbn [Database.recordDict] in Ht.
  rewrite map_app in Ht. apply in_app_or in Ht. destruct Ht as [Ht|Ht].
  - (* a topic of the old database with the new uid: impossible *)
    assert (Hc : In newUID (map Record.uid (Database.records self))).
    { apply in_map_iff. exists (Record.OfTopic t). split; [exact Huid|exact Ht]. }
    rewrite (wf_uids self Hwf) in Hc.
    apply (contains_In UID.eqb UID_eqb_eq) in Hc.
    unfold Database.has_key in Hk. congruence.
  - simpl in Ht. destruct Ht as [[= <-]|[]].
    apply (Hd s); [|reflexivity].
    unfold Database.records, PyDict.values. cbn [Database.recordDict].
    rewrite map_app. apply in_or_app. left. exact Hin.
Qed.

Lemma createTopic_links_subject_witness :
  exists self',
    cli.createTopic Sample.db_mod (UID.init "t9") "groups" "maths" Sample.db =
      (inr tt, self') /\
    Database.recordDict self' =
      Database.recordDict Sample.db ++
      [(UID.init "t9",
        Record.OfTopic
          {| Topic.uid := UID.init "t9"; Topic.name := "groups";
             Topic.subjectUID := Subject.uid Sample.maths; Topic.active := true;
             Topic.lastStudy := Topic_init_dTime_default Sample.db_mod;
             Topic.fibNumber := 2 |})] /\
    forall t, In (Record.OfTopic t) (Database.records self') ->
              Topic.uid t = UID.init "t9" -> ~ Database.dangling self' t.
Proof.
  apply (createTopic_links_subject Sample.db_mod Sample.db (UID.init "t9")
           "groups" "maths" Sample.maths).
  - reflexivity.
  - reflexivity.
  - simpl. left. reflexivity.
  - reflexivity.
  - intros s' Hs' _. simpl in Hs'.
    destruct Hs' as [[= <-]|[H|[]]]; [reflexivity|discriminate].
Defined.

Lemma wf_records_lookup (self : Database.t) (record : Record.t) :
  Database.wf self = true ->
  In record (Database.records self) ->
  PyDict.lookup UID.eqb (Database.recordDict self) (Record.uid record) =
  Some record.
Proof.
  unfold Database.wf, Database.records, PyDict.values. intros H Hin.
  apply andb_prop in H. destruct H as [Hu Hk].
  apply in_map_iff in Hin. destruct Hin as ([k r] & Hr & Hin). simpl in Hr.
  subst r. rewrite forallb_forall in Hk. pose proof (Hk _ Hin) as Hk'.
  simpl in Hk'. apply UID_eqb_eq in Hk'. subst k.
  apply (lookup_In UID.eqb UID_eqb_eq _ _ _ Hu). exact Hin.
Qed.

Lemma allTopics_In (db : Database.t) (subjUID : string) (t : Topic.t) :
  In t (cli.allTopics db subjUID) <->
  In (Record.OfTopic t) (Database.records db) /\
  UID.uid (Topic.subjectUID t) = subjUID.
Proof.
  unfold cli.allTopics. fold (Database.records db). rewrite in_flat_map. split.
  - intros ([s|t'] & Hr & Ht); simpl in Ht; [destruct Ht|].
    destruct (String.eqb_spec (UID.uid (Topic.subjectUID t')) subjUID) as [E|E];
      [|destruct Ht].
    destruct Ht as [<-|[]]. split; assumption.
  - intros [Hr E]. exists (Record.OfTopic t). split; [exact Hr|].
    simpl. rewrite E, String.eqb_refl. left. reflexivity.
Qed.

Lemma allTopics_NoDup (db : Database.t) (subjUID : string) :
  NoDup (Database.records db) -> NoDup (cli.allTopics db subjUID).
Proof.
  unfold cli.allTopics. fold (Database.records db).
  induction (Database.records db) as [|r l IH]; intros Hnd; simpl;
    [constructor|].
  inversion Hnd as [|? ? Hnot Hnd']; subst.
  destruct r as [s|t]; simpl; [apply IH; exact Hnd'|].
  destruct (String.eqb (UID.uid (Topic.subjectUID t)) subjUID); simpl;
    [|apply IH; exact Hnd'].
  constructor; [|apply IH; exact Hnd'].
  intros Hin. apply Hnot. apply in_flat_map in Hin.
  destruct Hin as ([s|t'] & Hr & Ht); simpl in Ht; [destruct Ht|].
  destruct (String.eqb (UID.uid (Topic.subjectUID t')) subjUID); [|destruct Ht].
  destruct Ht as [<-|[]]. exact Hr.
Qed.

Lemma topicUID_fold_none (topicName : string) (l : list Topic.t) (acc : string) :
  (forall t, In t l -> Topic.name t <> topicName) ->
  fold_left
    (fun topicUID topic =>
       if String.eqb (Topic.name topic) topicName
       then (topicUID ++ UID.uid (Topic.uid topic))%string else topicUID)
    l acc = acc.
Proof.
  revert acc. induction l as [|r l IH]; intros acc H; simpl; [reflexivity|].
  rewrite IH by (intros t Ht; apply H; right; exact Ht).
  destruct (String.eqb_spec (Topic.name r) topicName) as [E|_]; [|reflexivity].
  exfalso. apply (H r); [left; reflexivity|exact E].
Qed.

Lemma topicUID_fold_unique (topicName : string) (l : list Topic.t)
    (acc : string) (t : Topic.t) :
  NoDup l -> In t l -> Topic.name t = topicName ->
  (forall t', In t' l -> Topic.name t' = topicName -> t' = t) ->
  fold_left
    (fun topicUID topic =>
       if String.eqb (Topic.name topic) topicName
       then (topicUID ++ UID.uid (Topic.uid topic))%string else topicUID)
    l acc = (acc ++ UID.uid (Topic.uid t))%string.
Proof.
  intros Hnd. revert acc. induction Hnd as [|r l Hnot Hnd IH]; intros acc Hin Hn Hu;
    [destruct Hin|].
  cbn [fold_left]. destruct Hin as [->|Hin].
  - rewrite Hn, String.eqb_refl. apply topicUID_fold_none.
    intros t' Ht' E. apply Hnot. rewrite <- (Hu t' (or_intror Ht') E). exact Ht'.
  - destruct (String.eqb_spec (Topic.name r) topicName) as [E|_].
    + exfalso. apply Hnot. rewrite (Hu r (or_introl eq_refl) E). exact Hin.
    + apply IH; [exact Hin|exact Hn|].
      intros t' Ht' E. apply Hu; [right; exact Ht'|exact E].
Qed.

(** X18.  [completeTask] with the name of exactly one subject and the name
    of exactly one topic among the topics of that subject completes that
    topic: it returns normally and the database differs only in that the
    topic's [fibNumber] is one more. *)
Theorem completeTask_completes (db : Database.t) (subjectName topicName : string)
    (s : Subject.t) (t : Topic.t) :
  Database.wf db = true ->
  In (Record.OfSubject s) (Database.records db) ->
  Subject.name s = subjectName ->
  (forall s', In (Record.OfSubject s') (Database.records db) ->
              Subject.name s' = subjectName -> s' = s) ->
  In (Record.OfTopic t) (Database.records db) ->
  Topic.subjectUID t = Subject.uid s ->
  Topic.name t = topicName ->
  (forall t', In (Record.OfTopic t') (Database.records db) ->
              Topic.subjectUID t' = Subject.uid s ->
              Topic.name t' = topicName -> t' = t) ->
  cli.completeTask subjectName topicName db =
  (inr tt,
   {| Database.recordDict :=
        PyDict.set UID.eqb (Database.recordDict db) (Topic.uid t)
          (Record.OfTopic
             {| Topic.uid := Topic.uid t; Topic.name := Topic.name t;
                Topic.subjectUID := Topic.subjectUID t;
                Topic.active := Topic.active t;
                Topic.lastStudy := Topic.lastStudy t;
                Topic.fibNumber := Topic.fibNumber t + 1 |}) |}).
Proof.
  intros Hwf Hs Hsn Hsu Ht Htu Htn Htt.
  unfold cli.completeTask, Py.bind, Py.gets.
  rewrite (subjUID_of_unique db subjectName s Hwf Hs Hsn Hsu).
  unfold cli.topicUID_of.
  rewrite (topicUID_fold_unique topicName _ "" t).
  - simpl append. rewrite UID_init_uid.
    apply (completeTopic_spec db (Topic.uid t) t Hwf).
    apply (wf_records_lookup db (Record.OfTopic t) Hwf Ht).
  - apply allTopics_NoDup, wf_records_NoDup, Hwf.
  - apply allTopics_In. split; [exact Ht|]. rewrite Htu. reflexivity.
  - exact Htn.
  - intros t' Ht' E. apply allTopics_In in Ht'. destruct Ht' as [Hr Hu].
    apply Htt; [exact Hr| |exact E].
    destruct (Topic.subjectUID t'), (Subject.uid s). simpl in Hu. congruence.
Qed.

Lemma completeTask_completes_witness :
  cli.completeTask "maths" "sets" Sample.db =
  (inr tt,
   {| Database.recordDict :=
        PyDict.set UID.eqb (Database.recordDict Sample.db)
          (Topic.uid Sample.sets)
          (Record.OfTopic
             {| Topic.uid := Topic.uid Sample.sets;
                Topic.name := Topic.name Sample.sets;
                Topic.subjectUID := Topic.subjectUID Sample.sets;
                Topic.active := Topic.active Sample.sets;
                Topic.lastStudy := Topic.lastStudy Sample.sets;
                Topic.fibNumber := Topic.fibNumber Sample.sets + 1 |}) |}).
Proof.
  apply (completeTask_completes Sample.db "maths" "sets" Sample.maths Sample.sets).
  - reflexivity.
  - simpl. left. reflexivity.
  - reflexivity.
  - intros s' Hs' _. simpl in Hs'.
    destruct Hs' as [[= <-]|[H|[]]]; [reflexivity|discriminate].
  - simpl. right. left. reflexivity.
  - reflexivity.
  - reflexivity.
  - intros t' Ht' _ _. simpl in Ht'.
    destruct Ht' as [H|[[= <-]|[]]]; [discriminate|reflexivity].
Defined.

(** ** Generated identifiers *)

Lemma append_same_length (a b c d : string) :
  String.length a = String.length b ->
  (a ++ c)%string = (b ++ d)%string -> a = b /\ c = d.
Proof.
  revert b. induction a as [|x a IH]; intros [|y b] Hl H; simpl in *;
    try discriminate.
  - split; [reflexivity|exact H].
  - injection H as -> H. injection Hl as Hl.
    destruct (IH b Hl H) as [-> ->]. split; reflexivity.
Qed.

(** X20.  [generateUID] keeps its random token apart from the clock
    reading: two generated identifiers whose tokens have the same length
    (as the hexadecimal tokens of 12 bytes do) are equal only if the tokens
    are equal, whatever the clock read. *)
Theorem generateUID_distinct (utcnow1 utcnow2 : datetime.t)
    (token1 token2 : string) :
  String.length token1 = String.length token2 ->
  token1 <> token2 ->
  UID.eqb (UID.init (UID.generateUID utcnow1 token1))
          (UID.init (UID.generateUID utcnow2 token2)) = false.
Proof.
  intros Hl Hne. unfold UID.eqb, UID.init, UID.generateUID. cbn [UID.uid].
  apply String.eqb_neq. simpl append. intros H.
  apply (append_same_length _ _ _ _ Hl) in H. apply Hne. apply H.
Qed.

Lemma generateUID_distinct_witness :
  UID.eqb
    (UID.init (UID.generateUID (Sample.now 0) "00a1b2c3d4e5f60718293a4b"))
    (UID.init (UID.generateUID (Sample.now 0) "10a1b2c3d4e5f60718293a4b"))
  = false.
Proof.
  apply (generateUID_distinct (Sample.now 0) (Sample.now 0)
           "00a1b2c3d4e5f60718293a4b" "10a1b2c3d4e5f60718293a4b").
  - reflexivity.
  - discriminate.
Defined.
